(** * nyuki: bus-event persistence fallback and workflow registry

    A shallow embedding of
      - [nyuki/bus/persistence/persistence.py] ([FIFOSizedQueue],
        [BusPersistence]),
      - [nyuki/utils/mongo.py] ([MongoManager]),
      - [nyuki/workflow/workflow.py] ([WorkflowInstance], [WorkflowNyuki]),
    over a small model of Python objects: immutable atoms, and dicts and
    lists that live in a heap and are passed around by reference. *)

From Stdlib Require Import ZArith Lia.
From stdpp Require Import base option list gmap strings fin_maps.

Open Scope string_scope.
Open Scope list_scope.
Open Scope Z_scope.

(** ** Python values, objects and exceptions *)

Module Py.

Definition loc := nat.

(** Atoms are immutable; dicts and lists are heap objects reached through
    [VRef].  [VOpaque ty] is an instance of a class [ty] that is none of
    the built-in types named in this file. *)
Inductive val :=
| VNone
| VBool (b : bool)
| VInt (z : Z)
| VStr (s : string)
| VTime (t : Z)
| VOpaque (ty : string)
| VRef (l : loc).

#[export] Instance val_eq_dec : EqDecision val.
Proof. solve_decision. Defined.

Inductive obj :=
| ODict (d : gmap string val)
| OList (l : list val).

Definition heap := list obj.

Inductive exn :=
| KeyError (key : val)
| IndexError
| TypeError
| AttributeError (attr : string)
| UnboundLocalError (var : string)
| RecursionError
| ExternalError (name : string)
| PersistenceError (cause : exn).

Inductive result (A : Type) :=
| Ok (a : A)
| Raise (e : exn).
Arguments Ok {A} a.
Arguments Raise {A} e.

(** A computation reads and writes a state [S] and either returns or
    raises; what it wrote before raising stays written. *)
Definition M (S A : Type) := S → result A * S.

Definition ret {S A} (a : A) : M S A := λ s, (Ok a, s).
Definition raise {S A} (e : exn) : M S A := λ s, (Raise e, s).
Definition bind {S A B} (m : M S A) (k : A → M S B) : M S B :=
  λ s, match m s with
       | (Ok a, s') => k a s'
       | (Raise e, s') => (Raise e, s')
       end.
Definition get {S} : M S S := λ s, (Ok s, s).
Definition modify {S} (f : S → S) : M S () := λ s, (Ok (), f s).
Definition lift {S A} (r : result A) : M S A := λ s, (r, s).

(** [try: m  except Exception as exc: h exc] *)
Definition try_except {S A} (m : M S A) (h : exn → M S A) : M S A :=
  λ s, match m s with
       | (Ok a, s') => (Ok a, s')
       | (Raise e, s') => h e s'
       end.

Notation "'let*' x ':=' m 'in' k" := (bind m (λ x, k))
  (at level 10, x name, m at level 100, k at level 200).
Notation "m ';;;' k" := (bind m (λ _, k))
  (at level 100, k at level 200, right associativity).

(** [d[k]] on a dict value. *)
Definition getitem (d : gmap string val) (k : string) : result val :=
  match d !! k with
  | Some v => Ok v
  | None => Raise (KeyError (VStr k))
  end.

(** [{**a, **b}]: the keys of both, [b] winning where both have one. *)
Definition dict_merge (a b : gmap string val) : gmap string val := b ∪ a.

(** [v == s] for a [str] [s]: only an equal [str] compares equal. *)
Definition eq_str (v : val) (s : string) : bool :=
  match v with
  | VStr s' => bool_decide (s' = s)
  | _ => false
  end.

(** [bool(v)] *)
Definition truthy (h : heap) (v : val) : bool :=
  match v with
  | VNone => false
  | VBool b => b
  | VInt z => negb (z =? 0)%Z
  | VStr s => negb (bool_decide (s = ""))
  | VTime _ => true
  | VOpaque _ => true
  | VRef l =>
      match h !! l with
      | Some (ODict d) => negb (bool_decide (d = ∅))
      | Some (OList l) => negb (bool_decide (l = []))
      | None => true
      end
  end.

(** Heap primitives, as computations over the heap alone. *)

(** A new object; its reference is the next free location. *)
Definition alloc (o : obj) : M heap loc :=
  λ h, (Ok (length h), h ++ [o]).

(** The dict behind a value; anything else is not subscriptable by key. *)
Definition dict_of (v : val) : M heap (gmap string val) :=
  λ h, match v with
       | VRef l => match h !! l with
                   | Some (ODict d) => (Ok d, h)
                   | _ => (Raise TypeError, h)
                   end
       | _ => (Raise TypeError, h)
       end.

(** The items of a list object, as a [for] loop over it sees them. *)
Definition list_of (v : val) : M heap (list val) :=
  λ h, match v with
       | VRef l => match h !! l with
                   | Some (OList items) => (Ok items, h)
                   | _ => (Raise TypeError, h)
                   end
       | _ => (Raise TypeError, h)
       end.

(** [v[k]] *)
Definition getitem_of (v : val) (k : string) : M heap val :=
  let* d := dict_of v in lift (getitem d k).

(** [v[k] = x] *)
Definition setitem_of (v : val) (k : string) (x : val) : M heap () :=
  let* d := dict_of v in
  match v with
  | VRef l => modify (λ h, <[l := ODict (<[k := x]> d)]> h)
  | _ => raise TypeError
  end.

(** [v.update(d')] for a dict value [d']. *)
Definition update_of (v : val) (d' : gmap string val) : M heap () :=
  let* d := dict_of v in
  match v with
  | VRef l => modify (λ h, <[l := ODict (dict_merge d d')]> h)
  | _ => raise TypeError
  end.

End Py.
Import Py.

(** ** nyuki/bus/persistence/persistence.py *)

Module Persistence.

(** *** FIFOSizedQueue *)

Record FIFOSizedQueue (A : Type) := {
  _list : list A;
  _size : Z;
}.
Arguments _list {A} _.
Arguments _size {A} _.
Arguments Build_FIFOSizedQueue {A} _ _.

(** [FIFOSizedQueue(size)] *)
Definition new_queue {A} (size : Z) : FIFOSizedQueue A :=
  {| _list := []; _size := size |}.

(** The loop of [put]:
[[
    while len(self._list) > self._size:
        self._list.pop(0)
]]
    [list.pop(0)] raises [IndexError] on an empty list. *)
Fixpoint put_evict {A} (size : Z) (l : list A) : result (list A) :=
  if Z.of_nat (length l) >? size then
    match l with
    | [] => Raise IndexError
    | _ :: l' => put_evict size l'
    end
  else Ok l.

Definition put {A} (q : FIFOSizedQueue A) (item : A)
  : result (FIFOSizedQueue A) :=
  match put_evict (_size q) (_list q) with
  | Ok l => Ok {| _list := l ++ [item]; _size := _size q |}
  | Raise e => Raise e
  end.

(** [pop]: [self._list.pop(0)] *)
Definition pop {A} (q : FIFOSizedQueue A) : result (A * FIFOSizedQueue A) :=
  match _list q with
  | [] => Raise IndexError
  | x :: l => Ok (x, {| _list := l; _size := _size q |})
  end.

(** [empty]: yields [self.pop()] while the list is not empty; run to
    completion it hands out the whole list in order and leaves it empty. *)
Definition empty {A} (q : FIFOSizedQueue A) : list A * FIFOSizedQueue A :=
  (_list q, {| _list := []; _size := _size q |}).

(** A run of [put] calls, stopping at the first one that raises. *)
Fixpoint puts {A} (q : FIFOSizedQueue A) (items : list A)
  : result (FIFOSizedQueue A) :=
  match items with
  | [] => Ok q
  | x :: items' =>
      match put q x with
      | Ok q' => puts q' items'
      | Raise e => Raise e
      end
  end.

(** The names an instance of [FIFOSizedQueue] answers to. *)
Inductive queue_attr := attr_list | attr_put | attr_pop | attr_empty.

Definition queue_getattr (name : string) : result queue_attr :=
  if bool_decide (name = "list") then Ok attr_list
  else if bool_decide (name = "put") then Ok attr_put
  else if bool_decide (name = "pop") then Ok attr_pop
  else if bool_decide (name = "empty") then Ok attr_empty
  else Raise (AttributeError name).

(** *** EventStatus

    The enum of [nyuki/bus/persistence/events.py], taken as an interface:
    its members are a parameter.  [value m] is [m.value] and
    [by_name s] is [EventStatus[s]], which raises [KeyError] when no member
    is named [s].  Members of a plain [Enum] are all truthy. *)
Class EventStatusEnum := {
  EventStatus : Type;
  EventStatus_eq_dec :: EqDecision EventStatus;
  value : EventStatus → string;
  by_name : string → option EventStatus;
}.

Section BusPersistence.
Context {E : EventStatusEnum}.

(** The [status] argument of [retrieve]: a member or a list of members. *)
Inductive status_arg :=
| StatusOne (m : EventStatus)
| StatusList (ms : list EventStatus).

(** *** The backend

    [MongoBackend] is an external collaborator: a backend is given by what
    each of its coroutines answers. *)
Record Backend := {
  b_ping : result bool;
  b_store : gmap string val → result val;
  b_update : string → EventStatus → result val;
  b_retrieve : option Z → option status_arg → result val;
}.

(** *** BusPersistence *)

Definition MEMORY_TTL : Z := 86400.
Definition QUEUE_SIZE : Z := 1000.

Record BusPersistence := {
  _last_events : FIFOSizedQueue loc;
  backend : option Backend;
}.

(** What [loop.call_later] is handed: the closure [del_event] of [store],
    which captures [event]. *)
Inductive callback :=
| del_event_closure (event : loc).

(** The process as [BusPersistence] sees it: the objects, the instance,
    and the event loop's timers and exception-handler calls, both in call
    order. *)
Record world := {
  objects : heap;
  self : BusPersistence;
  timers : list (Z * callback);
  exception_handler_calls : list exn;
}.

Definition set_objects (h : heap) (w : world) : world :=
  {| objects := h; self := self w; timers := timers w;
     exception_handler_calls := exception_handler_calls w |}.

Definition set_last_events (q : FIFOSizedQueue loc) (w : world) : world :=
  {| objects := objects w;
     self := {| _last_events := q; backend := backend (self w) |};
     timers := timers w;
     exception_handler_calls := exception_handler_calls w |}.

(** [self._loop.call_later(delay, cb)] *)
Definition call_later (delay : Z) (cb : callback) : M world () :=
  modify (λ w, {| objects := objects w; self := self w;
                  timers := timers w ++ [(delay, cb)];
                  exception_handler_calls := exception_handler_calls w |}).

(** [BusPersistence(backend)] once constructed. *)
Definition new_persistence (b : option Backend) : BusPersistence :=
  {| _last_events := new_queue QUEUE_SIZE; backend := b |}.

(** A heap computation, run on the objects of the world. *)
Definition on_objects {A} (m : M heap A) : M world A :=
  λ w, let (r, h) := m (objects w) in (r, set_objects h w).

(** [event[k]] *)
Definition getitem_at (event : loc) (k : string) : M world val :=
  on_objects (getitem_of (VRef event) k).

(** [event[k] = v] *)
Definition setitem_at (event : loc) (k : string) (v : val) : M world () :=
  on_objects (setitem_of (VRef event) k v).

(** [ping]: [None] without a backend. *)
Definition ping : M world (option bool) :=
  λ w, match backend (self w) with
       | Some b => match b_ping b with
                   | Ok r => (Ok (Some r), w)
                   | Raise e => (Raise e, w)
                   end
       | None => (Ok None, w)
       end.

Definition healthy (r : option bool) : bool :=
  match r with Some true => true | _ => false end.

(** [self._last_events.put(event)].  When [put] raises, its loop has
    popped every entry before the pop that raised: the list is left
    empty. *)
Definition queue_put (event : loc) : M world () :=
  λ w, match put (_last_events (self w)) event with
       | Ok q => (Ok (), set_last_events q w)
       | Raise e =>
           (Raise e,
            set_last_events
              {| _list := []; _size := _size (_last_events (self w)) |} w)
       end.

(** [del_event], the body of the closure:
    [self._last_events.remove(event)]. *)
Definition del_event (event : loc) : M world val :=
  let* m := lift (queue_getattr "remove") in
  match m with
  | attr_put => queue_put event ;;; ret VNone
  | _ => raise TypeError
  end.

Definition run_callback (cb : callback) : M world val :=
  match cb with
  | del_event_closure event => del_event event
  end.

(** A call into the backend, wrapped as the three write and read paths do:
[[
    try:
        return await self.backend.<op>(...)
    except Exception as exc:
        raise PersistenceError from exc
]] *)
Definition through_backend (name : string)
    (op : Backend → world → result val) : M world val :=
  try_except
    (λ w, match backend (self w) with
          | Some b => (op b w, w)
          | None => (Raise (AttributeError name), w)
          end)
    (λ exc, raise (PersistenceError exc)).

Definition store (event : loc) (utcnow : Z) : M world val :=
  setitem_at event "created_at" (VTime utcnow) ;;;
  let* p := ping in
  if healthy p then
    through_backend "store" (λ b w,
      match objects w !! event with
      | Some (ODict d) => b_store b d
      | _ => Raise TypeError
      end)
  else
    queue_put event ;;;
    call_later MEMORY_TTL (del_event_closure event) ;;;
    ret VNone.

(** The in-memory loop of [update]. *)
Fixpoint update_in_memory (uid : string) (status : EventStatus)
    (events : list loc) : M world val :=
  match events with
  | [] => ret VNone
  | event :: events' =>
      let* id := getitem_at event "id" in
      if eq_str id uid then
        setitem_at event "status" (VStr (value status)) ;;; ret VNone
      else update_in_memory uid status events'
  end.

Definition update (uid : string) (status : EventStatus) : M world val :=
  let* p := ping in
  if healthy p then
    through_backend "update" (λ b _, b_update b uid status)
  else
    let* w := get in
    update_in_memory uid status (_list (_last_events (self w))).

(** [EventStatus[v]] *)
Definition member_named (v : val) : result EventStatus :=
  match v with
  | VStr s => match by_name s with
              | Some m => Ok m
              | None => Raise (KeyError v)
              end
  | _ => Raise (KeyError v)
  end.

(** [bool(status)] for the argument of [retrieve]. *)
Definition status_truthy (st : status_arg) : bool :=
  match st with
  | StatusOne _ => true
  | StatusList ms => negb (bool_decide (ms = []))
  end.

(** [check_params], the predicate local to [retrieve]. *)
Definition check_params (since : option Z) (status : option status_arg)
    (item : loc) : M world bool :=
  let* since_check :=
    match since with
    | Some t =>
        let* c := getitem_at item "created_at" in
        match c with
        | VTime t' => ret (t <=? t')
        | _ => raise TypeError
        end
    | None => ret true
    end in
  let* status_check :=
    match status with
    | Some st =>
        if status_truthy st then
          match st with
          | StatusList ms =>
              let* s := getitem_at item "status" in
              let* m := lift (member_named s) in
              ret (bool_decide (m ∈ ms))
          | StatusOne m0 =>
              let* s := getitem_at item "status" in
              ret (eq_str s (value m0))
          end
        else ret true
    | None => ret true
    end in
  ret (since_check && status_check).

(** A full iteration of [filter(f, items)]. *)
Fixpoint py_filter (f : loc → M world bool) (items : list loc)
  : M world (list loc) :=
  match items with
  | [] => ret []
  | item :: items' =>
      let* keep := f item in
      let* rest := py_filter f items' in
      ret (if keep then item :: rest else rest)
  end.

(** What [retrieve] returns: the backend's answer, or the [filter] object
    over the buffer.  That object holds [check_params], closed over
    [since] and [status], and the list of the queue itself; nothing is
    read, and nothing can raise, before it is iterated. *)
Inductive retrieved :=
| FromBackend (v : val)
| FromMemory (since : option Z) (status : option status_arg).

Definition retrieve (since : option Z) (status : option status_arg)
  : M world retrieved :=
  let* p := ping in
  if healthy p then
    let* v := through_backend "retrieve" (λ b _, b_retrieve b since status) in
    ret (FromBackend v)
  else ret (FromMemory since status).

(** A first full iteration of the [filter] object [retrieve] returned, as
    [list(...)] or a [for] loop of the caller makes it: [check_params]
    runs then, on the entries the list of the queue holds then. *)
Definition iterate_filter (since : option Z) (status : option status_arg)
  : M world (list loc) :=
  let* w := get in
  py_filter (check_params since status) (_list (_last_events (self w))).

End BusPersistence.

End Persistence.

(** ** nyuki/utils/mongo.py *)

Module Mongo.

Definition DATABASE_PREFIX : string := "org-".
Definition DEFAULT_DATABASE : string := "default".

(** [s.startswith(p)] *)
Definition startswith (s p : string) : bool := String.prefix p s.

(** [s.replace(old, new)] for a non-empty [old]: every occurrence of [old],
    scanning from the left and not overlapping, gives way to [new].
    [skip] counts the characters of a match still to be passed over. *)
Fixpoint replace_from (old new : string) (skip : nat) (s : string) : string :=
  match s with
  | EmptyString => EmptyString
  | String c s' =>
      match skip with
      | S k => replace_from old new k s'
      | O =>
          if String.prefix old s
          then new +:+ replace_from old new (String.length old - 1) s'
          else String c (replace_from old new 0 s')
      end
  end.

(** With an empty [old], [new] goes before every character and at the
    end. *)
Fixpoint replace_empty (new : string) (s : string) : string :=
  match s with
  | EmptyString => new
  | String c s' => new +:+ String c (replace_empty new s')
  end.

Definition replace (s old new : string) : string :=
  match old with
  | EmptyString => replace_empty new s
  | _ => replace_from old new 0 s
  end.

(** [_db_name]: ['{}{}'.format(DATABASE_PREFIX, name or DEFAULT_DATABASE)];
    [None] and the empty string are the falsy names. *)
Definition _db_name (name : option string) : string :=
  DATABASE_PREFIX +:+
    match name with
    | Some n => if bool_decide (n = "") then DEFAULT_DATABASE else n
    | None => DEFAULT_DATABASE
    end.

(** [list_databases], given what [self._client.database_names()] answered. *)
Definition list_databases (names : list string) : list string :=
  (λ name, replace name DATABASE_PREFIX "")
    <$> filter (λ name, startswith name DATABASE_PREFIX = true) names.

End Mongo.

(** ** Insertion-ordered dicts

    A Python dict whose iteration order matters ([.values()] loops):
    an association list with one entry per key, new keys at the end. *)

Module ODict.
Section odict.
Context {K V : Type} `{EqDecision K}.

(** [d.get(k)] *)
Fixpoint odict_get (k : K) (d : list (K * V)) : option V :=
  match d with
  | [] => None
  | (k', v) :: d' => if decide (k = k') then Some v else odict_get k d'
  end.

(** [d[k] = v] *)
Fixpoint odict_set (k : K) (v : V) (d : list (K * V)) : list (K * V) :=
  match d with
  | [] => [(k, v)]
  | (k', v') :: d' =>
      if decide (k = k') then (k, v) :: d' else (k', v') :: odict_set k v d'
  end.

(** [del d[k]], for a key that is there. *)
Fixpoint odict_del (k : K) (d : list (K * V)) : list (K * V) :=
  match d with
  | [] => []
  | (k', v') :: d' =>
      if decide (k = k') then d' else (k', v') :: odict_del k d'
  end.

(** [d.values()] *)
Definition odict_values (d : list (K * V)) : list V := d.*2.

Definition odict_keys (d : list (K * V)) : list K := d.*1.

End odict.
End ODict.
Import ODict.

(** ** nyuki/workflow/workflow.py *)

Module Workflow.

(** *** tukio, the workflow engine (external)

    [WorkflowExecState] gives the [type] of the events of [EXEC_TOPIC]; the
    code reads the values of three members. *)
Class WorkflowExecState := {
  begin_value : string;
  end_value : string;
  error_value : string;
}.

(** A [tukio.workflow.Workflow]: its [uid], the [organization] attribute
    [WorkflowInstance] sets on it, and what its [report()] holds under
    ['exec'] and ['tasks']. *)
Record Workflow := {
  uid : string;
  organization : option string;
  exec_report : gmap string val;
  tasks_report : list (gmap string val);
}.

(** An event of the broker: [event.source.as_dict()] and [event.data]. *)
Record Event := {
  source : gmap string val;
  data : gmap string val;
}.

(** [Workflow.report()]: every call builds new objects,
    [{'exec': {...}, 'tasks': [{...}, ...]}]. *)
Fixpoint alloc_dicts (ds : list (gmap string val)) : M heap (list val) :=
  match ds with
  | [] => ret []
  | d :: ds' =>
      let* l := alloc (ODict d) in
      let* ls := alloc_dicts ds' in
      ret (VRef l :: ls)
  end.

Definition Workflow_report (i : Workflow) : M heap val :=
  let* e := alloc (ODict (exec_report i)) in
  let* ts := alloc_dicts (tasks_report i) in
  let* tl := alloc (OList ts) in
  let* r := alloc (ODict {[ "exec" := VRef e; "tasks" := VRef tl ]}) in
  ret (VRef r).

(** *** sanitize_workflow_exec

    [depth] is the number of nested calls the interpreter still allows. *)
Fixpoint sanitize_workflow_exec (depth : nat) (obj : val) : M heap val :=
  match depth with
  | O => raise RecursionError
  | S depth' =>
      match obj with
      | VOpaque ty =>
          ret (VStr ("Internal server data: <class '" +:+ ty +:+ "'>"))
      | VRef l =>
          λ h,
            match h !! l with
            | Some (ODict d) =>
                (let* _ :=
                   foldr (λ kv rest,
                            let* v := sanitize_workflow_exec depth' kv.2 in
                            setitem_of obj kv.1 v ;;; rest)
                         (ret ()) (map_to_list d) in
                 ret obj) h
            | Some (OList items) =>
                (let* _ :=
                   foldr (λ item rest,
                            sanitize_workflow_exec depth' item ;;; rest)
                         (ret ()) items in
                 ret obj) h
            | None => (Raise TypeError, h)
            end
      | _ => ret obj
      end
  end.

(** *** WorkflowInstance *)

Definition ALLOWED_EXEC_KEYS : list string := ["requester"; "track"].

Record WorkflowInstance := {
  _template : val;
  _instance : Workflow;
  _organization : option string;
  _exec : gmap string val;
}.

(** [WorkflowInstance(template, instance, org=org, **kwargs)] *)
Definition new_instance (template : val) (instance : Workflow)
    (org : option string) (kwargs : gmap string val) : WorkflowInstance :=
  {| _template := template;
     _instance := {| uid := uid instance; organization := org;
                     exec_report := exec_report instance;
                     tasks_report := tasks_report instance |};
     _organization := org;
     _exec := filter (λ kv, kv.1 ∈ ALLOWED_EXEC_KEYS) kwargs |}.

(** A dict key: references to dicts and lists are unhashable, and [True]
    and [False] are the keys [1] and [0]. *)
Definition as_key (v : val) : result val :=
  match v with
  | VRef _ => Raise TypeError
  | VBool b => Ok (VInt (if b then 1 else 0))
  | _ => Ok v
  end.

(** [{task['id']: task for task in template['tasks']}] *)
Fixpoint tasks_by_id (tasks : list (val * val)) (items : list val)
  : M heap (list (val * val)) :=
  match items with
  | [] => ret tasks
  | task :: items' =>
      let* id := getitem_of task "id" in
      let* k := lift (as_key id) in
      tasks_by_id (odict_set k task tasks) items'
  end.

(** The loop of [report]:
[[
    for task in inst['tasks']:
        tasks[task['id']] = {**tasks[task['id']], **task}
]] *)
Fixpoint merge_tasks (tasks : list (val * val)) (items : list val)
  : M heap (list (val * val)) :=
  match items with
  | [] => ret tasks
  | task :: items' =>
      let* id := getitem_of task "id" in
      let* k := lift (as_key id) in
      match odict_get k tasks with
      | None => raise (KeyError id)
      | Some old =>
          let* static := dict_of old in
          let* dynamic := dict_of task in
          let* merged := alloc (ODict (dict_merge static dynamic)) in
          merge_tasks (odict_set k (VRef merged) tasks) items'
      end
  end.

(** [v.copy()]: a new dict or list with the entries of [v], which are
    not copied themselves.  [None], numbers, strings and dates have no
    [copy], and an instance of another class is taken to have none. *)
Definition copy_of (v : val) : M heap val :=
  λ h, match v with
       | VRef l => match h !! l with
                   | Some o => (Ok (VRef (length h)), h ++ [o])
                   | None => (Raise TypeError, h)
                   end
       | _ => (Raise (AttributeError "copy"), h)
       end.

(** [WorkflowInstance.report] *)
Definition report (self : WorkflowInstance) : M heap val :=
  let* template := copy_of (_template self) in
  let* inst := Workflow_report (_instance self) in
  let* template_tasks := getitem_of template "tasks" in
  let* items := list_of template_tasks in
  let* tasks := tasks_by_id [] items in
  let* inst_exec := getitem_of inst "exec" in
  update_of inst_exec (_exec self) ;;;
  let* inst_tasks := getitem_of inst "tasks" in
  let* inst_items := list_of inst_tasks in
  let* tasks := merge_tasks tasks inst_items in
  let* stored := dict_of (_template self) in
  let* inst_exec := getitem_of inst "exec" in
  let* values := alloc (OList (odict_values tasks)) in
  let* r := alloc (ODict (<["tasks" := VRef values]>
                            (<["exec" := inst_exec]> stored))) in
  ret (VRef r).

(** *** WorkflowNyuki *)

(** A websocket client: who it is and the [X-Surycat-Organization] header
    of its request, if it sent one. *)
Record client := {
  client_id : nat;
  header_organization : option string;
}.

#[export] Instance client_eq_dec : EqDecision client.
Proof. solve_decision. Defined.

(** The payload handed to [self.websocket.send]. *)
Record payload := {
  p_type : val;
  p_data : val;
  p_source : gmap string val;
  p_timestamp : Z;
  p_template : option val;
}.

(** The process as [WorkflowNyuki] sees it.  [_databases] holds the names
    [mongo_manager] has a storage for; [mongo_ping] and [storage_init] are
    what the store answers to [admin.command('ping')] and to a storage's
    [init()]; [inserts] and [sends] record, in call order, the
    [storage.instances.insert] coroutines handed to [asyncio.ensure_future]
    and the calls of [websocket.send]; [recursion_budget] is the depth of
    calls the interpreter still allows. *)
Record world := {
  objects : heap;
  running_workflows : list (option string * list (string * WorkflowInstance));
  ws_clients : list (option string * list client);
  _databases : list string;
  mongo_ping : result ();
  storage_init : string → result ();
  inserts : list (string * val);
  sends : list (list client * payload);
  recursion_budget : nat;
}.

Definition set_objects (h : heap) (w : world) : world :=
  {| objects := h; running_workflows := running_workflows w;
     ws_clients := ws_clients w; _databases := _databases w;
     mongo_ping := mongo_ping w; storage_init := storage_init w;
     inserts := inserts w; sends := sends w;
     recursion_budget := recursion_budget w |}.

Definition set_running_workflows
    (r : list (option string * list (string * WorkflowInstance)))
    (w : world) : world :=
  {| objects := objects w; running_workflows := r;
     ws_clients := ws_clients w; _databases := _databases w;
     mongo_ping := mongo_ping w; storage_init := storage_init w;
     inserts := inserts w; sends := sends w;
     recursion_budget := recursion_budget w |}.

Definition set_ws_clients (c : list (option string * list client))
    (w : world) : world :=
  {| objects := objects w; running_workflows := running_workflows w;
     ws_clients := c; _databases := _databases w;
     mongo_ping := mongo_ping w; storage_init := storage_init w;
     inserts := inserts w; sends := sends w;
     recursion_budget := recursion_budget w |}.

Definition set_databases (d : list string) (w : world) : world :=
  {| objects := objects w; running_workflows := running_workflows w;
     ws_clients := ws_clients w; _databases := d;
     mongo_ping := mongo_ping w; storage_init := storage_init w;
     inserts := inserts w; sends := sends w;
     recursion_budget := recursion_budget w |}.

Definition set_inserts (i : list (string * val)) (w : world) : world :=
  {| objects := objects w; running_workflows := running_workflows w;
     ws_clients := ws_clients w; _databases := _databases w;
     mongo_ping := mongo_ping w; storage_init := storage_init w;
     inserts := i; sends := sends w;
     recursion_budget := recursion_budget w |}.

Definition set_sends (s : list (list client * payload)) (w : world) : world :=
  {| objects := objects w; running_workflows := running_workflows w;
     ws_clients := ws_clients w; _databases := _databases w;
     mongo_ping := mongo_ping w; storage_init := storage_init w;
     inserts := inserts w; sends := s;
     recursion_budget := recursion_budget w |}.

(** A heap computation, run on the objects of the world. *)
Definition on_objects {A} (m : M heap A) : M world A :=
  λ w, let (r, h) := m (objects w) in (r, set_objects h w).

(** The number of records in the registry. *)
Definition record_count
    (r : list (option string * list (string * WorkflowInstance))) : nat :=
  sum_list ((λ kv, length kv.2) <$> r).

(** [new_workflow] *)
Definition new_workflow (template : val) (instance : Workflow)
    (org : option string) (kwargs : gmap string val)
  : M world WorkflowInstance :=
  let wflow := new_instance template instance org kwargs in
  modify (λ w,
    let r := running_workflows w in
    let r := match odict_get org r with
             | None => odict_set org [] r
             | Some _ => r
             end in
    set_running_workflows
      (odict_set org
         (odict_set (uid instance) wflow (default [] (odict_get org r))) r)
      w) ;;;
  ret wflow.

(** [mongo_manager.db_context(name)] followed by [__aenter__] of the
    context it returns: the storage is registered first, then the store is
    pinged and, for a storage just made, initialised.  A storage is known
    by the name of its database. *)
Definition db_context (name : option string) : M world string :=
  let name := Mongo._db_name name in
  let* w := get in
  let init := bool_decide (name ∉ _databases w) in
  (if init then modify (set_databases (_databases w ++ [name])) else ret ()) ;;;
  lift (mongo_ping w) ;;;
  (if init then lift (storage_init w name) else ret ()) ;;;
  ret name.

(** [asyncio.ensure_future(storage.instances.insert(doc))] *)
Definition ensure_future_insert (storage : string) (doc : val) : M world () :=
  modify (λ w, set_inserts (inserts w ++ [(storage, doc)]) w).

(** [await self.websocket.send(clients, payload)] *)
Definition websocket_send (clients : list client) (p : payload) : M world () :=
  modify (λ w, set_sends (sends w ++ [(clients, p)]) w).

(** The lookup loop of [report_workflow]:
[[
    for org_workflows in self.running_workflows.values():
        if exec_id in org_workflows:
            wflow = org_workflows[exec_id]
            break
]]
    [None] when the loop ends without binding [wflow]. *)
Fixpoint find_workflow (exec_id : val)
    (r : list (option string * list (string * WorkflowInstance)))
  : result (option WorkflowInstance) :=
  match r with
  | [] => Ok None
  | (_, org_workflows) :: r' =>
      match exec_id with
      | VRef _ => Raise TypeError
      | VStr s =>
          match odict_get s org_workflows with
          | Some wflow => Ok (Some wflow)
          | None => find_workflow exec_id r'
          end
      | _ => find_workflow exec_id r'
      end
  end.

(** [del self.running_workflows[org][exec_id]] *)
Definition del_running (org : option string) (exec_id : val) : M world () :=
  let* w := get in
  match odict_get org (running_workflows w) with
  | None => raise (KeyError (from_option VStr VNone org))
  | Some org_workflows =>
      match exec_id with
      | VRef _ => raise TypeError
      | VStr s =>
          match odict_get s org_workflows with
          | Some _ =>
              modify (set_running_workflows
                        (odict_set org (odict_del s org_workflows)
                                   (running_workflows w)))
          | None => raise (KeyError exec_id)
          end
      | _ => raise (KeyError exec_id)
      end
  end.

Section WorkflowNyuki.
Context {S : WorkflowExecState}.

(** [event.data['type'] in [end.value, error.value]] *)
Definition is_terminal (ty : val) : bool :=
  eq_str ty end_value || eq_str ty error_value.

(** [report_workflow], with [utcnow] what [datetime.utcnow()] reads when
    the payload is built. *)
Definition report_workflow (event : Event) (utcnow : Z) : M world () :=
  let src := source event in
  let* exec_id := lift (getitem src "workflow_exec_id") in
  let* w := get in
  let* found := lift (find_workflow exec_id (running_workflows w)) in
  match found with
  | None => raise (UnboundLocalError "wflow")
  | Some wflow =>
      let src := <["workflow_exec_requester" :=
                     default VNone (_exec wflow !! "requester")]> src in
      let* ty := lift (getitem (data event) "type") in
      (if is_terminal ty then
         let* storage := db_context (_organization wflow) in
         let* r := on_objects (report wflow) in
         let* w := get in
         let* doc := on_objects
                       (sanitize_workflow_exec (recursion_budget w) r) in
         ensure_future_insert storage doc ;;;
         del_running (_organization wflow) exec_id
       else ret ()) ;;;
      let content := default VNone (data event !! "content") in
      let* w := get in
      let* d := if truthy (objects w) content then ret content
                else let* l := on_objects (alloc (ODict ∅)) in ret (VRef l) in
      let p := {| p_type := ty; p_data := d; p_source := src;
                  p_timestamp := utcnow;
                  p_template := if eq_str ty begin_value
                                then Some (_template wflow) else None |} in
      let* w := get in
      websocket_send
        (default [] (odict_get (_organization wflow) (ws_clients w))) p
  end.

End WorkflowNyuki.

(** [[workflow.report() for workflow in workflows]] *)
Fixpoint reports (workflows : list WorkflowInstance) : M world (list val) :=
  match workflows with
  | [] => ret []
  | workflow :: workflows' =>
      let* r := on_objects (report workflow) in
      let* rs := reports workflows' in
      ret (r :: rs)
  end.

(** [websocket_ready] *)
Definition websocket_ready (c : client) : M world (list val) :=
  let org := header_organization c in
  modify (λ w,
    let cs := ws_clients w in
    let cs := match odict_get org cs with
              | None => odict_set org [] cs
              | Some _ => cs
              end in
    set_ws_clients
      (odict_set org (default [] (odict_get org cs) ++ [c]) cs) w) ;;;
  let* w := get in
  reports (odict_values (default [] (odict_get org (running_workflows w)))).

(** [clients.remove(client)], passing over the [ValueError] of a list
    without it. *)
Fixpoint list_remove (c : client) (clients : list client) : list client :=
  match clients with
  | [] => []
  | c' :: clients' =>
      if decide (c = c') then clients' else c' :: list_remove c clients'
  end.

(** [websocket_close] *)
Definition websocket_close (c : client) : M world () :=
  modify (λ w,
    set_ws_clients ((λ kv, (kv.1, list_remove c kv.2)) <$> ws_clients w) w).

End Workflow.

(** ** The specification's vocabulary *)

Module PersistenceSpec.
Import Persistence.

Section spec.
Context {E : EventStatusEnum}.

(** The backend does not answer as healthy: there is none, or its probe
    says no. *)
Definition unhealthy (w : world) : Prop :=
  match backend (self w) with
  | None => True
  | Some b => b_ping b = Ok false
  end.

(** The backend answers as healthy. *)
Definition is_healthy (w : world) (b : Backend) : Prop :=
  backend (self w) = Some b ∧ b_ping b = Ok true.

(** The buffered events, oldest first. *)
Definition buffer (w : world) : list loc := _list (_last_events (self w)).

(** The filter of [retrieve] as the specification words it:
    [created_at >= since] when [since] is given, and [status] equal to the
    given value, or among the given values, when [status] is given. *)
Definition spec_matches (since : option Z) (status : option status_arg)
    (d : gmap string val) : bool :=
  match d !! "created_at", d !! "status" with
  | Some (VTime t), Some (VStr s) =>
      match since with Some t0 => t0 <=? t | None => true end
      && match status with
         | None => true
         | Some (StatusOne m) => bool_decide (s = value m)
         | Some (StatusList ms) => bool_decide (s ∈ value <$> ms)
         end
  | _, _ => false
  end.

(** The same, except that an empty list of values filters nothing. *)
Definition spec_matches_amended (since : option Z)
    (status : option status_arg) (d : gmap string val) : bool :=
  match status with
  | Some (StatusList []) => spec_matches since None d
  | _ => spec_matches since status d
  end.

(** The buffered events a filter on their fields lets through, in buffer
    order. *)
Definition passes (f : gmap string val → bool) (h : heap) (l : loc) : bool :=
  match h !! l with
  | Some (ODict d) => f d
  | _ => false
  end.

Definition select (f : gmap string val → bool) (h : heap)
    (events : list loc) : list loc :=
  filter (λ l, passes f h l = true) events.

(** A buffered event as [store] leaves it and [update] keeps it: a dict
    with a [datetime] under [created_at] and the value of a member under
    [status]. *)
Definition stored_event (h : heap) (l : loc) : Prop :=
  ∃ d t m, h !! l = Some (ODict d)
           ∧ d !! "created_at" = Some (VTime t)
           ∧ d !! "status" = Some (VStr (value m)).

(** Every member is named as its value reads. *)
Definition names_are_values : Prop :=
  ∀ m : EventStatus, by_name (value m) = Some m.

(** The event at [l] is a dict whose [id] is not [uid]. *)
Definition no_match (uid : string) (h : heap) (l : loc) : Prop :=
  ∃ d id, h !! l = Some (ODict d) ∧ d !! "id" = Some id
          ∧ eq_str id uid = false.

(** The event at [l] is the dict [d], whose [id] is [uid]. *)
Definition is_match (uid : string) (h : heap) (l : loc)
    (d : gmap string val) : Prop :=
  h !! l = Some (ODict d) ∧ d !! "id" = Some (VStr uid).

(** C9 as the specification words it, for [store]: a write the healthy
    backend rejects is reported to the fault sink, and [store] returns. *)
Definition rejection_goes_to_sink (event : loc) (utcnow : Z) (w : world)
  : Prop :=
  ∀ b d exc,
    is_healthy w b →
    objects w !! event = Some (ODict d) →
    b_store b (<["created_at" := VTime utcnow]> d) = Raise exc →
    ∃ v w', store event utcnow w = (Ok v, w')
            ∧ exc ∈ exception_handler_calls w'.

(** C7 as the specification words it: what an unhealthy [retrieve]
    returns yields the buffered events [spec_matches] lets through. *)
Definition retrieve_filters_as_worded (since : option Z)
    (status : option status_arg) (w : world) : Prop :=
  unhealthy w →
  Forall (stored_event (objects w)) (buffer w) →
  retrieve since status w = (Ok (FromMemory since status), w)
  ∧ iterate_filter since status w
    = (Ok (select (spec_matches since status) (objects w) (buffer w)), w).

End spec.
End PersistenceSpec.

(** ** Sample data *)

Module Samples.
Import Persistence PersistenceSpec.

(** An [EventStatus] of three members, each named as its value reads. *)
Inductive status3 := PENDING | SENT | FAILED.

#[export] Instance status3_eq_dec : EqDecision status3.
Proof. solve_decision. Defined.

Definition status3_value (m : status3) : string :=
  match m with PENDING => "PENDING" | SENT => "SENT" | FAILED => "FAILED" end.

Definition status3_by_name (s : string) : option status3 :=
  if bool_decide (s = "PENDING") then Some PENDING
  else if bool_decide (s = "SENT") then Some SENT
  else if bool_decide (s = "FAILED") then Some FAILED
  else None.

Definition status3_enum : EventStatusEnum :=
  {| EventStatus := status3; EventStatus_eq_dec := status3_eq_dec;
     value := status3_value; by_name := status3_by_name |}.

(** [{"id": id, "status": status, "topic": "muc", "message": "{}"}] *)
Definition bus_event (id status : string) : gmap string val :=
  {[ "id" := VStr id; "status" := VStr status;
     "topic" := VStr "muc"; "message" := VStr "{}" ]}.

(** The same once stored at time [t]. *)
Definition stored_bus_event (id status : string) (t : Z) : gmap string val :=
  <["created_at" := VTime t]> (bus_event id status).

(** A backend that is down. *)
Definition backend_down : Backend (E := status3_enum) :=
  {| b_ping := Ok false;
     b_store := λ _, Raise (ExternalError "AutoReconnect");
     b_update := λ _ _, Raise (ExternalError "AutoReconnect");
     b_retrieve := λ _ _, Raise (ExternalError "AutoReconnect") |}.

(** A backend that answers the probe and rejects every write. *)
Definition backend_rejecting : Backend (E := status3_enum) :=
  {| b_ping := Ok true;
     b_store := λ _, Raise (ExternalError "OperationFailure");
     b_update := λ _ _, Raise (ExternalError "OperationFailure");
     b_retrieve := λ _ _, Ok VNone |}.

(** A process with the given objects, buffer and backend, and an idle
    event loop. *)
Definition bus_world (h : heap) (events : list loc)
    (b : option (Backend (E := status3_enum))) : world (E := status3_enum) :=
  {| objects := h;
     self := {| _last_events := {| _list := events; _size := QUEUE_SIZE |};
                backend := b |};
     timers := [];
     exception_handler_calls := [] |}.

(** Three stored events, the last two with the same id, buffered in
    order, and no backend. *)
Definition three_events : heap :=
  [ODict (stored_bus_event "e1" "PENDING" 10);
   ODict (stored_bus_event "e2" "PENDING" 20);
   ODict (stored_bus_event "e2" "FAILED" 30)].

Definition three_buffered : world (E := status3_enum) :=
  bus_world three_events [0; 1; 2]%nat None.

(** One event about to be stored, and a backend that rejects writes. *)
Definition one_rejected : world (E := status3_enum) :=
  bus_world [ODict (bus_event "e1" "PENDING")] [] (Some backend_rejecting).

End Samples.

Module WorkflowSpec.
Import Workflow.

Abbreviation registry := (list (option string * list (string * WorkflowInstance))).

(** No organization has a record of execution [s]. *)
Definition unknown_execution (s : string) (r : registry) : Prop :=
  Forall (λ kv, odict_get s kv.2 = None) r.

(** Execution [s] is registered with the record [wflow]: the record is
    held under [s] by its own organization, and no organization listed
    before it holds an execution [s]. *)
Definition registered (s : string) (wflow : WorkflowInstance) (r : registry)
  : Prop :=
  ∃ pre ws post,
    r = pre ++ (_organization wflow, ws) :: post
    ∧ Forall (λ kv, kv.1 ≠ _organization wflow ∧ odict_get s kv.2 = None) pre
    ∧ odict_get s ws = Some wflow.

(** The subscribers registered for an organization. *)
Definition subscribers (org : option string)
    (cs : list (option string * list client)) : list client :=
  default [] (odict_get org cs).

(** The live records of an organization. *)
Definition records (org : option string) (r : registry)
  : list WorkflowInstance :=
  odict_values (default [] (odict_get org r)).

(** The catch-up snapshot of the records [ws] on the objects alone: the
    [report()] of each of them in turn, each built on the objects the one
    before it left, up to the first that raises. *)
Fixpoint report_each (ws : list WorkflowInstance) : M heap (list val) :=
  match ws with
  | [] => ret []
  | wf :: ws' =>
      let* r := report wf in
      let* rs := report_each ws' in
      ret (r :: rs)
  end.

(** Every subscriber is listed under the organization its request named:
    what [websocket_ready] and [websocket_close] keep true. *)
Definition clients_by_header (cs : list (option string * list client)) : Prop :=
  ∀ org l c, (org, l) ∈ cs → c ∈ l → header_organization c = org.

(** Every record is held by its own organization: what [new_workflow]
    and [report_workflow] keep true. *)
Definition records_by_organization (r : registry) : Prop :=
  ∀ org ws s wflow,
    (org, ws) ∈ r → (s, wflow) ∈ ws → _organization wflow = org.

(** The tenant store answers for organization [org]: the ping succeeds,
    and so does the initialisation of a storage made on first use. *)
Definition store_reachable (org : option string) (w : world) : Prop :=
  mongo_ping w = Ok ()
  ∧ (Mongo._db_name org ∈ _databases w
     ∨ storage_init w (Mongo._db_name org) = Ok ()).

(** C4 as the specification words it, for a terminal event: the record
    goes, and one write and one broadcast are made. *)
Definition terminal_event_finalizes `{WorkflowExecState}
    (event : Event) (utcnow : Z) (w : world) : Prop :=
  ∀ s wflow ty,
    source event !! "workflow_exec_id" = Some (VStr s) →
    registered s wflow (running_workflows w) →
    data event !! "type" = Some ty → is_terminal ty = true →
    ∃ w', report_workflow event utcnow w = (Ok (), w')
          ∧ (record_count (running_workflows w') + 1
             = record_count (running_workflows w))%nat
          ∧ length (inserts w') = S (length (inserts w))
          ∧ length (sends w') = S (length (sends w)).

(** A computation that leaves the subscribers and the broadcasts made so
    far as they are, whatever it returns or raises. *)
Definition keeps_channels {A} (m : M world A) : Prop :=
  ∀ w r w', m w = (r, w') →
    sends w' = sends w ∧ ws_clients w' = ws_clients w.

(** A computation that leaves the registry, the writes and the broadcasts
    made so far as they are. *)
Definition keeps_registry {A} (m : M world A) : Prop :=
  ∀ w r w', m w = (r, w') →
    running_workflows w' = running_workflows w
    ∧ inserts w' = inserts w ∧ sends w' = sends w.

(** A task of a stored template: its id, where its dict lives and what
    the dict holds. *)
Record template_task := {
  task_id : string;
  task_loc : loc;
  task_dict : gmap string val;
}.

(** The dynamic states an execution reports for the task [i]. *)
Definition dynamic_of (i : string) (ds : list (gmap string val))
  : list (gmap string val) :=
  filter (λ d, d !! "id" = Some (VStr i)) ds.

(** The merged entry of a template task: its static fields, with the
    fields of each dynamic state reported for it laid over them. *)
Definition merged_task (t : template_task) (ds : list (gmap string val))
  : gmap string val :=
  foldl dict_merge (task_dict t) (dynamic_of (task_id t) ds).

(** A field as the specification words the merge: the value the last of
    the dynamic states that has the field reports for it, and the static
    value when none has it. *)
Definition laid_over (static : gmap string val)
    (dynamic : list (gmap string val)) (k : string) : option val :=
  match last (omap (λ d : gmap string val, d !! k) dynamic) with
  | Some v => Some v
  | None => static !! k
  end.

(** The merge loop of [report], on contents alone: the entries by id,
    in order, the first entry for [i] taking the fields of [d]. *)
Fixpoint view_merge (i : string) (d : gmap string val)
    (view : list (string * gmap string val))
  : list (string * gmap string val) :=
  match view with
  | [] => []
  | (j, s) :: view' =>
      if decide (i = j) then (j, dict_merge s d) :: view'
      else (j, s) :: view_merge i d view'
  end.

Definition view_merge_dynamic (view : list (string * gmap string val))
    (d : gmap string val) : list (string * gmap string val) :=
  match d !! "id" with
  | Some (VStr i) => view_merge i d view
  | _ => view
  end.

(** The dict [tasks] of [report] holds, entry by entry, references to
    dicts with the contents [view] lists. *)
Definition view_rel (h : heap) (tasks : list (val * val))
    (view : list (string * gmap string val)) : Prop :=
  Forall2 (λ t v, t.1 = VStr v.1
                  ∧ ∃ l, t.2 = VRef l ∧ h !! l = Some (ODict v.2))
          tasks view.

End WorkflowSpec.

Module WorkflowSamples.
Import Workflow.

(** A stored template with the tasks [t1] and [t2], laid out as
    0: task [t1], 1: task [t2], 2: the task list, 3: the template. *)
Definition task_t1 : gmap string val :=
  {[ "id" := VStr "t1"; "title" := VStr "first" ]}.
Definition task_t2 : gmap string val :=
  {[ "id" := VStr "t2"; "title" := VStr "second" ]}.
Definition template_dict : gmap string val :=
  {[ "id" := VStr "tpl"; "title" := VStr "T"; "tasks" := VRef 2%nat ]}.
Definition template_heap : heap :=
  [ODict task_t1; ODict task_t2; OList [VRef 0%nat; VRef 1%nat]; ODict template_dict].

(** An execution of it with dynamic state for [t1] only. *)
Definition dynamic_t1 : gmap string val :=
  {[ "id" := VStr "t1"; "status" := VStr "done" ]}.
Definition execution (uid : string) : Workflow :=
  {| uid := uid; organization := None;
     exec_report := {[ "id" := VStr uid; "state" := VStr "progress" ]};
     tasks_report := [dynamic_t1] |}.

Definition wflow (uid : string) (org : option string) : WorkflowInstance :=
  new_instance (VRef 3%nat) (execution uid) org
    {[ "requester" := VStr "bob"; "color" := VStr "red" ]}.

Definition exec_states : WorkflowExecState :=
  {| begin_value := "workflow-begin"; end_value := "workflow-end";
     error_value := "workflow-error" |}.

(** An engine event of the given type about the given execution. *)
Definition engine_event (ty exec_id : string) : Event :=
  {| source := {[ "workflow_exec_id" := VStr exec_id ]};
     data := {[ "type" := VStr ty ]} |}.

Definition alice : client :=
  {| client_id := 1%nat; header_organization := Some "acme" |}.
Definition bob : client :=
  {| client_id := 2%nat; header_organization := Some "globex" |}.
(** A client that is not connected yet. *)
Definition dan : client :=
  {| client_id := 4%nat; header_organization := Some "globex" |}.

(** Two organizations, one execution and one subscriber each; the store
    answers [ping] as given. *)
Definition two_tenants (ping : result ()) : world :=
  {| objects := template_heap;
     running_workflows :=
       [(Some "acme", [("x1", wflow "x1" (Some "acme"))]);
        (Some "globex", [("x2", wflow "x2" (Some "globex"))])];
     ws_clients := [(Some "acme", [alice]); (Some "globex", [bob])];
     _databases := [];
     mongo_ping := ping;
     storage_init := λ _, Ok ();
     inserts := [];
     sends := [];
     recursion_budget := 900%nat |}.

(** The tasks of the sample template. *)
Definition sample_tasks : list WorkflowSpec.template_task :=
  [ {| WorkflowSpec.task_id := "t1"; WorkflowSpec.task_loc := 0%nat;
       WorkflowSpec.task_dict := task_t1 |};
    {| WorkflowSpec.task_id := "t2"; WorkflowSpec.task_loc := 1%nat;
       WorkflowSpec.task_dict := task_t2 |} ].

End WorkflowSamples.

(** ** BusPersistence: the feed loop *)

Module PersistenceLoop.
Import Persistence.

Section loop.
Context {E : EventStatusEnum}.

(** [self._loop.call_exception_handler({'message': str(exc),
    'exception': exc})] *)
Definition call_exception_handler (exc : exn) : M world () :=
  modify (λ w, {| objects := objects w; self := self w;
                  timers := timers w;
                  exception_handler_calls :=
                    exception_handler_calls w ++ [exc] |}).

(** [self._last_events.pop()] *)
Definition queue_pop : M world loc :=
  λ w, match pop (_last_events (self w)) with
       | Ok (event, q) => (Ok event, set_last_events q w)
       | Raise e => (Raise e, w)
       end.

(** [await self.backend.store(event)], as the loop calls it: nothing
    wraps what the backend raises. *)
Definition backend_store (b : Backend) (event : loc) : M world val :=
  λ w, match objects w !! event with
       | Some (ODict d) => (b_store b d, w)
       | _ => (Raise TypeError, w)
       end.

(** The loop of [_empty_last_events] over the generator [empty()]:
[[
    for event in self._last_events.empty():
        await self.backend.store(event)
]]
    Every turn pops the head of the buffer, then stores it.  There is one
    turn per entry the buffer holds when the loop starts: nothing else
    puts into the buffer while the loop runs here. *)
Fixpoint drain (b : Backend) (turns : list loc) : M world () :=
  match turns with
  | [] => ret ()
  | _ :: turns' =>
      let* event := queue_pop in
      backend_store b event ;;;
      drain b turns'
  end.

(** [_empty_last_events]: it asks [self.backend] itself for the probe. *)
Definition _empty_last_events : M world () :=
  let* w := get in
  match backend (self w) with
  | None => raise (AttributeError "ping")
  | Some b =>
      let* p := lift (b_ping b) in
      if p then
        try_except (drain b (_list (_last_events (self w))))
                   (λ exc, call_exception_handler exc)
      else ret ()
  end.

(** One turn of the loop of [_feed_backend], once [asyncio.sleep(5)] has
    returned:
[[
    if not self._last_events.list:
        continue
    await self._empty_last_events()
]] *)
Definition feed_turn : M world () :=
  let* w := get in
  match _list (_last_events (self w)) with
  | [] => ret ()
  | _ => _empty_last_events
  end.

(** The last turn, when the sleep is cancelled: one more
    [_empty_last_events], whatever the buffer holds. *)
Definition feed_cancelled : M world () := _empty_last_events.

End loop.
End PersistenceLoop.

(** ** MongoManager.database *)

Module MongoManager.
Import Workflow.

(** [database]: the store is pinged first, and a storage is made,
    initialised and only then kept. *)
Definition database (name : option string) : M world string :=
  let* w := get in
  lift (mongo_ping w) ;;;
  let name := Mongo._db_name name in
  (if bool_decide (name ∉ _databases w) then
     lift (storage_init w name) ;;;
     modify (set_databases (_databases w ++ [name]))
   else ret ()) ;;;
  ret name.

(** The store answering the ping otherwise from now on. *)
Definition set_mongo_ping (p : result ()) (w : world) : world :=
  {| objects := objects w; running_workflows := running_workflows w;
     ws_clients := ws_clients w; _databases := _databases w;
     mongo_ping := p; storage_init := storage_init w;
     inserts := inserts w; sends := sends w;
     recursion_budget := recursion_budget w |}.

(** A storage answering [init()] otherwise from now on. *)
Definition set_storage_init (f : string → result ()) (w : world) : world :=
  {| objects := objects w; running_workflows := running_workflows w;
     ws_clients := ws_clients w; _databases := _databases w;
     mongo_ping := mongo_ping w; storage_init := f;
     inserts := inserts w; sends := sends w;
     recursion_budget := recursion_budget w |}.

End MongoManager.

(** ** More of the vocabulary *)

Module MoreSpec.
Import Persistence PersistenceSpec.

(** [old] occurs somewhere in [s]. *)
Fixpoint occurs (old s : string) : bool :=
  String.prefix old s
  || match s with
     | EmptyString => false
     | String _ s' => occurs old s'
     end.

(** The name [_db_name] puts after the prefix. *)
Definition effective_name (name : option string) : string :=
  match name with
  | Some n => if bool_decide (n = "") then Mongo.DEFAULT_DATABASE else n
  | None => Mongo.DEFAULT_DATABASE
  end.

(** What [sanitize_workflow_exec] makes of a value that is no dict and
    no list. *)
Definition sanitized_atom (v : val) : val :=
  match v with
  | VOpaque ty => VStr ("Internal server data: <class '" +:+ ty +:+ "'>")
  | _ => v
  end.

Definition is_ref (v : val) : bool :=
  match v with VRef _ => true | _ => false end.

Section spec.
Context {E : EventStatusEnum}.

(** The backend takes the event at [l]. *)
Definition accepted (b : Backend) (h : heap) (l : loc) : Prop :=
  ∃ d v, h !! l = Some (ODict d) ∧ b_store b d = Ok v.

(** The backend rejects the event at [l] with [exc]. *)
Definition rejected (b : Backend) (h : heap) (l : loc) (exc : exn) : Prop :=
  ∃ d, h !! l = Some (ODict d) ∧ b_store b d = Raise exc.

End spec.
End MoreSpec.

(** ** More sample data and vocabulary *)

Module MoreSamples.
Import Persistence PersistenceSpec Samples.

(** A backend that answers the probe and takes every write. *)
Definition backend_accepting : Backend (E := status3_enum) :=
  {| b_ping := Ok true;
     b_store := λ _, Ok VNone;
     b_update := λ _ _, Ok VNone;
     b_retrieve := λ _ _, Ok VNone |}.

(** A backend that answers the probe and takes every event but those
    with the id [e2]. *)
Definition backend_picky : Backend (E := status3_enum) :=
  {| b_ping := Ok true;
     b_store := λ d, if bool_decide (d !! "id" = Some (VStr "e2"))
                     then Raise (ExternalError "DuplicateKeyError")
                     else Ok VNone;
     b_update := λ _ _, Ok VNone;
     b_retrieve := λ _ _, Ok VNone |}.

(** A queue holding more than its bound. *)
Definition overfull : FIFOSizedQueue Z :=
  {| _list := [1; 2; 3; 4; 5]; _size := 2 |}.

(** Three buffered events, the last one with a status no member is named
    after. *)
Definition odd_status_events : heap :=
  [ODict (stored_bus_event "e1" "PENDING" 10);
   ODict (stored_bus_event "e2" "PENDING" 20);
   ODict (stored_bus_event "e3" "pending" 30)].

(** Two buffered events, the second one without an id. *)
Definition no_id_events : heap :=
  [ODict (stored_bus_event "e1" "PENDING" 10);
   ODict {[ "status" := VStr "PENDING"; "created_at" := VTime 20 ]}].

End MoreSamples.

Module MoreWorkflowSpec.
Import Workflow WorkflowSpec.

(** The two invariants of the handlers. *)
Definition tenants_apart (w : world) : Prop :=
  clients_by_header (ws_clients w)
  ∧ records_by_organization (running_workflows w).

(** [w'] comes after [w] with no record added or handed to another
    organization, and with the subscribers as they were. *)
Definition follows (w w' : world) : Prop :=
  (records_by_organization (running_workflows w)
   → records_by_organization (running_workflows w'))
  ∧ (record_count (running_workflows w')
     ≤ record_count (running_workflows w))%nat
  ∧ ws_clients w' = ws_clients w.

(** A computation after which the world follows, whatever it returns or
    raises. *)
Definition shrinks_registry {A} (m : M world A) : Prop :=
  ∀ w r w', m w = (r, w') → follows w w'.

(** A value of a heap of [n] objects: a reference is to one of them. *)
Definition val_bound (n : nat) (v : val) : Prop :=
  match v with VRef l => (l < n)%nat | _ => True end.

(** The object [o] holds the value [v]: as an item of the list, or under
    some key of the dict. *)
Definition holds (o : obj) (v : val) : Prop :=
  match o with
  | ODict d => ∃ k : string, d !! k = Some v
  | OList items => v ∈ items
  end.

(** Every reference an object of the heap holds is to an object of the
    heap, as in a running interpreter. *)
Definition closed (h : heap) : Prop :=
  ∀ l o l', h !! l = Some o → holds o (VRef l') → (l' < length h)%nat.

(** From [h] to [h'] no object is made, no list is changed, and a dict is
    still a dict. *)
Definition keeps_lists (h h' : heap) : Prop :=
  length h' = length h
  ∧ (∀ l items, h !! l = Some (OList items) → h' !! l = Some (OList items))
  ∧ (∀ l d, h !! l = Some (ODict d) → ∃ d', h' !! l = Some (ODict d')).

End MoreWorkflowSpec.

Module MoreWorkflowSamples.
Import Workflow WorkflowSamples.

(** A dict with an instance of a class of the engine among its fields. *)
Definition with_opaque : gmap string val :=
  {[ "state" := VStr "end"; "task" := VOpaque "tukio.task.TaskHolder";
     "count" := VInt 3 ]}.

(** A list that holds a dict with an instance of a class of the engine
    among its fields, then a number, then itself. *)
Definition self_listed : heap :=
  [ODict with_opaque; OList [VRef 0%nat; VInt 1; VRef 1%nat]].

(** An event with something under [content]. *)
Definition content_event (ty exec_id : string) (content : val) : Event :=
  {| source := {[ "workflow_exec_id" := VStr exec_id ]};
     data := {[ "type" := VStr ty; "content" := content ]} |}.

End MoreWorkflowSamples.

Module ReportSamples.
Import Workflow WorkflowSamples.

(** An execution reporting a state for [t1] and then one for a task the
    sample template does not have. *)
Definition dynamic_t9 : gmap string val :=
  {[ "id" := VStr "t9"; "status" := VStr "done" ]}.

Definition stray_execution (uid : string) : Workflow :=
  {| uid := uid; organization := None;
     exec_report := {[ "id" := VStr uid; "state" := VStr "end" ]};
     tasks_report := [dynamic_t1; dynamic_t9] |}.

Definition stray (uid : string) (org : option string) : WorkflowInstance :=
  new_instance (VRef 3%nat) (stray_execution uid) org ∅.

(** One organization with that execution registered. *)
Definition stray_world : world :=
  {| objects := template_heap;
     running_workflows := [(Some "acme", [("x7", stray "x7" (Some "acme"))])];
     ws_clients := [(Some "acme", [alice])];
     _databases := [];
     mongo_ping := Ok ();
     storage_init := λ _, Ok ();
     inserts := [];
     sends := [];
     recursion_budget := 900%nat |}.

End ReportSamples.

(** * Properties *)

(** ** The monad *)

Lemma bind_ok {S A B} (m : M S A) (k : A → M S B) s a s' :
  m s = (Ok a, s') → bind m k s = k a s'.
Proof. intros H. unfold bind. by rewrite H. Qed.

Lemma bind_raise {S A B} (m : M S A) (k : A → M S B) s e s' :
  m s = (Raise e, s') → bind m k s = (Raise e, s').
Proof. intros H. unfold bind. by rewrite H. Qed.

(** ** FIFOSizedQueue *)

Module QueueFacts.
Import Persistence.

Section queue.
Context {A : Type}.
Implicit Types (l items : list A) (q : FIFOSizedQueue A).

(** The eviction loop never pops an empty list when the bound is not
    negative, and keeps the newest [size] entries at most. *)
Lemma put_evict_drop size l :
  0 ≤ size →
  put_evict size l = Ok (drop (length l - Z.to_nat size) l).
Proof.
  intros Hsize. induction l as [|x l IH].
  - cbn [put_evict length].
    destruct (Z.gtb_spec (Z.of_nat 0) size); [lia | done].
  - cbn [put_evict]. destruct (Z.gtb_spec (Z.of_nat (length (x :: l))) size) as [Hgt|Hle].
    + rewrite IH. simpl length in *.
      replace (S (length l) - Z.to_nat size)%nat
        with (S (length l - Z.to_nat size))%nat by lia.
      done.
    + simpl length in *.
      replace (S (length l) - Z.to_nat size)%nat with 0%nat by lia.
      done.
Qed.

Lemma put_spec q x :
  0 ≤ _size q →
  put q x = Ok {| _list := drop (length (_list q) - Z.to_nat (_size q))
                                (_list q) ++ [x];
                  _size := _size q |}.
Proof. intros H. unfold put. by rewrite put_evict_drop. Qed.

(** Keeping the last [m] of the last [m] of [L] followed by [R] is keeping
    the last [m] of [L ++ R]. *)
Lemma drop_last_app (m : nat) (L R : list A) :
  let L' := drop (length L - m) L in
  drop (length (L' ++ R) - m) (L' ++ R)
  = drop (length (L ++ R) - m) (L ++ R).
Proof.
  intros L'. subst L'.
  destruct (decide (length L ≤ m)%nat) as [Hle|Hgt].
  - replace (length L - m)%nat with 0%nat by lia. done.
  - rewrite !length_app, length_drop.
    replace (length L - (length L - m) + length R - m)%nat
      with (length R) by lia.
    replace (length L + length R - m)%nat
      with ((length L - m) + length R)%nat by lia.
    rewrite <- drop_drop. f_equal.
    rewrite drop_app_le by lia. done.
Qed.

(** After any run of [put] calls the queue holds the newest entries, one
    more than the bound at most. *)
Lemma puts_spec items q :
  0 ≤ _size q →
  (length (_list q) ≤ S (Z.to_nat (_size q)))%nat →
  puts q items =
    Ok {| _list := drop (length (_list q ++ items) - S (Z.to_nat (_size q)))
                        (_list q ++ items);
          _size := _size q |}.
Proof.
  revert q. induction items as [|x items IH]; intros q Hsize Hlen.
  - simpl. rewrite app_nil_r.
    replace (length (_list q) - S (Z.to_nat (_size q)))%nat with 0%nat by lia.
    by destruct q.
  - cbn [puts]. rewrite put_spec by done.
    rewrite IH; cbn [_list _size]; [|done|].
    + f_equal. f_equal.
      set (n := Z.to_nat (_size q)).
      assert (drop (length (_list q) - n) (_list q) ++ [x]
              = drop (length (_list q ++ [x]) - S n) (_list q ++ [x])) as ->.
      { rewrite length_app. simpl.
        replace (length (_list q) + 1 - S n)%nat
          with (length (_list q) - n)%nat by lia.
        rewrite drop_app_le by lia. done. }
      rewrite (drop_last_app (S n) (_list q ++ [x]) items).
      by rewrite <- app_assoc.
    + rewrite length_app, length_drop. simpl. lia.
Qed.

End queue.

(** C1 (the code's side).  With the default bound [QUEUE_SIZE], any run of
    more than 1000 [put] calls on a fresh queue succeeds and leaves the
    1001 most recent items, in insertion order: the oldest are evicted
    first, but the length ends one above the bound. *)
Theorem C1_put_keeps_one_above_capacity {A} (items : list A) :
  (1000 < length items)%nat →
  ∃ q, puts (new_queue QUEUE_SIZE) items = Ok q
       ∧ _list q = drop (length items - 1001) items
       ∧ length (_list q) = 1001%nat
       ∧ Z.of_nat (length (_list q)) > QUEUE_SIZE.
Proof.
  intros Hlen. eexists. split.
  - apply puts_spec; cbn; [unfold QUEUE_SIZE; lia | lia].
  - cbn [_list new_queue _size]. unfold QUEUE_SIZE.
    change (S (Z.to_nat 1000)) with 1001%nat.
    rewrite app_nil_l. repeat split.
    + rewrite length_drop. lia.
    + rewrite length_drop. lia.
Qed.

Lemma C1_put_keeps_one_above_capacity_witness :
  ∃ q, puts (new_queue QUEUE_SIZE) (seq 0 1002) = Ok q
       ∧ _list q = drop (length (seq 0 1002) - 1001) (seq 0 1002)
       ∧ length (_list q) = 1001%nat
       ∧ Z.of_nat (length (_list q)) > QUEUE_SIZE.
Proof.
  apply (C1_put_keeps_one_above_capacity (seq 0 1002)).
  rewrite length_seq. lia.
Defined.

End QueueFacts.

(** ** BusPersistence *)

Module BusPersistenceFacts.
Import Persistence PersistenceSpec.

Section facts.
Context {E : EventStatusEnum}.
Implicit Types (w : world) (l event : loc) (d : gmap string val).

Lemma set_objects_id w : set_objects (objects w) w = w.
Proof. by destruct w. Qed.

Lemma ping_unhealthy w :
  unhealthy w → ∃ p, ping w = (Ok p, w) ∧ healthy p = false.
Proof.
  unfold unhealthy, ping. destruct (backend (self w)) as [b|].
  - intros ->. by exists (Some false).
  - intros _. by exists None.
Qed.

Lemma ping_healthy w b : is_healthy w b → ping w = (Ok (Some true), w).
Proof. intros [Hb Hp]. unfold ping. by rewrite Hb, Hp. Qed.

Lemma getitem_at_ok w l d k v :
  objects w !! l = Some (ODict d) → d !! k = Some v →
  getitem_at l k w = (Ok v, w).
Proof.
  intros Hl Hk.
  unfold getitem_at, on_objects, getitem_of, bind, dict_of, lift, getitem.
  rewrite Hl, Hk. by rewrite set_objects_id.
Qed.

Lemma getitem_at_missing w l d k :
  objects w !! l = Some (ODict d) → d !! k = None →
  getitem_at l k w = (Raise (KeyError (VStr k)), w).
Proof.
  intros Hl Hk.
  unfold getitem_at, on_objects, getitem_of, bind, dict_of, lift, getitem.
  rewrite Hl, Hk. by rewrite set_objects_id.
Qed.

Lemma setitem_at_ok w l d k v :
  objects w !! l = Some (ODict d) →
  setitem_at l k v w
  = (Ok (), set_objects (<[l := ODict (<[k := v]> d)]> (objects w)) w).
Proof.
  intros Hl.
  unfold setitem_at, on_objects, setitem_of, bind, dict_of, modify.
  by rewrite Hl.
Qed.

Lemma queue_put_ok w event :
  0 ≤ _size (_last_events (self w)) →
  queue_put event w
  = (Ok (),
     set_last_events
       {| _list := drop (length (buffer w)
                         - Z.to_nat (_size (_last_events (self w))))
                        (buffer w) ++ [event];
          _size := _size (_last_events (self w)) |} w).
Proof.
  intros H. unfold queue_put. by rewrite QueueFacts.put_spec.
Qed.

(** The closure [store] schedules cannot run: [FIFOSizedQueue] has no
    [remove]. *)
Lemma del_event_raises w event :
  del_event event w = (Raise (AttributeError "remove"), w).
Proof. reflexivity. Qed.

Lemma lookup_set_item (h : heap) l d d' :
  h !! l = Some (ODict d) → <[l := ODict d']> h !! l = Some (ODict d').
Proof. intros H. apply list_lookup_insert_eq. by eapply lookup_lt_Some. Qed.

(** C2 (the code's side).  With the backend unhealthy, [store] stamps
    [created_at] on the event, appends it to the buffer, hands
    [call_later] the closure [del_event] with a delay of [MEMORY_TTL] =
    86400 seconds and returns [None] without raising; but that closure,
    whenever it runs, raises [AttributeError] and removes nothing. *)
Theorem C2_store_unhealthy_then_removal_raises w event d utcnow :
  unhealthy w →
  objects w !! event = Some (ODict d) →
  0 ≤ _size (_last_events (self w)) →
  ∃ w',
    store event utcnow w = (Ok VNone, w')
    ∧ objects w'
      = <[event := ODict (<["created_at" := VTime utcnow]> d)]> (objects w)
    ∧ buffer w'
      = drop (length (buffer w) - Z.to_nat (_size (_last_events (self w))))
             (buffer w) ++ [event]
    ∧ timers w' = timers w ++ [(86400, del_event_closure event)]
    ∧ run_callback (del_event_closure event) w'
      = (Raise (AttributeError "remove"), w').
Proof.
  intros Hun Hl Hsize. unfold store.
  erewrite bind_ok by (by apply setitem_at_ok).
  set (w1 := set_objects _ w).
  destruct (ping_unhealthy w1) as (p & Hp & Hh); [exact Hun|].
  erewrite bind_ok by exact Hp. rewrite Hh.
  erewrite bind_ok by (by apply queue_put_ok).
  eexists. split; [reflexivity|]. repeat split.
Qed.

(** C9, amended.  With the backend healthy, a write [store] or [update]
    passes through and the backend rejects is raised to the caller as
    [PersistenceError], chained from the backend's exception; the loop's
    exception handler is not called and nothing is buffered. *)
Theorem C9_rejected_write_raises_to_caller w b :
  is_healthy w b →
  (∀ event d utcnow exc,
     objects w !! event = Some (ODict d) →
     b_store b (<["created_at" := VTime utcnow]> d) = Raise exc →
     ∃ w', store event utcnow w = (Raise (PersistenceError exc), w')
           ∧ exception_handler_calls w' = exception_handler_calls w
           ∧ buffer w' = buffer w ∧ timers w' = timers w)
  ∧ (∀ uid status exc,
       b_update b uid status = Raise exc →
       update uid status w = (Raise (PersistenceError exc), w)).
Proof.
  intros Hh. split.
  - intros event d utcnow exc Hl Hrej. unfold store.
    erewrite bind_ok by (by apply setitem_at_ok).
    set (w1 := set_objects _ w).
    assert (is_healthy w1 b) as Hh1 by exact Hh.
    erewrite bind_ok by (by apply (ping_healthy _ b)). cbn [healthy].
    unfold through_backend, try_except.
    destruct Hh1 as [-> _]. subst w1. cbn [objects set_objects].
    erewrite lookup_set_item by done. rewrite Hrej.
    eexists. split; [reflexivity|]. done.
  - intros uid status exc Hrej. unfold update.
    erewrite bind_ok by (by apply (ping_healthy _ b)). cbn [healthy].
    unfold through_backend, try_except.
    destruct Hh as [-> _]. by rewrite Hrej.
Qed.

(** The in-memory loop of [update] passes over events with another id. *)
Lemma update_in_memory_skip uid status pre rest w :
  Forall (no_match uid (objects w)) pre →
  update_in_memory uid status (pre ++ rest) w
  = update_in_memory uid status rest w.
Proof.
  induction 1 as [|l pre (d & id & Hl & Hid & Hne) _ IH]; [done|].
  cbn [app update_in_memory].
  erewrite bind_ok by (by eapply getitem_at_ok). by rewrite Hne.
Qed.

Lemma eq_str_refl s : eq_str (VStr s) s = true.
Proof. unfold eq_str. by rewrite bool_decide_eq_true. Qed.

(** C10.  With the backend unhealthy: when every buffered event has
    another id, [update] returns [None] and changes nothing at all; when
    the first event with that id is [e], [update] returns [None], the
    buffer and the loop are as before, [status] of [e] holds the member's
    value, every other field of [e] is as it was, and every other object,
    later events with the same id among them, is untouched. *)
Theorem C10_update_unhealthy_frame uid status w :
  unhealthy w →
  (Forall (no_match uid (objects w)) (buffer w) →
   update uid status w = (Ok VNone, w))
  ∧ (∀ pre e post d,
       buffer w = pre ++ e :: post →
       Forall (no_match uid (objects w)) pre →
       is_match uid (objects w) e d →
       ∃ w' d',
         update uid status w = (Ok VNone, w')
         ∧ self w' = self w ∧ timers w' = timers w
         ∧ exception_handler_calls w' = exception_handler_calls w
         ∧ length (objects w') = length (objects w)
         ∧ objects w' !! e = Some (ODict d')
         ∧ d' !! "status" = Some (VStr (value status))
         ∧ (∀ k, k ≠ "status" → d' !! k = d !! k)
         ∧ (∀ l, l ≠ e → objects w' !! l = objects w !! l)).
Proof.
  intros Hun.
  destruct (ping_unhealthy w Hun) as (p & Hp & Hh).
  split.
  - intros Hall. unfold update.
    erewrite bind_ok by exact Hp. rewrite Hh.
    unfold bind at 1, get. fold (buffer w).
    rewrite <- (app_nil_r (buffer w)).
    by rewrite update_in_memory_skip.
  - intros pre e post d Hbuf Hpre [Hl Hid]. unfold update.
    erewrite bind_ok by exact Hp. rewrite Hh.
    unfold bind at 1, get. fold (buffer w). rewrite Hbuf.
    rewrite update_in_memory_skip by done.
    cbn [update_in_memory].
    erewrite bind_ok by (by eapply getitem_at_ok).
    rewrite eq_str_refl.
    erewrite bind_ok by (by apply setitem_at_ok).
    eexists _, (<["status" := VStr (value status)]> d).
    split; [reflexivity|].
    cbn [self timers exception_handler_calls objects set_objects].
    split; [done|]. split; [done|]. split; [done|].
    split; [|split; [|split; [|split]]].
    + apply length_insert.
    + by eapply lookup_set_item.
    + apply lookup_insert_eq.
    + intros k Hk. by apply lookup_insert_ne.
    + intros l Hne. by apply list_lookup_insert_ne.
Qed.

(** Where members are named as their values read, a member is in a list
    exactly when its value is among the list's values. *)
Lemma member_iff_value (m : EventStatus) (ms : list EventStatus) :
  names_are_values → m ∈ ms ↔ value m ∈ value <$> ms.
Proof.
  intros Hnv. rewrite list_elem_of_fmap. split.
  - intros Hin. by exists m.
  - intros (m' & Heq & Hin).
    assert (Some m = Some m') as [= ->];
      [by rewrite <- (Hnv m), Heq, Hnv | done].
Qed.

(** On a stored event, [check_params] computes the amended filter and
    changes nothing. *)
Lemma check_params_stored since status w l :
  names_are_values →
  stored_event (objects w) l →
  check_params since status l w
  = (Ok (passes (spec_matches_amended since status) (objects w) l), w).
Proof.
  intros Hnv (d & t & m & Hl & Hc & Hs).
  unfold passes. rewrite Hl.
  assert (∀ k v, d !! k = Some v → getitem_at l k w = (Ok v, w)) as Hget
    by (intros; by eapply getitem_at_ok).
  unfold check_params.
  assert (∀ B (k : bool → M world B),
            bind (match since with
                  | Some t0 =>
                      let* c := getitem_at l "created_at" in
                      match c with
                      | VTime t' => ret (t0 <=? t')
                      | _ => raise TypeError
                      end
                  | None => ret true
                  end) k w
            = k (match since with Some t0 => t0 <=? t | None => true end) w)
    as Hsince.
  { intros B k. destruct since as [t0|]; [|done].
    unfold bind at 1. unfold bind at 1. by rewrite (Hget _ _ Hc). }
  rewrite Hsince. clear Hsince.
  unfold spec_matches_amended, spec_matches. rewrite Hc, Hs.
  destruct status as [[m0|[|m0 ms]]|]; cbn [status_truthy]; try done.
  - unfold bind at 1. unfold bind at 1. rewrite (Hget _ _ Hs).
    reflexivity.
  - rewrite bool_decide_eq_false_2 by done. cbn [negb].
    unfold bind at 1. unfold bind at 1. rewrite (Hget _ _ Hs).
    unfold bind at 1, lift, member_named. rewrite Hnv.
    unfold ret. do 3 f_equal.
    apply bool_decide_ext, member_iff_value, Hnv.
Qed.

Lemma py_filter_stored since status w events :
  names_are_values →
  Forall (stored_event (objects w)) events →
  py_filter (check_params since status) events w
  = (Ok (select (spec_matches_amended since status) (objects w) events), w).
Proof.
  intros Hnv. induction 1 as [|l events Hl _ IH]; [done|].
  cbn [py_filter].
  erewrite bind_ok by (by apply check_params_stored).
  erewrite bind_ok by exact IH.
  unfold ret, select. rewrite filter_cons.
  destruct (passes _ _ l); [by rewrite decide_True | by rewrite decide_False].
Qed.

(** With the backend unhealthy, [retrieve] returns the [filter] object
    and neither reads nor changes anything. *)
Lemma retrieve_unhealthy since status w :
  unhealthy w →
  retrieve since status w = (Ok (FromMemory since status), w).
Proof.
  intros Hun. destruct (ping_unhealthy w Hun) as (p & Hp & Hh).
  unfold retrieve. erewrite bind_ok by exact Hp. by rewrite Hh.
Qed.

(** C7, amended.  With the backend unhealthy, members named as their
    values read and a buffer of stored events, [retrieve] changes nothing
    and returns the [filter] object over the buffer, and that object
    yields, in buffer order, exactly the buffered events with
    [created_at >= since] when [since] is given and, when [status] is a
    member or a list of members that is not empty, with [status] equal to
    the member's value or among the members' values; an empty list, like
    no [status] at all, filters nothing. *)
Theorem C7_retrieve_unhealthy_filters since status w :
  names_are_values →
  unhealthy w →
  Forall (stored_event (objects w)) (buffer w) →
  retrieve since status w = (Ok (FromMemory since status), w)
  ∧ iterate_filter since status w
    = (Ok (select (spec_matches_amended since status)
                  (objects w) (buffer w)), w).
Proof.
  intros Hnv Hun Hall. split; [by apply retrieve_unhealthy|].
  unfold iterate_filter.
  erewrite bind_ok by reflexivity. cbv beta. fold (buffer w).
  by apply py_filter_stored.
Qed.

End facts.

(** *** Runs on sample data *)

Import Samples.

Lemma status3_names_are_values : names_are_values (E := status3_enum).
Proof. by intros []. Qed.

Lemma C2_store_unhealthy_then_removal_raises_witness :
  ∃ w',
    store 0%nat 1700000000
      (bus_world [ODict (bus_event "e1" "PENDING")] [] (Some backend_down))
    = (Ok VNone, w')
    ∧ objects w' = [ODict (stored_bus_event "e1" "PENDING" 1700000000)]
    ∧ buffer w' = [0%nat]
    ∧ timers w' = [(86400, del_event_closure 0%nat)]
    ∧ run_callback (del_event_closure 0%nat) w'
      = (Raise (AttributeError "remove"), w').
Proof.
  apply (C2_store_unhealthy_then_removal_raises
           (bus_world [ODict (bus_event "e1" "PENDING")] []
                      (Some backend_down))
           0%nat (bus_event "e1" "PENDING") 1700000000).
  - reflexivity.
  - reflexivity.
  - cbn. unfold QUEUE_SIZE. lia.
Defined.

Lemma three_events_stored :
  Forall (stored_event (E := status3_enum) (objects three_buffered))
         (buffer three_buffered).
Proof.
  repeat constructor.
  - by exists (stored_bus_event "e1" "PENDING" 10), 10, PENDING.
  - by exists (stored_bus_event "e2" "PENDING" 20), 20, PENDING.
  - by exists (stored_bus_event "e2" "FAILED" 30), 30, FAILED.
Qed.

Lemma C7_retrieve_unhealthy_filters_witness :
  (retrieve (Some 15) (Some (StatusList (E := status3_enum) [FAILED; SENT]))
     three_buffered
   = (Ok (FromMemory (Some 15)
            (Some (StatusList (E := status3_enum) [FAILED; SENT]))),
      three_buffered)
   ∧ iterate_filter (Some 15)
       (Some (StatusList (E := status3_enum) [FAILED; SENT])) three_buffered
     = (Ok [2%nat], three_buffered))
  ∧ (retrieve None (Some (StatusOne (E := status3_enum) PENDING))
       three_buffered
     = (Ok (FromMemory None (Some (StatusOne (E := status3_enum) PENDING))),
        three_buffered)
     ∧ iterate_filter None (Some (StatusOne (E := status3_enum) PENDING))
         three_buffered
       = (Ok [0; 1]%nat, three_buffered))
  ∧ (retrieve (E := status3_enum) (Some 15) None three_buffered
     = (Ok (FromMemory (Some 15) None), three_buffered)
     ∧ iterate_filter (E := status3_enum) (Some 15) None three_buffered
       = (Ok [1; 2]%nat, three_buffered)).
Proof.
  split; [|split].
  - exact (C7_retrieve_unhealthy_filters (Some 15)
             (Some (StatusList (E := status3_enum) [FAILED; SENT])) three_buffered
             status3_names_are_values I three_events_stored).
  - exact (C7_retrieve_unhealthy_filters None
             (Some (StatusOne (E := status3_enum) PENDING)) three_buffered
             status3_names_are_values I three_events_stored).
  - exact (C7_retrieve_unhealthy_filters (Some 15) None three_buffered
             status3_names_are_values I three_events_stored).
Defined.

(** C7 as worded fails on an empty list of values: [retrieve(status=[])]
    returns every buffered event, where membership in no values would
    return none. *)
Lemma C7_empty_status_list_counterexample :
  ¬ retrieve_filters_as_worded None (Some (StatusList (E := status3_enum) [])) three_buffered.
Proof.
  intros H. destruct (H I three_events_stored) as [_ Hit].
  vm_compute in Hit. discriminate Hit.
Qed.

Lemma C9_rejected_write_raises_to_caller_witness :
  (∃ w', store 0%nat 1700000000 one_rejected
         = (Raise (PersistenceError (ExternalError "OperationFailure")), w')
         ∧ exception_handler_calls w' = []
         ∧ buffer w' = [] ∧ timers w' = [])
  ∧ update (E := status3_enum) "e1" SENT one_rejected
    = (Raise (PersistenceError (ExternalError "OperationFailure")),
       one_rejected).
Proof.
  destruct (C9_rejected_write_raises_to_caller one_rejected backend_rejecting)
    as [Hstore Hupdate]; [by split|].
  split.
  - exact (Hstore 0%nat (bus_event "e1" "PENDING") 1700000000
             (ExternalError "OperationFailure") eq_refl eq_refl).
  - exact (Hupdate "e1" SENT
             (ExternalError "OperationFailure") eq_refl).
Defined.

(** C9 as worded fails: the rejected write is raised to the caller of
    [store] and never reaches the loop's exception handler. *)
Lemma C9_rejection_raised_counterexample :
  ¬ rejection_goes_to_sink 0%nat 1700000000 one_rejected.
Proof.
  intros H.
  destruct (H backend_rejecting (bus_event "e1" "PENDING")
              (ExternalError "OperationFailure"))
    as (v & w' & Hs & _); [by split|done|done|].
  vm_compute in Hs. discriminate Hs.
Qed.

Lemma C10_update_unhealthy_frame_witness :
  update (E := status3_enum) "e9" SENT three_buffered = (Ok VNone, three_buffered)
  ∧ ∃ w' d',
      update (E := status3_enum) "e2" SENT three_buffered = (Ok VNone, w')
      ∧ self w' = self three_buffered ∧ timers w' = timers three_buffered
      ∧ exception_handler_calls w' = exception_handler_calls three_buffered
      ∧ length (objects w') = length (objects three_buffered)
      ∧ objects w' !! 1%nat = Some (ODict d')
      ∧ d' !! "status" = Some (VStr "SENT")
      ∧ (∀ k, k ≠ "status"
              → d' !! k = stored_bus_event "e2" "PENDING" 20 !! k)
      ∧ (∀ l, l ≠ 1%nat → objects w' !! l = objects three_buffered !! l).
Proof.
  destruct (C10_update_unhealthy_frame (E := status3_enum) "e9" SENT
              three_buffered I) as [Hnone _].
  destruct (C10_update_unhealthy_frame (E := status3_enum) "e2" SENT
              three_buffered I) as [_ Hfirst].
  split.
  - apply Hnone. repeat constructor.
    + by exists (stored_bus_event "e1" "PENDING" 10), (VStr "e1").
    + by exists (stored_bus_event "e2" "PENDING" 20), (VStr "e2").
    + by exists (stored_bus_event "e2" "FAILED" 30), (VStr "e2").
  - apply (Hfirst [0%nat] 1%nat [2%nat]
             (stored_bus_event "e2" "PENDING" 20)).
    + reflexivity.
    + repeat constructor.
      by exists (stored_bus_event "e1" "PENDING" 10), (VStr "e1").
    + by split.
Defined.

End BusPersistenceFacts.

(** ** MongoManager *)

Module MongoFacts.
Import Mongo.

(** What [list_databases] returns, name by name: the catalog names that
    start with the prefix, each with every occurrence of the prefix
    removed. *)
Lemma list_databases_elem (names : list string) (n : string) :
  n ∈ list_databases names
  ↔ ∃ name, name ∈ names ∧ startswith name DATABASE_PREFIX = true
            ∧ n = replace name DATABASE_PREFIX "".
Proof.
  unfold list_databases. rewrite list_elem_of_fmap. split.
  - intros (name & -> & Hin). apply list_elem_of_filter in Hin as [Hp Hin].
    by exists name.
  - intros (name & Hin & Hp & ->). exists name. split; [done|].
    by apply list_elem_of_filter.
Qed.

(** C8 (the code's side).  Names without the prefix are left out, and a
    name with the prefix only in front comes back without it; but the
    database [_db_name] makes for the organization [my-org-x] comes back
    as [my-x]: [str.replace] removes the prefix wherever it occurs, not
    only in front. *)
Theorem C8_list_databases_removes_inner_prefix :
  list_databases ["admin"; "org-acme"; "local"; "org-my-org-x"]
  = ["acme"; "my-x"]
  ∧ _db_name (Some "my-org-x") = "org-my-org-x"
  ∧ list_databases [_db_name (Some "my-org-x")] = ["my-x"]
  ∧ list_databases [_db_name (Some "my-org-x")] ≠ ["my-org-x"].
Proof. repeat split. by vm_compute. Qed.

End MongoFacts.

(** ** Insertion-ordered dicts *)

Module ODictFacts.
Section facts.
Context {K V : Type} `{EqDecision K}.
Implicit Types (d pre post : list (K * V)) (k : K) (v : V).

Lemma odict_get_elem k v d : odict_get k d = Some v → (k, v) ∈ d.
Proof.
  induction d as [|[k' v'] d IH]; [done|]. cbn [odict_get].
  destruct (decide (k = k')) as [->|Hne].
  - intros [= ->]. apply list_elem_of_here.
  - intros Hget. apply list_elem_of_further. by apply IH.
Qed.

Lemma odict_set_elem k v d x : x ∈ odict_set k v d → x = (k, v) ∨ x ∈ d.
Proof.
  induction d as [|[k' v'] d IH]; cbn [odict_set].
  - intros Hx. apply list_elem_of_singleton in Hx. by left.
  - destruct (decide (k = k')) as [->|Hne]; intros Hx;
      apply elem_of_cons in Hx as [->|Hx].
    + by left.
    + right. by apply list_elem_of_further.
    + right. apply list_elem_of_here.
    + destruct (IH Hx) as [->|Hin]; [by left|].
      right. by apply list_elem_of_further.
Qed.

Lemma odict_get_set_eq k v d : odict_get k (odict_set k v d) = Some v.
Proof.
  induction d as [|[k' v'] d IH]; cbn [odict_set odict_get].
  - by rewrite decide_True.
  - destruct (decide (k = k')) as [->|Hne]; cbn [odict_get].
    + by rewrite decide_True.
    + by rewrite decide_False.
Qed.

Lemma odict_get_set_ne k k' v d :
  k' ≠ k → odict_get k' (odict_set k v d) = odict_get k' d.
Proof.
  intros Hne. induction d as [|[k0 v0] d IH]; cbn [odict_set odict_get].
  - by rewrite decide_False.
  - destruct (decide (k = k0)) as [->|Hne0]; cbn [odict_get].
    + by rewrite !decide_False.
    + by rewrite IH.
Qed.

Lemma odict_get_skip k pre d :
  Forall (λ kv, kv.1 ≠ k) pre → odict_get k (pre ++ d) = odict_get k d.
Proof.
  induction 1 as [|[k' v'] pre Hne _ IH]; [done|].
  cbn [app odict_get]. cbn in Hne. by rewrite decide_False.
Qed.

Lemma odict_set_skip k v v0 pre post :
  Forall (λ kv, kv.1 ≠ k) pre →
  odict_set k v (pre ++ (k, v0) :: post) = pre ++ (k, v) :: post.
Proof.
  induction 1 as [|[k' v'] pre Hne _ IH]; cbn [app odict_set].
  - by rewrite decide_True.
  - cbn in Hne. rewrite decide_False by done. by rewrite IH.
Qed.

Lemma odict_get_none_forall k d :
  odict_get k d = None → Forall (λ kv, kv.1 ≠ k) d.
Proof.
  induction d as [|[k' v'] d IH]; [constructor|]. cbn [odict_get].
  destruct (decide (k = k')) as [->|Hne]; [done|].
  intros H. constructor; [by cbn|by apply IH].
Qed.

Lemma odict_get_split k v d :
  odict_get k d = Some v →
  ∃ pre post, d = pre ++ (k, v) :: post ∧ Forall (λ kv, kv.1 ≠ k) pre.
Proof.
  induction d as [|[k' v'] d IH]; [done|]. cbn [odict_get].
  destruct (decide (k = k')) as [->|Hne].
  - intros [= ->]. by exists [], d.
  - intros H. destruct (IH H) as (pre & post & -> & Hpre).
    exists ((k', v') :: pre), post. split; [done|].
    constructor; [by cbn|done].
Qed.

Lemma odict_set_new k v d :
  odict_get k d = None → odict_set k v d = d ++ [(k, v)].
Proof.
  induction d as [|[k0 v0] d IH]; cbn [app odict_get odict_set]; [done|].
  destruct (decide (k = k0)); [done|]. intros H. by rewrite IH.
Qed.

Lemma odict_get_snoc k v d :
  odict_get k d = None → odict_get k (d ++ [(k, v)]) = Some v.
Proof.
  induction d as [|[k0 v0] d IH]; cbn [app odict_get].
  - by rewrite decide_True.
  - destruct (decide (k = k0)); [done|]. apply IH.
Qed.

Lemma odict_del_length k v d :
  odict_get k d = Some v → (length (odict_del k d) + 1 = length d)%nat.
Proof.
  induction d as [|[k' v'] d IH]; [done|]. cbn [odict_get odict_del].
  destruct (decide (k = k')) as [->|Hne]; intros Hget; cbn [length].
  - lia.
  - specialize (IH Hget). lia.
Qed.

End facts.
End ODictFacts.

(** ** WorkflowNyuki: the registry *)

Module RegistryFacts.
Import Workflow WorkflowSpec.

Lemma same_objects_id w : set_objects (objects w) w = w.
Proof. by destruct w. Qed.

Lemma find_workflow_unknown s r :
  unknown_execution s r → find_workflow (VStr s) r = Ok None.
Proof.
  induction 1 as [|[org ws] r Hws _ IH]; [done|].
  cbn [find_workflow]. cbn in Hws. by rewrite Hws.
Qed.

Lemma find_workflow_registered s wflow r :
  registered s wflow r → find_workflow (VStr s) r = Ok (Some wflow).
Proof.
  intros (pre & ws & post & -> & Hpre & Hws).
  induction Hpre as [|[org ws'] pre [_ Hnone] _ IH].
  - cbn. by rewrite Hws.
  - cbn [app find_workflow]. cbn in Hnone. by rewrite Hnone.
Qed.

(** *** What the steps of the handlers leave alone *)

Lemma kc_bind {A B} (m : M world A) (k : A → M world B) :
  keeps_channels m → (∀ a, keeps_channels (k a)) → keeps_channels (bind m k).
Proof.
  intros Hm Hk w r w' H. unfold bind in H.
  destruct (m w) as [[a|e] w1] eqn:Em.
  - destruct (Hm _ _ _ Em) as [<- <-]. exact (Hk a _ _ _ H).
  - injection H as <- <-. exact (Hm _ _ _ Em).
Qed.

Lemma kc_ret {A} (a : A) : keeps_channels (ret a).
Proof. by intros w r w' [= <- <-]. Qed.

Lemma kc_raise {A} e : keeps_channels (raise (A := A) e).
Proof. by intros w r w' [= <- <-]. Qed.

Lemma kc_lift {A} (x : result A) : keeps_channels (lift x).
Proof. by intros w r w' [= <- <-]. Qed.

Lemma kc_get : keeps_channels (get (S := world)).
Proof. by intros w r w' [= <- <-]. Qed.

Lemma kc_on_objects {A} (m : M heap A) : keeps_channels (on_objects m).
Proof.
  intros w r w'. unfold on_objects. destruct (m (objects w)).
  by intros [= <- <-].
Qed.

Lemma kc_modify (f : world → world) :
  (∀ w, sends (f w) = sends w ∧ ws_clients (f w) = ws_clients w) →
  keeps_channels (modify f).
Proof. intros Hf w r w' [= <- <-]. apply Hf. Qed.

Ltac kc_step :=
  first [ apply kc_ret | apply kc_raise | apply kc_lift | apply kc_get
        | apply kc_on_objects | by apply kc_modify
        | apply kc_bind; [|intros ?] ].

Lemma kc_db_context name : keeps_channels (db_context name).
Proof.
  unfold db_context. kc_step; [kc_step|]. kc_step.
  { case_bool_decide; kc_step. }
  kc_step; [kc_step|]. kc_step; [|kc_step].
  case_bool_decide; kc_step.
Qed.

Lemma kc_ensure_future_insert storage doc :
  keeps_channels (ensure_future_insert storage doc).
Proof. by apply kc_modify. Qed.

Lemma kc_del_running org exec_id : keeps_channels (del_running org exec_id).
Proof.
  unfold del_running. kc_step; [kc_step|].
  destruct (odict_get org _); [|kc_step].
  destruct exec_id; try kc_step.
  destruct (odict_get _ _); kc_step.
Qed.

Lemma kr_bind {A B} (m : M world A) (k : A → M world B) :
  keeps_registry m → (∀ a, keeps_registry (k a)) → keeps_registry (bind m k).
Proof.
  intros Hm Hk w r w' H. unfold bind in H.
  destruct (m w) as [[a|e] w1] eqn:Em.
  - destruct (Hm _ _ _ Em) as (<- & <- & <-). exact (Hk a _ _ _ H).
  - injection H as <- <-. exact (Hm _ _ _ Em).
Qed.

Lemma kr_ret {A} (a : A) : keeps_registry (ret a).
Proof. by intros w r w' [= <- <-]. Qed.

Lemma kr_on_objects {A} (m : M heap A) : keeps_registry (on_objects m).
Proof.
  intros w r w'. unfold on_objects. destruct (m (objects w)).
  by intros [= <- <-].
Qed.

Lemma kr_reports ws : keeps_registry (reports ws).
Proof.
  induction ws as [|wf ws IH]; cbn [reports]; [apply kr_ret|].
  apply kr_bind; [apply kr_on_objects|]. intros r.
  apply kr_bind; [apply IH|]. intros rs. apply kr_ret.
Qed.

Lemma kc_reports ws : keeps_channels (reports ws).
Proof.
  induction ws as [|wf ws IH]; cbn [reports]; [apply kc_ret|].
  kc_step; [kc_step|]. kc_step; [apply IH|]. kc_step.
Qed.

(** Every report [reports] returns is the [report()] of the record at
    the same place, and there is one per record. *)
Lemma reports_are_reports ws w rs w' :
  reports ws w = (Ok rs, w') →
  Forall2 (λ wf v, ∃ h h', report wf h = (Ok v, h')) ws rs.
Proof.
  revert w rs. induction ws as [|wf ws IH]; intros w rs; cbn [reports].
  - intros [= <- <-]. constructor.
  - unfold bind at 1, on_objects.
    destruct (report wf (objects w)) as [[v|e] h1] eqn:Er; [|done].
    unfold bind at 1.
    destruct (reports ws _) as [[vs|e] w1] eqn:Ers; [|done].
    intros [= <- <-]. constructor; [by eauto|]. by eapply IH.
Qed.

Lemma reports_report_each ws w r w' :
  reports ws w = (r, w') →
  report_each ws (objects w) = (r, objects w').
Proof.
  revert w r w'. induction ws as [|wf ws IH]; intros w r w';
    cbn [reports report_each].
  - by intros [= <- <-].
  - unfold bind at 1 3, on_objects.
    destruct (report wf (objects w)) as [[v|e] h1] eqn:Er;
      [|by intros [= <- <-]].
    unfold bind at 1 2.
    destruct (reports ws (set_objects h1 w)) as [[vs|e] w1] eqn:Ers;
      apply IH in Ers; cbn [objects set_objects] in Ers; rewrite Ers;
      by intros [= <- <-].
Qed.

Lemma record_count_app (r1 r2 : registry) :
  record_count (r1 ++ r2) = (record_count r1 + record_count r2)%nat.
Proof. unfold record_count. by rewrite fmap_app, sum_list_with_app. Qed.

Lemma registered_lookup s wflow r :
  registered s wflow r →
  ∃ pre ws post,
    r = pre ++ (_organization wflow, ws) :: post
    ∧ Forall (λ kv, kv.1 ≠ _organization wflow) pre
    ∧ odict_get (_organization wflow) r = Some ws
    ∧ odict_get s ws = Some wflow.
Proof.
  intros (pre & ws & post & -> & Hpre & Hws). exists pre, ws, post.
  assert (Forall (λ kv : option string * list (string * WorkflowInstance),
                    kv.1 ≠ _organization wflow) pre) as Hne.
  { eapply Forall_impl; [exact Hpre|]. by intros ? [? _]. }
  split; [done|]. split; [done|]. split; [|done].
  rewrite ODictFacts.odict_get_skip by done.
  cbn. by rewrite decide_True.
Qed.

(** With the store reachable, entering the context of an organization
    succeeds and changes at most the storages known. *)
Lemma db_context_ok org w :
  store_reachable org w →
  ∃ D, db_context org w = (Ok (Mongo._db_name org), set_databases D w).
Proof.
  intros [Hping Hinit]. unfold db_context.
  unfold bind at 1, get.
  case_bool_decide as Hin.
  - destruct Hinit as [Hin'|Hinit]; [done|].
    unfold bind at 1, modify. unfold bind at 1, lift.
    cbn [mongo_ping set_databases]. rewrite Hping.
    unfold bind at 1. rewrite Hinit. by eexists.
  - unfold bind at 1, ret. unfold bind at 1, lift. rewrite Hping.
    unfold bind at 1. exists (_databases w). by destruct w.
Qed.

(** With the store unreachable, entering the context raises what the
    ping raised, having changed at most the storages known. *)
Lemma db_context_down org w e :
  mongo_ping w = Raise e →
  ∃ D, db_context org w = (Raise e, set_databases D w).
Proof.
  intros Hping. unfold db_context. unfold bind at 1, get.
  case_bool_decide as Hin.
  - unfold bind at 1, modify. unfold bind at 1, lift.
    cbn [mongo_ping set_databases]. rewrite Hping. by eexists.
  - unfold bind at 1, ret. unfold bind at 1, lift. rewrite Hping.
    exists (_databases w). by destruct w.
Qed.

(** What [sanitize_workflow_exec] returns for a dict or a list is the
    object it was given. *)
Lemma sanitize_ref depth l h doc h' :
  sanitize_workflow_exec depth (VRef l) h = (Ok doc, h') → doc = VRef l.
Proof.
  destruct depth as [|depth]; [done|]. cbn [sanitize_workflow_exec].
  destruct (h !! l) as [[d|items]|]; [| |done].
  - unfold bind at 1.
    match goal with
    | |- context [match ?m h with _ => _ end] =>
        destruct (m h) as [[u|e] h1]; [|done]
    end.
    by intros [= <- <-].
  - unfold bind at 1.
    match goal with
    | |- context [match ?m h with _ => _ end] =>
        destruct (m h) as [[u|e] h1]; [|done]
    end.
    by intros [= <- <-].
Qed.

(** Peel the first step off a computation known to return. *)
Ltac bind_inv H :=
  unfold bind at 1 in H;
  match type of H with
  | context [match ?m ?h with _ => _ end] =>
      destruct (m h) as [[?|?] ?] eqn:?; [|discriminate H]
  end.

(** [report] returns a new dict. *)
Lemma report_ref self h v h' :
  report self h = (Ok v, h') → ∃ l, v = VRef l.
Proof.
  unfold report. intros H. repeat bind_inv H.
  injection H as <- <-. by eexists.
Qed.

(** *** The registry between events *)

Lemma record_count_entry (org : option string)
    (ws : list (string * WorkflowInstance)) (pre post : registry) :
  record_count (pre ++ (org, ws) :: post)
  = (record_count pre + length ws + record_count post)%nat.
Proof.
  rewrite record_count_app. unfold record_count at 2.
  cbn [fmap list_fmap sum_list_with snd id]. unfold record_count. lia.
Qed.

(** X26.  [new_workflow] for an execution no organization has yet:
    exactly one record more, registered under its organization, every
    record still held by its own organization, and the subscribers, the
    writes, the broadcasts and the objects as they were. *)
Lemma new_workflow_registers template instance org kwargs w :
  unknown_execution (uid instance) (running_workflows w) →
  records_by_organization (running_workflows w) →
  ∃ w',
    new_workflow template instance org kwargs w
    = (Ok (new_instance template instance org kwargs), w')
    ∧ record_count (running_workflows w')
      = Datatypes.S (record_count (running_workflows w))
    ∧ registered (uid instance) (new_instance template instance org kwargs)
                 (running_workflows w')
    ∧ records_by_organization (running_workflows w')
    ∧ ws_clients w' = ws_clients w ∧ inserts w' = inserts w
    ∧ sends w' = sends w ∧ objects w' = objects w.
Proof.
  intros Hun Hrs. set (wf := new_instance template instance org kwargs).
  unfold new_workflow. fold wf.
  erewrite bind_ok by reflexivity. cbv beta. unfold ret.
  eexists. split; [reflexivity|].
  cbn [running_workflows set_running_workflows ws_clients inserts sends
       objects].
  set (r := running_workflows w) in *.
  assert (∃ pre ws post,
            match odict_get org r with
            | Some _ => r
            | None => odict_set org [] r
            end = pre ++ (org, ws) :: post
            ∧ r = pre ++ match odict_get org r with Some _ => [(org, ws)] | None => [] end ++ post
            ∧ Forall (λ kv, kv.1 ≠ org) pre
            ∧ odict_get (uid instance) ws = None
            ∧ (odict_get org r = None → ws = [])) as
    (pre & ws & post & Hr1 & Hr & Hpre & Hws & Hnil).
  { destruct (odict_get org r) as [ws|] eqn:Hget.
    - destruct (ODictFacts.odict_get_split _ _ _ Hget)
        as (pre & post & Hr & Hpre).
      exists pre, ws, post. split; [done|]. split; [done|]. split; [done|].
      split; [|done].
      unfold unknown_execution in Hun. rewrite Hr in Hun.
      apply Forall_app in Hun as [_ Hun].
      by apply Forall_cons in Hun as [Hun _].
    - exists r, [], []. rewrite ODictFacts.odict_set_new by done.
      split; [done|]. split; [by rewrite !app_nil_r|].
      split; [by apply ODictFacts.odict_get_none_forall|done]. }
  rewrite Hr1. rewrite ODictFacts.odict_get_skip by done.
  cbn [odict_get]. rewrite decide_True by done. cbn [default].
  rewrite ODictFacts.odict_set_skip by done.
  rewrite ODictFacts.odict_set_new by done.
  assert (Forall (λ kv : option string * list (string * WorkflowInstance),
                    odict_get (uid instance) kv.2 = None) pre) as Hpre_un.
  { unfold unknown_execution in Hun. rewrite Hr in Hun.
    by apply Forall_app in Hun as [Hun _]. }
  split; [|split; [|split]]; [| | |done].
  - rewrite record_count_entry, length_app. cbn [length]. unfold id.
    rewrite Hr. destruct (odict_get org r).
    + cbn [app]. rewrite record_count_entry. lia.
    + rewrite (Hnil eq_refl), app_nil_l, record_count_app. cbn [length]. lia.
  - exists pre, (ws ++ [(uid instance, wf)]), post.
    split; [done|]. split.
    + apply Forall_forall. intros kv Hkv.
      rewrite Forall_forall in Hpre, Hpre_un. split; [by apply Hpre|].
      by apply Hpre_un.
    + by apply ODictFacts.odict_get_snoc.
  - intros org' ws' s wf' Hin Hwf'.
    apply elem_of_app in Hin as [Hin|Hin].
    + eapply Hrs; [|exact Hwf']. rewrite Hr. apply elem_of_app. by left.
    + apply elem_of_cons in Hin as [[= -> ->]|Hin].
      * apply elem_of_app in Hwf' as [Hwf'|Hwf'].
        -- destruct (odict_get org r) eqn:Hget;
             [|rewrite (Hnil eq_refl) in Hwf'; by apply elem_of_nil in Hwf'].
           eapply Hrs; [|exact Hwf']. rewrite Hr.
           apply elem_of_app. right. apply elem_of_app. left.
           apply list_elem_of_here.
        -- by apply list_elem_of_singleton in Hwf' as [= -> ->].
      * eapply Hrs; [|exact Hwf']. rewrite Hr.
        apply elem_of_app. right. apply elem_of_app. by right.
Qed.

Lemma list_remove_elem c c' l : c' ∈ list_remove c l → c' ∈ l.
Proof.
  induction l as [|c0 l IH]; [done|]. cbn [list_remove].
  destruct (decide (c = c0)).
  - apply list_elem_of_further.
  - intros [->|H]%elem_of_cons; [apply list_elem_of_here|].
    apply list_elem_of_further. by apply IH.
Qed.

(** [websocket_close] keeps every subscriber under the organization its
    request named. *)
Lemma websocket_close_clients c w :
  clients_by_header (ws_clients w) →
  ∃ w', websocket_close c w = (Ok (), w')
        ∧ clients_by_header (ws_clients w')
        ∧ running_workflows w' = running_workflows w.
Proof.
  intros Hcs. eexists. split; [reflexivity|]. split; [|done].
  cbn [ws_clients set_ws_clients]. intros org l c' Hin Hc'.
  apply list_elem_of_fmap in Hin as ([org0 l0] & [= -> ->] & Hin).
  eapply Hcs; [exact Hin|]. by eapply list_remove_elem.
Qed.

Section handler.
Context {S : WorkflowExecState}.

(** C3 (the code's side).  An event about an execution no organization
    has a record of makes [report_workflow] raise [UnboundLocalError]:
    the lookup loop ends without binding [wflow], which the next line
    reads.  Nothing is logged or changed, no record is created or removed
    and nothing is written or broadcast, but the error leaves the
    handler. *)
Theorem C3_unknown_execution_raises event utcnow w s :
  source event !! "workflow_exec_id" = Some (VStr s) →
  unknown_execution s (running_workflows w) →
  report_workflow event utcnow w = (Raise (UnboundLocalError "wflow"), w).
Proof.
  intros Hsrc Hun. unfold report_workflow.
  unfold bind at 1, lift, getitem. rewrite Hsrc.
  unfold bind at 1, get. unfold bind at 1.
  by rewrite find_workflow_unknown.
Qed.

(** The finalize branch of [report_workflow] touches neither the
    subscribers nor the broadcasts. *)
Lemma kc_finalize wflow exec_id :
  keeps_channels
    (let* storage := db_context (_organization wflow) in
     let* r := on_objects (report wflow) in
     let* w := get in
     let* doc := on_objects (sanitize_workflow_exec (recursion_budget w) r) in
     ensure_future_insert storage doc ;;;
     del_running (_organization wflow) exec_id).
Proof.
  kc_step; [apply kc_db_context|]. kc_step; [kc_step|].
  kc_step; [kc_step|]. kc_step; [kc_step|].
  kc_step; [apply kc_ensure_future_insert|]. apply kc_del_running.
Qed.

(** Whatever [report_workflow] does about a registered execution, it
    leaves the subscribers as they are and makes at most one broadcast,
    to the subscribers of the execution's organization. *)
Lemma report_workflow_sends event utcnow w s wflow r w' :
  source event !! "workflow_exec_id" = Some (VStr s) →
  registered s wflow (running_workflows w) →
  report_workflow event utcnow w = (r, w') →
  ws_clients w' = ws_clients w
  ∧ (sends w' = sends w
     ∨ ∃ p, r = Ok ()
            ∧ sends w' = sends w
                ++ [(subscribers (_organization wflow) (ws_clients w), p)]).
Proof.
  intros Hsrc Hreg. unfold report_workflow.
  unfold bind at 1, lift, getitem. rewrite Hsrc.
  unfold bind at 1, get. unfold bind at 1.
  rewrite (find_workflow_registered _ _ _ Hreg).
  unfold bind at 1. destruct (data event !! "type") as [ty|];
    [|intros [= <- <-]; by auto].
  unfold bind at 1.
  match goal with
  | |- context [match ?m w with _ => _ end] =>
      destruct (m w) as [[u|e] w1] eqn:Eb;
      assert (keeps_channels m) as Hkeep
        by (destruct (is_terminal ty); [apply kc_finalize | apply kc_ret])
  end.
  2:{ intros [= <- <-]. destruct (Hkeep _ _ _ Eb) as [-> ->]. by auto. }
  destruct (Hkeep _ _ _ Eb) as [Hs1 Hc1]. clear Hkeep Eb.
  unfold bind at 1, get. unfold bind at 1.
  match goal with
  | |- context [match ?m w1 with _ => _ end] =>
      destruct (m w1) as [[d|e] w2] eqn:Ed;
      assert (keeps_channels m) as Hkeep
        by (destruct (truthy _ _); [apply kc_ret|];
            kc_step; [kc_step|kc_step])
  end.
  2:{ intros [= <- <-]. destruct (Hkeep _ _ _ Ed) as [-> ->]. by auto. }
  destruct (Hkeep _ _ _ Ed) as [Hs2 Hc2]. clear Hkeep Ed.
  unfold bind at 1, get, websocket_send, modify. intros [= <- <-].
  cbn [ws_clients sends set_sends]. rewrite Hc2, Hc1, Hs2, Hs1.
  split; [done|]. right. by eexists.
Qed.

Lemma subscribers_elem org cs c :
  c ∈ subscribers org cs → ∃ l, (org, l) ∈ cs ∧ c ∈ l.
Proof.
  unfold subscribers. destruct (odict_get org cs) as [l|] eqn:Hget.
  - intros Hc. exists l. split; [|done].
    by apply ODictFacts.odict_get_elem.
  - cbn. by intros ?%elem_of_nil.
Qed.

(** [websocket_ready] lists the client under the organization its
    request named, and nowhere else. *)
Lemma websocket_ready_clients c w r w' :
  clients_by_header (ws_clients w) →
  websocket_ready c w = (r, w') →
  clients_by_header (ws_clients w')
  ∧ c ∈ subscribers (header_organization c) (ws_clients w')
  ∧ running_workflows w' = running_workflows w
  ∧ inserts w' = inserts w ∧ sends w' = sends w.
Proof.
  intros Hcs. unfold websocket_ready.
  unfold bind at 1, modify. unfold bind at 1, get.
  set (org := header_organization c).
  set (cs0 := match odict_get org (ws_clients w) with
              | Some _ => ws_clients w
              | None => odict_set org [] (ws_clients w)
              end).
  set (cs1 := odict_set org (default [] (odict_get org cs0) ++ [c]) cs0).
  set (w1 := set_ws_clients cs1 w).
  intros Hrep.
  assert (ws_clients w' = cs1) as Hcs'.
  { destruct (kc_reports _ _ _ _ Hrep) as [_ ->]. done. }
  destruct (kr_reports _ _ _ _ Hrep) as (-> & -> & ->).
  rewrite Hcs'. split; [|split; [|done]].
  - intros org' l c' Hin Hc'.
    assert (∀ l0, (org', l0) ∈ cs0 → c' ∈ l0 → header_organization c' = org')
      as Hcs0.
    { intros l0 Hl0. subst cs0.
      destruct (odict_get org (ws_clients w)); [by apply Hcs|].
      apply ODictFacts.odict_set_elem in Hl0 as [[= -> ->]|Hl0];
        [by intros ?%elem_of_nil | by apply Hcs]. }
    subst cs1. apply ODictFacts.odict_set_elem in Hin as [[= -> ->]|Hin];
      [|by eapply Hcs0].
    apply elem_of_app in Hc' as [Hc'|Hc'].
    + destruct (odict_get org cs0) as [l0|] eqn:Hget;
        [|by apply elem_of_nil in Hc'].
      eapply Hcs0; [|done]. by apply ODictFacts.odict_get_elem.
    + by apply list_elem_of_singleton in Hc' as ->.
  - unfold subscribers. subst cs1.
    rewrite ODictFacts.odict_get_set_eq. cbn.
    apply elem_of_app. right. by apply list_elem_of_singleton.
Qed.

(** C6.  With every subscriber listed under the organization its request
    named and every record held by its own organization (both kept true
    by the handlers): whatever [report_workflow] does about an execution
    registered for organization [B], it makes at most one broadcast, its
    recipients are the subscribers listed for [B], each of them named
    [B] in its request, and no subscriber listed for another
    organization is among them; and whatever [websocket_ready] returns
    to a client that named [org], it is the [report()] of each live
    record of [org], one per record and in order, all of them records of
    [org], with the registry untouched and the client listed for [org]
    only; these reports are built on the objects of the process, and a
    failing one is the only exception raised: what is returned and what
    the objects become are what reporting the live records of [org], and
    no other record, gives. *)
Theorem C6_tenant_isolation w :
  clients_by_header (ws_clients w) →
  records_by_organization (running_workflows w) →
  (∀ event utcnow s wflow r w',
     source event !! "workflow_exec_id" = Some (VStr s) →
     registered s wflow (running_workflows w) →
     report_workflow event utcnow w = (r, w') →
     let B := _organization wflow in
     ∃ new, sends w' = sends w ++ new
            ∧ (length new ≤ 1)%nat
            ∧ ∀ cs p, (cs, p) ∈ new →
                cs = subscribers B (ws_clients w)
                ∧ (∀ c, c ∈ cs → header_organization c = B)
                ∧ (∀ A c, A ≠ B → c ∈ subscribers A (ws_clients w)
                          → c ∉ cs))
  ∧ (∀ c r w',
       websocket_ready c w = (r, w') →
       let org := header_organization c in
       running_workflows w' = running_workflows w
       ∧ clients_by_header (ws_clients w')
       ∧ c ∈ subscribers org (ws_clients w')
       ∧ Forall (λ wf, _organization wf = org)
                (records org (running_workflows w))
       ∧ report_each (records org (running_workflows w)) (objects w)
         = (r, objects w')
       ∧ ∀ rs, r = Ok rs →
           Forall2 (λ wf v, ∃ h h', report wf h = (Ok v, h'))
                   (records org (running_workflows w)) rs).
Proof.
  intros Hcs Hrs. split.
  - intros event utcnow s wflow r w' Hsrc Hreg Hrun B.
    assert (∀ c, c ∈ subscribers B (ws_clients w) → header_organization c = B)
      as HB.
    { intros c (l & Hl & Hc)%subscribers_elem. by eapply Hcs. }
    destruct (report_workflow_sends _ _ _ _ _ _ _ Hsrc Hreg Hrun)
      as [_ [Hsame|(p & _ & Hone)]].
    + exists []. rewrite app_nil_r. split; [done|]. split; [cbn; lia|].
      by intros cs p ?%elem_of_nil.
    + exists [(subscribers B (ws_clients w), p)]. split; [done|].
      split; [cbn; lia|].
      intros cs p' [= -> ->]%list_elem_of_singleton.
      split; [done|]. split; [done|].
      intros A c HA Hc Hc'.
      apply subscribers_elem in Hc as (l & Hl & Hc).
      apply HA. rewrite <- (HB c Hc'). symmetry. by eapply Hcs.
  - intros c r w' Hready org.
    destruct (websocket_ready_clients _ _ _ _ Hcs Hready)
      as (Hcs' & Hc & Hreg & _ & _).
    split; [done|]. split; [done|]. split; [done|]. split.
    + unfold records.
      destruct (odict_get org (running_workflows w)) as [ws|] eqn:Hget;
        [|constructor].
      apply ODictFacts.odict_get_elem in Hget.
      apply Forall_forall. intros wf Hwf.
      apply list_elem_of_fmap in Hwf as ([s wf'] & -> & Hin).
      cbn. by eapply Hrs.
    + revert Hready. unfold websocket_ready.
      unfold bind at 1, modify. unfold bind at 1, get.
      intros Hrep. cbn [running_workflows set_ws_clients] in Hrep.
      split; [by apply reports_report_each in Hrep|].
      intros rs ->. by eapply reports_are_reports.
Qed.

(** The payload step of [report_workflow]: the [data] of the payload is
    the event's content, or a new empty dict. *)
Lemma payload_data_ok content w :
  ∃ d h,
    (if truthy (objects w) content then ret content
     else let* l := on_objects (alloc (ODict ∅)) in ret (VRef l)) w
    = (Ok d, set_objects h w).
Proof.
  destruct (truthy (objects w) content).
  - exists content, (objects w). unfold ret. by rewrite same_objects_id.
  - by eexists _, _.
Qed.

(** C4, amended.  For an execution registered with the record [wflow] of
    organization [B]:
    - an event that is not terminal leaves the registry as it is, writes
      nothing, and makes exactly one broadcast, to the subscribers of [B];
    - a terminal event, when the tenant store of [B] is reachable and the
      merged report is built and sanitized without error, removes exactly
      that record (the count goes down by one), hands exactly one insert
      of the merged report to the store of [B] and makes exactly one
      broadcast, to the subscribers of [B];
    - a terminal event, when the ping of the store fails, raises what the
      ping raised: the record stays, nothing is written or broadcast. *)
Theorem C4_registry_lifecycle event utcnow w s wflow ty :
  source event !! "workflow_exec_id" = Some (VStr s) →
  registered s wflow (running_workflows w) →
  data event !! "type" = Some ty →
  let B := _organization wflow in
  (is_terminal ty = false →
   ∃ w' p,
     report_workflow event utcnow w = (Ok (), w')
     ∧ running_workflows w' = running_workflows w
     ∧ inserts w' = inserts w
     ∧ sends w' = sends w ++ [(subscribers B (ws_clients w), p)])
  ∧ (is_terminal ty = true →
     store_reachable B w →
     ∀ r h1 doc h2,
       report wflow (objects w) = (Ok r, h1) →
       sanitize_workflow_exec (recursion_budget w) r h1 = (Ok doc, h2) →
       ∃ w' p pre ws post,
         report_workflow event utcnow w = (Ok (), w')
         ∧ running_workflows w = pre ++ (B, ws) :: post
         ∧ running_workflows w' = pre ++ (B, odict_del s ws) :: post
         ∧ (record_count (running_workflows w') + 1
            = record_count (running_workflows w))%nat
         ∧ inserts w' = inserts w ++ [(Mongo._db_name B, r)]
         ∧ sends w' = sends w ++ [(subscribers B (ws_clients w), p)])
  ∧ (is_terminal ty = true →
     ∀ e, mongo_ping w = Raise e →
       ∃ w',
         report_workflow event utcnow w = (Raise e, w')
         ∧ running_workflows w' = running_workflows w
         ∧ inserts w' = inserts w
         ∧ sends w' = sends w).
Proof.
  intros Hsrc Hreg Hty B.
  assert (report_workflow event utcnow w
          = bind
              (if is_terminal ty
               then
                 let* storage := db_context (_organization wflow) in
                 let* r := on_objects (report wflow) in
                 let* w := get in
                 let* doc :=
                   on_objects
                     (sanitize_workflow_exec (recursion_budget w) r) in
                 ensure_future_insert storage doc ;;;
                 del_running (_organization wflow) (VStr s)
               else ret ())
              (λ _,
                 let content := default VNone (data event !! "content") in
                 let* w := get in
                 let* d :=
                   if truthy (objects w) content then ret content
                   else let* l := on_objects (alloc (ODict ∅)) in
                        ret (VRef l) in
                 let p :=
                   {| p_type := ty; p_data := d;
                      p_source :=
                        <["workflow_exec_requester" :=
                            default VNone (_exec wflow !! "requester")]>
                          (source event);
                      p_timestamp := utcnow;
                      p_template := if eq_str ty begin_value
                                    then Some (_template wflow) else None |}
                 in
                 let* w := get in
                 websocket_send
                   (default [] (odict_get (_organization wflow)
                                          (ws_clients w))) p) w) as ->.
  { unfold report_workflow.
    unfold bind at 1, lift, getitem. rewrite Hsrc.
    unfold bind at 1, get. unfold bind at 1.
    rewrite (find_workflow_registered _ _ _ Hreg).
    unfold bind at 1. by rewrite Hty. }
  split; [|split].
  - intros ->.
    erewrite bind_ok by reflexivity. cbv beta zeta.
    erewrite bind_ok by reflexivity. cbv beta.
    destruct (payload_data_ok (default VNone (data event !! "content")) w)
      as (d & h & Hd).
    erewrite bind_ok by exact Hd. cbv beta.
    erewrite bind_ok by reflexivity. cbv beta.
    unfold websocket_send, modify. by eexists _, _.
  - intros -> Hstore r h1 doc h2 Hrep Hsan.
    destruct (registered_lookup _ _ _ Hreg)
      as (pre & ws & post & Hr & Hpre & HB & Hs).
    destruct (db_context_ok _ _ Hstore) as (D & Hdb).
    destruct (report_ref _ _ _ _ Hrep) as (l & ->).
    pose proof (sanitize_ref _ _ _ _ _ Hsan) as ->.
    assert ((let* storage := db_context (_organization wflow) in
             let* r := on_objects (report wflow) in
             let* w := get in
             let* doc :=
               on_objects (sanitize_workflow_exec (recursion_budget w) r) in
             ensure_future_insert storage doc ;;;
             del_running (_organization wflow) (VStr s)) w
            = (Ok (),
               set_running_workflows (pre ++ (B, odict_del s ws) :: post)
                 (set_inserts (inserts w ++ [(Mongo._db_name B, VRef l)])
                    (set_objects h2 (set_databases D w))))) as Hfin.
    { erewrite bind_ok by exact Hdb. cbv beta.
      erewrite bind_ok
        by (unfold on_objects; cbn [objects set_databases];
            rewrite Hrep; reflexivity).
      cbv beta.
      erewrite bind_ok by reflexivity. cbv beta.
      erewrite bind_ok
        by (unfold on_objects;
            cbn [objects set_objects set_databases recursion_budget];
            rewrite Hsan; reflexivity).
      cbv beta.
      erewrite bind_ok by reflexivity. cbv beta.
      unfold del_running.
      erewrite bind_ok by reflexivity. cbv beta.
      cbn [running_workflows set_inserts set_objects set_databases].
      rewrite HB, Hs. unfold modify.
      rewrite Hr at 1. rewrite ODictFacts.odict_set_skip by done.
      reflexivity. }
    erewrite bind_ok by exact Hfin. cbv beta zeta.
    erewrite bind_ok by reflexivity. cbv beta.
    match goal with
    | |- context [bind _ _ ?w1] =>
        destruct (payload_data_ok
                    (default VNone (data event !! "content")) w1)
          as (d & h & Hd)
    end.
    erewrite bind_ok by exact Hd. cbv beta.
    erewrite bind_ok by reflexivity. cbv beta.
    unfold websocket_send, modify.
    eexists _, _, pre, ws, post. split; [reflexivity|].
    cbn [running_workflows inserts sends ws_clients set_sends set_objects
         set_running_workflows set_inserts set_databases].
    split; [done|]. split; [done|]. split; [|done].
    rewrite Hr, !record_count_app. unfold record_count at 2 4.
    cbn [fmap list_fmap sum_list_with snd id].
    pose proof (ODictFacts.odict_del_length _ _ _ Hs). lia.
  - intros -> e Hping.
    destruct (db_context_down (_organization wflow) w e Hping) as (D & Hdb).
    erewrite bind_raise
      by (erewrite bind_raise by exact Hdb; reflexivity).
    by eexists.
Qed.

End handler.

Import WorkflowSamples.

Lemma C3_unknown_execution_raises_witness :
  report_workflow (S := exec_states) (engine_event "workflow-progress" "x9")
    1700000000 (two_tenants (Ok ()))
  = (Raise (UnboundLocalError "wflow"), two_tenants (Ok ())).
Proof.
  apply (C3_unknown_execution_raises (S := exec_states)
           (engine_event "workflow-progress" "x9") 1700000000
           (two_tenants (Ok ())) "x9").
  - reflexivity.
  - repeat constructor.
Defined.

(** *** Runs on sample data *)

Lemma x2_registered p :
  registered "x2" (wflow "x2" (Some "globex"))
             (running_workflows (two_tenants p)).
Proof.
  exists [(Some "acme", [("x1", wflow "x1" (Some "acme"))])],
         [("x2", wflow "x2" (Some "globex"))], [].
  split; [reflexivity|]. split; [|reflexivity].
  constructor; [|constructor]. by split.
Qed.

Lemma two_tenants_clients p : clients_by_header (ws_clients (two_tenants p)).
Proof.
  intros org l c Hin Hc. cbn in Hin.
  apply elem_of_cons in Hin as [[= -> ->]|Hin];
    [|apply list_elem_of_singleton in Hin as [= -> ->]];
    by apply list_elem_of_singleton in Hc as ->.
Qed.

Lemma two_tenants_records p :
  records_by_organization (running_workflows (two_tenants p)).
Proof.
  intros org ws s wf Hin Hwf. cbn in Hin.
  apply elem_of_cons in Hin as [[= -> ->]|Hin];
    [|apply list_elem_of_singleton in Hin as [= -> ->]];
    by apply list_elem_of_singleton in Hwf as [= -> ->].
Qed.

Lemma C4_registry_lifecycle_witness :
  (∃ w' p,
     report_workflow (S := exec_states)
       (engine_event "workflow-progress" "x2") 1700000000
       (two_tenants (Ok ())) = (Ok (), w')
     ∧ running_workflows w' = running_workflows (two_tenants (Ok ()))
     ∧ inserts w' = []
     ∧ sends w' = [([bob], p)])
  ∧ (∃ w' p pre ws post,
       report_workflow (S := exec_states)
         (engine_event "workflow-end" "x2") 1700000000
         (two_tenants (Ok ())) = (Ok (), w')
       ∧ running_workflows (two_tenants (Ok ()))
         = pre ++ (Some "globex", ws) :: post
       ∧ running_workflows w'
         = pre ++ (Some "globex", odict_del "x2" ws) :: post
       ∧ (record_count (running_workflows w') + 1 = 2)%nat
       ∧ inserts w' = [("org-globex", VRef 11%nat)]
       ∧ sends w' = [([bob], p)])
  ∧ (∃ w',
       report_workflow (S := exec_states)
         (engine_event "workflow-end" "x2") 1700000000
         (two_tenants (Raise (ExternalError "AutoReconnect")))
       = (Raise (ExternalError "AutoReconnect"), w')
       ∧ record_count (running_workflows w') = 2%nat
       ∧ inserts w' = [] ∧ sends w' = []).
Proof.
  split; [|split].
  - destruct (C4_registry_lifecycle (S := exec_states)
                (engine_event "workflow-progress" "x2") 1700000000
                (two_tenants (Ok ())) "x2" (wflow "x2" (Some "globex"))
                (VStr "workflow-progress") eq_refl (x2_registered _) eq_refl)
      as (Hprogress & _ & _).
    destruct (Hprogress eq_refl) as (w' & p & Hrun & Hreg & Hins & Hsends).
    by exists w', p.
  - destruct (C4_registry_lifecycle (S := exec_states)
                (engine_event "workflow-end" "x2") 1700000000
                (two_tenants (Ok ())) "x2" (wflow "x2" (Some "globex"))
                (VStr "workflow-end") eq_refl (x2_registered _) eq_refl)
      as (_ & Hend & _).
    edestruct (Hend eq_refl)
      as (w' & p & pre & ws & post & Hrun & Hr & Hr' & Hcount & Hins & Hsends).
    + split; [reflexivity|]. by right.
    + vm_compute. reflexivity.
    + vm_compute. reflexivity.
    + exists w', p, pre, ws, post.
      split; [exact Hrun|]. split; [exact Hr|]. split; [exact Hr'|].
      split; [exact Hcount|]. split; [exact Hins|]. exact Hsends.
  - destruct (C4_registry_lifecycle (S := exec_states)
                (engine_event "workflow-end" "x2") 1700000000
                (two_tenants (Raise (ExternalError "AutoReconnect")))
                "x2" (wflow "x2" (Some "globex"))
                (VStr "workflow-end") eq_refl (x2_registered _) eq_refl)
      as (_ & _ & Hdown).
    destruct (Hdown eq_refl (ExternalError "AutoReconnect") eq_refl)
      as (w' & Hrun & Hreg & Hins & Hsends).
    exists w'. rewrite Hreg, Hins, Hsends. by split.
Defined.

(** C4 as worded fails when the tenant store is down: the handler
    raises, the record stays and nothing is written or broadcast. *)
Lemma C4_store_down_counterexample :
  ¬ terminal_event_finalizes (H := exec_states)
      (engine_event "workflow-end" "x2") 1700000000
      (two_tenants (Raise (ExternalError "AutoReconnect"))).
Proof.
  intros H.
  destruct (H "x2" (wflow "x2" (Some "globex")) (VStr "workflow-end")
              eq_refl (x2_registered _) eq_refl eq_refl)
    as (w' & Hrun & _).
  vm_compute in Hrun. discriminate Hrun.
Qed.

Lemma C6_tenant_isolation_witness :
  (∀ r w',
     report_workflow (S := exec_states)
       (engine_event "workflow-end" "x2") 1700000000
       (two_tenants (Ok ())) = (r, w') →
     ∃ new, sends w' = new
            ∧ (length new ≤ 1)%nat
            ∧ ∀ cs p, (cs, p) ∈ new →
                cs = [bob]
                ∧ (∀ c, c ∈ cs → header_organization c = Some "globex")
                ∧ (∀ A c, A ≠ Some "globex"
                          → c ∈ subscribers A [(Some "acme", [alice]);
                                               (Some "globex", [bob])]
                          → c ∉ cs))
  ∧ (∀ r w',
       websocket_ready dan (two_tenants (Ok ())) = (r, w') →
       running_workflows w' = running_workflows (two_tenants (Ok ()))
       ∧ clients_by_header (ws_clients w')
       ∧ dan ∈ subscribers (Some "globex") (ws_clients w')
       ∧ Forall (λ wf, _organization wf = Some "globex")
                [wflow "x2" (Some "globex")]
       ∧ report_each [wflow "x2" (Some "globex")] template_heap
         = (r, objects w')
       ∧ ∀ rs, r = Ok rs →
           Forall2 (λ wf v, ∃ h h', report wf h = (Ok v, h'))
                   [wflow "x2" (Some "globex")] rs).
Proof.
  destruct (C6_tenant_isolation (S := exec_states) (two_tenants (Ok ()))
              (two_tenants_clients _) (two_tenants_records _))
    as [Hbroadcast Hsnapshot].
  split.
  - intros r w' Hrun.
    exact (Hbroadcast (engine_event "workflow-end" "x2") 1700000000 "x2"
             (wflow "x2" (Some "globex")) r w' eq_refl (x2_registered _)
             Hrun).
  - intros r w' Hready. exact (Hsnapshot dan r w' Hready).
Defined.

End RegistryFacts.

(** ** WorkflowInstance.report *)

Module ReportFacts.
Import Workflow WorkflowSpec.

Lemma dict_merge_lookup (a b : gmap string val) k :
  dict_merge a b !! k = match b !! k with Some v => Some v | None => a !! k end.
Proof.
  unfold dict_merge. destruct (b !! k) as [v|] eqn:Hb.
  - by apply lookup_union_Some_l.
  - by rewrite lookup_union_r.
Qed.

(** *** Allocation *)

Lemma alloc_run o (h : heap) : alloc o h = (Ok (length h), h ++ [o]).
Proof. reflexivity. Qed.

Lemma alloc_dicts_spec ds (h : heap) :
  alloc_dicts ds h
  = (Ok (VRef <$> seq (length h) (length ds)), h ++ (ODict <$> ds)).
Proof.
  revert h. induction ds as [|d ds IH]; intros h; cbn [alloc_dicts].
  - cbn. by rewrite app_nil_r.
  - erewrite bind_ok by apply alloc_run. cbv beta.
    erewrite bind_ok by apply IH. cbv beta.
    unfold ret. rewrite length_app. cbn [length fmap list_fmap seq].
    rewrite <- app_assoc. cbn [app].
    by replace (length h + 1)%nat with (S (length h)) by lia.
Qed.

Lemma Workflow_report_spec i (h : heap) :
  Workflow_report i h
  = (Ok (VRef (length h + length (tasks_report i) + 2)%nat),
     h ++ [ODict (exec_report i)] ++ (ODict <$> tasks_report i)
       ++ [OList (VRef <$> seq (S (length h)) (length (tasks_report i)));
           ODict {[ "exec" := VRef (length h);
                    "tasks" := VRef (length h + length (tasks_report i) + 1)%nat ]}]).
Proof.
  unfold Workflow_report.
  erewrite bind_ok by apply alloc_run. cbv beta.
  erewrite bind_ok by apply alloc_dicts_spec. cbv beta.
  erewrite bind_ok by apply alloc_run. cbv beta.
  erewrite bind_ok by apply alloc_run. cbv beta.
  unfold ret. rewrite !length_app, length_fmap. cbn [length].
  f_equal.
  - do 2 f_equal. lia.
  - rewrite <- !app_assoc. cbn [app].
    replace (length h + 1 + length (tasks_report i))%nat
      with (length h + length (tasks_report i) + 1)%nat by lia.
    by replace (length h + 1)%nat with (S (length h)) by lia.
Qed.

(** *** Reading the heap *)

Lemma dict_of_run (h : heap) l d :
  h !! l = Some (ODict d) → dict_of (VRef l) h = (Ok d, h).
Proof. intros H. unfold dict_of. by rewrite H. Qed.

Lemma list_of_run (h : heap) l items :
  h !! l = Some (OList items) → list_of (VRef l) h = (Ok items, h).
Proof. intros H. unfold list_of. by rewrite H. Qed.

Lemma getitem_of_run (h : heap) l d k v :
  h !! l = Some (ODict d) → d !! k = Some v →
  getitem_of (VRef l) k h = (Ok v, h).
Proof.
  intros Hl Hk. unfold getitem_of.
  erewrite bind_ok by (by apply dict_of_run).
  unfold lift, getitem. by rewrite Hk.
Qed.

Lemma update_of_run (h : heap) l d d' :
  h !! l = Some (ODict d) →
  update_of (VRef l) d' h = (Ok (), <[l := ODict (dict_merge d d')]> h).
Proof.
  intros Hl. unfold update_of.
  erewrite bind_ok by (by apply dict_of_run). reflexivity.
Qed.

Lemma copy_of_run (h : heap) l o :
  h !! l = Some o → copy_of (VRef l) h = (Ok (VRef (length h)), h ++ [o]).
Proof. intros H. unfold copy_of. by rewrite H. Qed.

(** *** The dict comprehension *)

Lemma odict_get_snoc_ne {V} (k k' : val) (v : V) d :
  k ≠ k' → odict_get k (d ++ [(k', v)]) = odict_get k d.
Proof.
  intros Hne. induction d as [|[k0 v0] d IH]; cbn [app odict_get].
  - by rewrite decide_False.
  - by rewrite IH.
Qed.

Lemma odict_set_absent {V} (k : val) (v : V) d :
  odict_get k d = None → odict_set k v d = d ++ [(k, v)].
Proof.
  induction d as [|[k0 v0] d IH]; cbn [app odict_get odict_set]; [done|].
  destruct (decide (k = k0)); [done|]. intros H. by rewrite IH.
Qed.

Lemma tasks_by_id_spec (tt : list template_task) acc (h : heap) :
  Forall (λ t, h !! task_loc t = Some (ODict (task_dict t))
               ∧ task_dict t !! "id" = Some (VStr (task_id t))) tt →
  NoDup (task_id <$> tt) →
  Forall (λ t, odict_get (VStr (task_id t)) acc = None) tt →
  tasks_by_id acc ((λ t, VRef (task_loc t)) <$> tt) h
  = (Ok (acc ++ ((λ t, (VStr (task_id t), VRef (task_loc t))) <$> tt)), h).
Proof.
  revert acc. induction tt as [|t tt IH]; intros acc Htt Hnd Hacc.
  - cbn. by rewrite app_nil_r.
  - apply Forall_cons in Htt as [[Hl Hid] Htt].
    apply NoDup_cons in Hnd as [Hnotin Hnd].
    apply Forall_cons in Hacc as [Hnone Hacc].
    cbn [fmap list_fmap tasks_by_id].
    erewrite bind_ok by (by eapply getitem_of_run). cbv beta.
    erewrite bind_ok by reflexivity. cbv beta.
    rewrite odict_set_absent by done.
    rewrite IH; [|done|done|].
    + by rewrite <- app_assoc.
    + apply Forall_forall. intros t' Ht'.
      rewrite odict_get_snoc_ne.
      * rewrite Forall_forall in Hacc. by apply Hacc.
      * intros [= Heq]. apply Hnotin. rewrite <- Heq.
        by apply list_elem_of_fmap_2.
Qed.

(** *** The merge loop *)

Lemma view_rel_app (h hx : heap) tasks view :
  view_rel h tasks view → view_rel (h ++ hx) tasks view.
Proof.
  unfold view_rel. intros H. eapply Forall2_impl; [exact H|].
  intros t v (Hk & l & Hl & Hh). split; [done|]. exists l. split; [done|].
  by apply lookup_app_l_Some.
Qed.

Lemma view_merge_keys i d view : (view_merge i d view).*1 = view.*1.
Proof.
  induction view as [|[j s] view IH]; [done|]. cbn [view_merge].
  destruct (decide (i = j)); [done|]. cbn. by rewrite IH.
Qed.

Lemma view_merge_dynamic_keys view d : (view_merge_dynamic view d).*1 = view.*1.
Proof.
  unfold view_merge_dynamic.
  destruct (d !! "id") as [[]|]; try done. apply view_merge_keys.
Qed.

(** One turn of the loop: the entry the loop reads for [i] is the first
    of [view] for [i], and writing a merged dict over it is [view_merge]. *)
Lemma merge_step (h : heap) tasks view i :
  view_rel h tasks view → i ∈ view.*1 →
  ∃ l s,
    odict_get (VStr i) tasks = Some (VRef l)
    ∧ h !! l = Some (ODict s)
    ∧ ∀ hx new d,
        (h ++ hx) !! new = Some (ODict (dict_merge s d)) →
        view_rel (h ++ hx) (odict_set (VStr i) (VRef new) tasks)
                 (view_merge i d view).
Proof.
  induction 1 as [|[k r] [j s] tasks view (Hk & l & Hl & Hh) Hrel IH];
    intros Hin; [by apply elem_of_nil in Hin|].
  cbn in Hk, Hl, Hh. subst k r. cbn [odict_get odict_set view_merge].
  destruct (decide (i = j)) as [->|Hne].
  - rewrite !decide_True by done. exists l, s. split; [done|]. split; [done|].
    intros hx new d Hnew. rewrite decide_True by done. constructor.
    + split; [done|]. by exists new.
    + by apply view_rel_app.
  - rewrite !decide_False by congruence.
    cbn in Hin. apply elem_of_cons in Hin as [?|Hin]; [done|].
    destruct (IH Hin) as (l' & s' & Hget & Hl' & Hset).
    exists l', s'. split; [done|]. split; [done|].
    intros hx new d Hnew. rewrite decide_False by congruence. constructor.
    + split; [done|]. exists l. split; [done|]. by apply lookup_app_l_Some.
    + by apply Hset.
Qed.

Lemma merge_tasks_spec (dd : list (loc * gmap string val)) tasks view
    (h : heap) :
  view_rel h tasks view →
  Forall (λ p, h !! p.1 = Some (ODict p.2)
               ∧ ∃ i, p.2 !! "id" = Some (VStr i) ∧ i ∈ view.*1) dd →
  ∃ tasks' ext,
    merge_tasks tasks ((λ p, VRef p.1) <$> dd) h = (Ok tasks', h ++ ext)
    ∧ view_rel (h ++ ext) tasks' (foldl view_merge_dynamic view dd.*2).
Proof.
  revert tasks view h. induction dd as [|[l d] dd IH]; intros tasks view h Hrel Hdd.
  - exists tasks, []. rewrite app_nil_r. by split.
  - apply Forall_cons in Hdd as [(Hl & i & Hid & Hin) Hdd]. cbn in Hl, Hid.
    destruct (merge_step _ _ _ _ Hrel Hin) as (lo & s & Hget & Hlo & Hset).
    assert (view_rel (h ++ [ODict (dict_merge s d)])
              (odict_set (VStr i) (VRef (length h)) tasks)
              (view_merge_dynamic view d)) as Hrel'.
    { unfold view_merge_dynamic. rewrite Hid. apply Hset.
      by rewrite lookup_app_r, Nat.sub_diag by lia. }
    destruct (IH _ _ _ Hrel') as (tasks' & ext & Hrun & Hfinal).
    { eapply Forall_impl; [exact Hdd|].
      intros [l' d'] (Hl' & i' & Hid' & Hin'). split.
      - by apply lookup_app_l_Some.
      - exists i'. split; [done|]. by rewrite view_merge_dynamic_keys. }
    exists tasks', ([ODict (dict_merge s d)] ++ ext).
    cbn [fmap list_fmap merge_tasks foldl fst snd].
    erewrite bind_ok by (by eapply getitem_of_run). cbv beta.
    erewrite bind_ok by reflexivity. cbv beta.
    rewrite Hget.
    erewrite bind_ok by (by apply dict_of_run). cbv beta.
    erewrite bind_ok by (by apply dict_of_run). cbv beta.
    erewrite bind_ok by apply alloc_run. cbv beta.
    rewrite app_assoc. by split.
Qed.

(** *** The merge on contents *)

Lemma view_merge_nodup i d view :
  NoDup view.*1 →
  view_merge i d view
  = (λ kv, if decide (kv.1 = i) then (kv.1, dict_merge kv.2 d) else kv)
      <$> view.
Proof.
  induction view as [|[j s] view IH]; [done|]. intros Hnd.
  apply NoDup_cons in Hnd as [Hj Hnd]. cbn [view_merge fmap list_fmap fst snd].
  destruct (decide (i = j)) as [->|Hne].
  - rewrite decide_True by done. f_equal.
    clear IH Hnd. induction view as [|[j' s'] view IH]; [done|].
    cbn in Hj. apply not_elem_of_cons in Hj as [Hne Hj].
    cbn [fmap list_fmap fst]. rewrite decide_False by done.
    f_equal. by apply IH.
  - rewrite decide_False by done. f_equal. by apply IH.
Qed.

Lemma dynamic_of_cons i d ds :
  dynamic_of i (d :: ds)
  = if decide (d !! "id" = Some (VStr i)) then d :: dynamic_of i ds
    else dynamic_of i ds.
Proof. unfold dynamic_of. by rewrite filter_cons. Qed.

(** After the loop, every entry holds its static fields with the fields
    of each dynamic state of the same id laid over them, in order. *)
Lemma foldl_view_merge ds view :
  NoDup view.*1 →
  foldl view_merge_dynamic view ds
  = (λ kv, (kv.1, foldl dict_merge kv.2 (dynamic_of kv.1 ds))) <$> view.
Proof.
  revert view. induction ds as [|d ds IH]; intros view Hnd.
  - cbn. induction view as [|[j s] view IHv]; [done|].
    apply NoDup_cons in Hnd as [_ Hnd]. cbn. f_equal. by apply IHv.
  - cbn [foldl]. rewrite IH by (by rewrite view_merge_dynamic_keys).
    unfold view_merge_dynamic.
    destruct (d !! "id") as [v|] eqn:Hid.
    2:{ apply list_fmap_ext. intros _ [j s] _. cbn [fst snd].
        by rewrite dynamic_of_cons, decide_False by congruence. }
    destruct v as [| | |i| | |];
      try (apply list_fmap_ext; intros _ [j s] _; cbn [fst snd];
           by rewrite dynamic_of_cons, decide_False by congruence).
    rewrite view_merge_nodup by done. rewrite <- list_fmap_compose.
    apply list_fmap_ext. intros _ [j s] _. cbn [compose fst snd].
    rewrite dynamic_of_cons.
    destruct (decide (j = i)) as [->|Hne].
    + by rewrite decide_True.
    + rewrite decide_False by congruence. done.
Qed.

(** *** The heap [report] works on *)

Lemma block_insert (h : heap) a b b' R :
  <[S (length h) := b']> (h ++ a :: b :: R) = h ++ a :: b' :: R.
Proof.
  rewrite insert_app_r_alt by lia.
  by replace (S (length h) - length h)%nat with 1%nat by lia.
Qed.

Lemma block_lookup (h : heap) a b D c e :
  let H := h ++ a :: b :: D ++ [c; e] in
  H !! length h = Some a
  ∧ H !! S (length h) = Some b
  ∧ (∀ i o, D !! i = Some o → H !! (length h + 2 + i)%nat = Some o)
  ∧ H !! (length h + length D + 2)%nat = Some c
  ∧ H !! (length h + length D + 3)%nat = Some e
  ∧ ∀ l o, h !! l = Some o → H !! l = Some o.
Proof.
  intros H. subst H. repeat split.
  - by rewrite lookup_app_r, Nat.sub_diag by lia.
  - rewrite lookup_app_r by lia.
    by replace (S (length h) - length h)%nat with 1%nat by lia.
  - intros i o Hi. rewrite lookup_app_r by lia.
    replace (length h + 2 + i - length h)%nat with (S (S i)) by lia.
    change ((D ++ [c; e]) !! i = Some o). by apply lookup_app_l_Some.
  - rewrite lookup_app_r by lia.
    replace (length h + length D + 2 - length h)%nat
      with (S (S (length D))) by lia.
    change ((D ++ [c; e]) !! length D = Some c).
    by rewrite lookup_app_r, Nat.sub_diag by lia.
  - rewrite lookup_app_r by lia.
    replace (length h + length D + 3 - length h)%nat
      with (S (S (length D + 1))) by lia.
    change ((D ++ [c; e]) !! (length D + 1)%nat = Some e).
    rewrite lookup_app_r by lia.
    by replace (length D + 1 - length D)%nat with 1%nat by lia.
  - intros l o. apply lookup_app_l_Some.
Qed.

Lemma heap_lookup_snoc (h : heap) o : (h ++ [o]) !! length h = Some o.
Proof. by rewrite lookup_app_r, Nat.sub_diag by lia. Qed.

(** The dynamic states [Workflow.report] has just laid out, by place. *)
Lemma dynamic_states_at (H : heap) (n : nat) (ds : list (gmap string val))
    (ids : list string) :
  (∀ i o, (ODict <$> ds) !! i = Some o → H !! (n + 2 + i)%nat = Some o) →
  Forall (λ d, ∃ i, d !! "id" = Some (VStr i) ∧ i ∈ ids) ds →
  Forall (λ p : loc * gmap string val,
            H !! p.1 = Some (ODict p.2)
            ∧ ∃ i, p.2 !! "id" = Some (VStr i) ∧ i ∈ ids)
         (zip (seq (n + 2) (length ds)) ds).
Proof.
  intros HD Hds. apply Forall_lookup. intros i [l d] Hi.
  apply lookup_zip_with_Some in Hi as (l' & d' & [= -> ->] & Hl & Hd).
  apply lookup_seq in Hl as [-> _]. cbn [fst snd]. split.
  - apply HD. by rewrite list_lookup_fmap, Hd.
  - rewrite Forall_lookup in Hds. by eapply Hds.
Qed.

(** Laying dicts over one another, field by field. *)
Lemma foldl_dict_merge_lookup (ds : list (gmap string val)) :
  ∀ (s : gmap string val) k, foldl dict_merge s ds !! k = laid_over s ds k.
Proof.
  unfold laid_over. induction ds as [|d ds IH]; intros s k; [done|].
  cbn [foldl omap list_omap]. rewrite IH, dict_merge_lookup.
  destruct (d !! k) as [v|]; [|done].
  rewrite last_cons. by destruct (last _).
Qed.

Lemma merged_task_lookup t ds k :
  merged_task t ds !! k
  = laid_over (task_dict t) (dynamic_of (task_id t) ds) k.
Proof. apply foldl_dict_merge_lookup. Qed.

(** C5.  For a stored template whose task list holds one dict per task,
    each under its own id, and an execution whose dynamic states are all
    of tasks of the template, [report()] returns a new dict and
    - leaves every object that existed as it was, the stored template,
      its task list and its task dicts among them;
    - carries the fields of the stored template, [exec] and [tasks]
      apart;
    - under [tasks], lists one entry per template task, in the
      template's order: a dict that holds, for every field, the value
      the last dynamic state reported for that task with the field
      gives it, and the task's static value when no such state has the
      field, so static fields alone for a task without dynamic state;
    - under [exec], holds a dict with, for every field, the allowed
      keyword argument of that name, and the field of the execution's
      own report when there is none. *)
Theorem C5_report_merges_without_mutation self (h : heap) tl td tll
    (tt : list template_task) :
  _template self = VRef tl →
  h !! tl = Some (ODict td) →
  td !! "tasks" = Some (VRef tll) →
  h !! tll = Some (OList ((λ t, VRef (task_loc t)) <$> tt)) →
  Forall (λ t, h !! task_loc t = Some (ODict (task_dict t))
               ∧ task_dict t !! "id" = Some (VStr (task_id t))) tt →
  NoDup (task_id <$> tt) →
  Forall (λ d, ∃ i, d !! "id" = Some (VStr i) ∧ i ∈ task_id <$> tt)
         (tasks_report (_instance self)) →
  ∃ r h' out e ed vl outs,
    report self h = (Ok (VRef r), h')
    ∧ (∀ l o, h !! l = Some o → h' !! l = Some o)
    ∧ (length h ≤ r)%nat
    ∧ h' !! r = Some (ODict out)
    ∧ (∀ k, k ≠ "exec" → k ≠ "tasks" → out !! k = td !! k)
    ∧ out !! "exec" = Some (VRef e)
    ∧ h' !! e = Some (ODict ed)
    ∧ (∀ k, ed !! k
            = laid_over (exec_report (_instance self)) [_exec self] k)
    ∧ out !! "tasks" = Some (VRef vl)
    ∧ h' !! vl = Some (OList outs)
    ∧ Forall2 (λ t o, ∃ l od, o = VRef l
                 ∧ h' !! l = Some (ODict od)
                 ∧ ∀ k, od !! k
                        = laid_over (task_dict t)
                            (dynamic_of (task_id t)
                               (tasks_report (_instance self))) k)
              tt outs.
Proof.
  intros Ht Htl Htasks Hlist Htt Hnd Hds.
  set (ds := tasks_report (_instance self)) in *.
  set (ex := exec_report (_instance self)).
  set (n := length h).
  set (refs := OList (VRef <$> seq (n + 2) (length ds))).
  set (top := ODict {[ "exec" := VRef (n + 1)%nat;
                       "tasks" := VRef (n + length ds + 2)%nat ]}).
  set (view0 := (λ t, (task_id t, task_dict t)) <$> tt).
  assert (view0.*1 = task_id <$> tt) as Hkeys.
  { subst view0. rewrite <- list_fmap_compose. done. }
  (* the heap after [self._instance.report()] *)
  set (h5 := h ++ ODict td :: ODict ex :: (ODict <$> ds) ++ [refs; top]).
  assert (Workflow_report (_instance self) (h ++ [ODict td])
          = (Ok (VRef (n + length ds + 3)%nat), h5)) as Hinst.
  { rewrite Workflow_report_spec. fold ds ex.
    rewrite length_app. cbn [length]. fold n. f_equal.
    - do 2 f_equal. lia.
    - subst h5 refs top. rewrite <- app_assoc. cbn [app].
      replace (S (n + 1)) with (n + 2)%nat by lia.
      by replace (n + 1 + length ds + 1)%nat
        with (n + length ds + 2)%nat by lia. }
  (* and after [inst['exec'].update(self._exec)] *)
  set (ex' := ODict (dict_merge ex (_exec self))).
  set (h6 := h ++ ODict td :: ex' :: (ODict <$> ds) ++ [refs; top]).
  assert (<[(n + 1)%nat := ex']> h5 = h6) as Hupd.
  { subst h5 h6 n. replace (length h + 1)%nat with (S (length h)) by lia.
    apply block_insert. }
  destruct (block_lookup h (ODict td) (ODict ex) (ODict <$> ds) refs top)
    as (H5a & H5b & _ & _ & H5e & H5h).
  destruct (block_lookup h (ODict td) ex' (ODict <$> ds) refs top)
    as (H6a & H6b & H6D & H6c & H6e & H6h).
  rewrite length_fmap in H5e, H6c, H6e. fold n h5 in H5a, H5b, H5e, H5h.
  fold n h6 in H6a, H6b, H6D, H6c, H6e, H6h.
  (* the dict comprehension *)
  assert (tasks_by_id [] ((λ t, VRef (task_loc t)) <$> tt) h5
          = (Ok ((λ t, (VStr (task_id t), VRef (task_loc t))) <$> tt), h5))
    as Hby.
  { rewrite tasks_by_id_spec; [done| |done|].
    - eapply Forall_impl; [exact Htt|]. intros t [Hl Hid]. split; [|done].
      by apply H5h.
    - by apply Forall_forall. }
  assert (view_rel h6 ((λ t, (VStr (task_id t), VRef (task_loc t))) <$> tt)
                   view0) as Hrel0.
  { subst view0. unfold view_rel. apply Forall2_fmap.
    apply Forall_Forall2_diag. eapply Forall_impl; [exact Htt|].
    intros t [Hl Hid]. cbn. split; [done|]. exists (task_loc t).
    split; [done|]. by apply H6h. }
  (* the merge loop *)
  destruct (merge_tasks_spec (zip (seq (n + 2) (length ds)) ds) _ view0 h6
              Hrel0) as (tasks' & ext & Hmerge & Hrel').
  { apply dynamic_states_at; [exact H6D|]. by rewrite Hkeys. }
  assert ((λ p : loc * gmap string val, VRef p.1)
            <$> zip (seq (n + 2) (length ds)) ds
          = VRef <$> seq (n + 2) (length ds)) as Hrefs.
  { rewrite <- (fst_zip (seq (n + 2) (length ds)) ds) at 2
      by (by rewrite length_seq).
    by rewrite <- list_fmap_compose. }
  rewrite Hrefs in Hmerge. clear Hrefs.
  rewrite snd_zip in Hrel' by (by rewrite length_seq).
  rewrite foldl_view_merge in Hrel' by (rewrite Hkeys; exact Hnd).
  (* the run *)
  set (h7 := h6 ++ ext) in *.
  set (out := <["tasks" := VRef (length h7)]>
                (<["exec" := VRef (n + 1)%nat]> td)).
  exists (S (length h7)), ((h7 ++ [OList (odict_values tasks')])
                           ++ [ODict out]),
         out, (n + 1)%nat, (dict_merge ex (_exec self)), (length h7),
         (odict_values tasks').
  assert (∀ l o, h !! l = Some o
                 → ((h7 ++ [OList (odict_values tasks')]) ++ [ODict out]) !! l
                   = Some o) as Hframe.
  { intros l o Hl. do 2 apply lookup_app_l_Some. subst h7.
    apply lookup_app_l_Some. by apply H6h. }
  split.
  { unfold report. rewrite Ht.
    erewrite bind_ok by (by apply copy_of_run). cbv beta.
    erewrite bind_ok by exact Hinst. cbv beta. fold n.
    erewrite bind_ok by (by eapply getitem_of_run). cbv beta.
    erewrite bind_ok by (apply list_of_run; by apply H5h). cbv beta.
    erewrite bind_ok by exact Hby. cbv beta.
    erewrite bind_ok
      by (eapply getitem_of_run; [exact H5e|reflexivity]).
    cbv beta.
    erewrite bind_ok
      by (apply update_of_run;
          replace (n + 1)%nat with (S n) by lia; exact H5b).
    cbv beta.
    match goal with
    | |- ?f ?hh = _ => change hh with (<[(n + 1)%nat := ex']> h5)
    end.
    rewrite Hupd.
    erewrite bind_ok
      by (eapply getitem_of_run; [exact H6e|reflexivity]).
    cbv beta.
    erewrite bind_ok by (apply list_of_run; exact H6c). cbv beta.
    erewrite bind_ok by exact Hmerge. cbv beta.
    erewrite bind_ok
      by (apply dict_of_run; apply lookup_app_l_Some; by apply H6h).
    cbv beta.
    erewrite bind_ok
      by (eapply getitem_of_run;
          [apply lookup_app_l_Some; exact H6e|reflexivity]).
    cbv beta.
    erewrite bind_ok by apply alloc_run. cbv beta.
    erewrite bind_ok by apply alloc_run. cbv beta.
    unfold ret. rewrite length_app. cbn [length].
    do 3 f_equal. lia. }
  split; [exact Hframe|].
  split.
  { subst h7 h6 n. rewrite !length_app. cbn [length]. lia. }
  split.
  { replace (S (length h7))
      with (length (h7 ++ [OList (odict_values tasks')]))
      by (rewrite length_app; cbn [length]; lia).
    apply heap_lookup_snoc. }
  split.
  { intros k Hk1 Hk2. subst out. by rewrite !lookup_insert_ne. }
  split.
  { subst out. rewrite lookup_insert_ne by done. apply lookup_insert_eq. }
  split.
  { do 2 apply lookup_app_l_Some. subst h7. apply lookup_app_l_Some.
    replace (n + 1)%nat with (S n) by lia. exact H6b. }
  split.
  { intros k. rewrite dict_merge_lookup. unfold laid_over.
    cbn [omap list_omap]. by destruct (_exec self !! k). }
  split.
  { subst out. apply lookup_insert_eq. }
  split.
  { apply lookup_app_l_Some. apply heap_lookup_snoc. }
  unfold view_rel in Hrel'. subst view0.
  rewrite <- list_fmap_compose in Hrel'.
  apply Forall2_fmap_r in Hrel'. unfold odict_values.
  apply Forall2_fmap_r. apply Forall2_flip.
  eapply Forall2_impl; [exact Hrel'|].
  intros [k v] t (_ & l & Hv & Hl). cbn in Hv, Hl.
  exists l, (merged_task t ds).
  split; [done|]. split; [by do 2 apply lookup_app_l_Some|].
  intros k'. apply merged_task_lookup.
Qed.

(** A task without dynamic state keeps its static fields and gains
    none. *)
Lemma merged_task_static t ds :
  Forall (λ d, d !! "id" ≠ Some (VStr (task_id t))) ds →
  merged_task t ds = task_dict t.
Proof.
  intros H. unfold merged_task, dynamic_of.
  replace (filter (λ d, d !! "id" = Some (VStr (task_id t))) ds)
    with (@nil (gmap string val)); [done|].
  symmetry. induction H as [|d ds Hd _ IH]; [done|].
  by rewrite filter_cons, decide_False.
Qed.

(** A task with one dynamic state carries the fields of both, the
    dynamic ones winning. *)
Lemma merged_task_dynamic t d k :
  merged_task t [d] !! k
  = if decide (d !! "id" = Some (VStr (task_id t)))
    then match d !! k with Some v => Some v | None => task_dict t !! k end
    else task_dict t !! k.
Proof.
  unfold merged_task. rewrite dynamic_of_cons.
  destruct (decide _); [|done]. cbn. apply dict_merge_lookup.
Qed.

(** *** A run on sample data *)

Import WorkflowSamples.

Lemma C5_report_merges_without_mutation_witness :
  ∃ r h' out e ed vl outs,
    report (wflow "x1" (Some "acme")) template_heap = (Ok (VRef r), h')
    ∧ (∀ l o, template_heap !! l = Some o → h' !! l = Some o)
    ∧ (length template_heap ≤ r)%nat
    ∧ h' !! r = Some (ODict out)
    ∧ (∀ k, k ≠ "exec" → k ≠ "tasks" → out !! k = template_dict !! k)
    ∧ out !! "exec" = Some (VRef e)
    ∧ h' !! e = Some (ODict ed)
    ∧ (∀ k, ed !! k
            = laid_over (exec_report (execution "x1"))
                [{[ "requester" := VStr "bob" ]}] k)
    ∧ out !! "tasks" = Some (VRef vl)
    ∧ h' !! vl = Some (OList outs)
    ∧ Forall2 (λ t o, ∃ l od, o = VRef l
                 ∧ h' !! l = Some (ODict od)
                 ∧ ∀ k, od !! k
                        = laid_over (task_dict t)
                            (dynamic_of (task_id t) [dynamic_t1]) k)
              sample_tasks outs.
Proof.
  apply (C5_report_merges_without_mutation (wflow "x1" (Some "acme"))
           template_heap 3%nat template_dict 2%nat sample_tasks).
  - reflexivity.
  - reflexivity.
  - reflexivity.
  - reflexivity.
  - repeat constructor.
  - apply NoDup_cons. split; [|apply NoDup_singleton].
    intros H. by apply list_elem_of_singleton in H.
  - constructor; [|constructor]. exists "t1". split; [reflexivity|].
    apply list_elem_of_here.
Defined.

End ReportFacts.

(** ** FIFOSizedQueue, further *)

Module QueueMoreFacts.
Import Persistence.

Lemma put_evict_negative {A} size (l : list A) :
  size < 0 → put_evict size l = Raise IndexError.
Proof.
  intros H. induction l as [|x l IH]; cbn [put_evict].
  - destruct (Z.gtb_spec (Z.of_nat (length (@nil A))) size);
      [done | simpl in *; lia].
  - destruct (Z.gtb_spec (Z.of_nat (length (x :: l))) size); [done | lia].
Qed.

(** X1.  [put] on a queue with a bound that is not negative never raises:
    it evicts from the front until at most [size] entries are left, also
    from a list that was longer than the bound, and appends the item, so
    that the oldest entries go first and the item is the last one. *)
Theorem put_trims_to_bound_then_appends {A} (q : FIFOSizedQueue A) (x : A) :
  0 ≤ _size q →
  ∃ evicted kept,
    _list q = evicted ++ kept
    ∧ length kept = (length (_list q) `min` Z.to_nat (_size q))%nat
    ∧ put q x = Ok {| _list := kept ++ [x]; _size := _size q |}.
Proof.
  intros H.
  exists (take (length (_list q) - Z.to_nat (_size q)) (_list q)),
         (drop (length (_list q) - Z.to_nat (_size q)) (_list q)).
  split; [by rewrite take_drop|].
  split; [rewrite length_drop; lia|].
  by apply QueueFacts.put_spec.
Qed.

Lemma put_trims_to_bound_then_appends_witness :
  ∃ evicted kept,
    [1; 2; 3; 4; 5] = evicted ++ kept
    ∧ length kept = 2%nat
    ∧ put MoreSamples.overfull 6
      = Ok {| _list := kept ++ [6]; _size := 2 |}.
Proof.
  apply (put_trims_to_bound_then_appends MoreSamples.overfull 6).
  cbn. lia.
Defined.

(** X2.  With a negative bound every [put] raises [IndexError], whatever
    the queue holds: the eviction loop pops until the list is empty and
    then pops once more. *)
Theorem put_negative_bound_raises {A} (q : FIFOSizedQueue A) (x : A) :
  _size q < 0 → put q x = Raise IndexError.
Proof. intros H. unfold put. by rewrite put_evict_negative. Qed.

Lemma put_negative_bound_raises_witness :
  put {| _list := [7; 8]; _size := -1 |} 9 = Raise IndexError.
Proof.
  apply (put_negative_bound_raises {| _list := [7; 8]; _size := -1 |} 9).
  cbn. lia.
Defined.

(** X3.  First in, first out: after a run of at most [size + 1] calls of
    [put] on a new queue, [pop] hands out the item put first and leaves
    the others in the order they were put. *)
Theorem pop_hands_out_oldest {A} (size : Z) (x : A) (items : list A) :
  0 ≤ size →
  (length items ≤ Z.to_nat size)%nat →
  ∃ q, puts (new_queue size) (x :: items) = Ok q
       ∧ pop q = Ok (x, {| _list := items; _size := size |}).
Proof.
  intros Hsize Hlen. eexists. split.
  - apply QueueFacts.puts_spec; cbn; [done | lia].
  - cbn [new_queue _list _size app length].
    replace (S (length items) - S (Z.to_nat size))%nat with 0%nat by lia.
    reflexivity.
Qed.

Lemma pop_hands_out_oldest_witness :
  ∃ q, puts (new_queue 2) [10; 20; 30] = Ok q
       ∧ pop q = Ok (10, {| _list := [20; 30]; _size := 2 |}).
Proof.
  apply (pop_hands_out_oldest 2 10 [20; 30]); [lia | cbn; lia].
Defined.

End QueueMoreFacts.

(** ** BusPersistence, further *)

Module BusLoopFacts.
Import Persistence PersistenceSpec PersistenceLoop MoreSpec.

Section facts.
Context {E : EventStatusEnum}.
Implicit Types (w : world) (l event : loc) (d : gmap string val).

Lemma queue_pop_cons w x rest :
  buffer w = x :: rest →
  queue_pop w
  = (Ok x, set_last_events
             {| _list := rest; _size := _size (_last_events (self w)) |} w).
Proof. unfold buffer, queue_pop, pop. by intros ->. Qed.

Lemma buffer_nil_world w :
  buffer w = [] →
  set_last_events
    {| _list := []; _size := _size (_last_events (self w)) |} w = w.
Proof. destruct w as [h [[l s] b] t c]. cbn. by intros ->. Qed.

(** The loop of the drain over events the backend takes. *)
Lemma drain_accepted b events : ∀ w,
  buffer w = events →
  Forall (accepted b (objects w)) events →
  drain b events w
  = (Ok (), set_last_events
              {| _list := []; _size := _size (_last_events (self w)) |} w).
Proof.
  induction events as [|x rest IH]; intros w Hbuf Hall.
  - cbn. by rewrite buffer_nil_world.
  - apply Forall_cons in Hall as [(d & v & Hl & Hst) Hrest].
    cbn [drain]. erewrite bind_ok by (by apply queue_pop_cons).
    erewrite bind_ok
      by (unfold backend_store; cbn [objects set_last_events];
          rewrite Hl, Hst; reflexivity).
    by rewrite IH.
Qed.

(** The loop of the drain up to the first event the backend rejects. *)
Lemma drain_rejected b exc pre e post : ∀ w,
  buffer w = pre ++ e :: post →
  Forall (accepted b (objects w)) pre →
  rejected b (objects w) e exc →
  drain b (pre ++ e :: post) w
  = (Raise exc,
     set_last_events
       {| _list := post; _size := _size (_last_events (self w)) |} w).
Proof.
  induction pre as [|x pre IH]; intros w Hbuf Hall (d & Hl & Hst).
  - cbn [app drain]. erewrite bind_ok by (by apply queue_pop_cons).
    erewrite bind_raise
      by (unfold backend_store; cbn [objects set_last_events];
          rewrite Hl, Hst; reflexivity).
    done.
  - apply Forall_cons in Hall as [(dx & v & Hlx & Hstx) Hrest].
    cbn [app drain].
    erewrite bind_ok by (by apply (queue_pop_cons _ x (pre ++ e :: post))).
    erewrite bind_ok
      by (unfold backend_store; cbn [objects set_last_events];
          rewrite Hlx, Hstx; reflexivity).
    rewrite IH; [done|done|done|by exists d].
Qed.

(** With the backend healthy and taking every buffered event, the drain
    returns with the buffer empty and nothing else changed. *)
Lemma empty_last_events_run w b :
  is_healthy w b →
  Forall (accepted b (objects w)) (buffer w) →
  _empty_last_events w
  = (Ok (), set_last_events
              {| _list := []; _size := _size (_last_events (self w)) |} w).
Proof.
  intros [Hb Hp] Hall. unfold _empty_last_events.
  erewrite bind_ok by reflexivity. cbv beta. rewrite Hb.
  erewrite bind_ok by (unfold lift; rewrite Hp; reflexivity). cbv beta iota.
  unfold try_except. fold (buffer w).
  by rewrite (drain_accepted b (buffer w) w eq_refl Hall).
Qed.

(** X4.  With the backend healthy and taking every buffered event,
    [_empty_last_events] returns with the buffer empty; the loop's
    exception handler is not called, and no object and no timer is
    touched. *)
Theorem drain_empties_buffer w b :
  is_healthy w b →
  Forall (accepted b (objects w)) (buffer w) →
  ∃ w', _empty_last_events w = (Ok (), w')
        ∧ buffer w' = []
        ∧ exception_handler_calls w' = exception_handler_calls w
        ∧ objects w' = objects w ∧ timers w' = timers w
        ∧ backend (self w') = backend (self w).
Proof.
  intros Hh Hall. eexists. split; [by apply (empty_last_events_run w b)|].
  done.
Qed.

(** X5.  With the backend healthy, when the backend rejects a buffered
    event after taking those before it, [_empty_last_events] does not
    raise: it calls the loop's exception handler once, with what the
    backend raised, and returns.  The rejected event has left the buffer
    with those before it, although it was not stored; the events after it
    are still buffered, in order. *)
Theorem drain_drops_rejected_event w b pre e post exc :
  is_healthy w b →
  buffer w = pre ++ e :: post →
  Forall (accepted b (objects w)) pre →
  rejected b (objects w) e exc →
  ∃ w', _empty_last_events w = (Ok (), w')
        ∧ buffer w' = post
        ∧ exception_handler_calls w' = exception_handler_calls w ++ [exc]
        ∧ objects w' = objects w ∧ timers w' = timers w.
Proof.
  intros [Hb Hp] Hbuf Hall Hrej. unfold _empty_last_events.
  erewrite bind_ok by reflexivity. cbv beta. rewrite Hb.
  erewrite bind_ok by (unfold lift; rewrite Hp; reflexivity). cbv beta iota.
  unfold try_except. fold (buffer w). rewrite Hbuf.
  rewrite (drain_rejected b exc pre e post w Hbuf Hall Hrej).
  eexists. split; [reflexivity|]. done.
Qed.

(** A turn of the feed loop leaves everything as it is when the buffer
    is empty, without asking the backend anything, and when the probe of
    the backend says no. *)
Lemma feed_turn_idle w :
  buffer w = []
  ∨ (∃ b, backend (self w) = Some b ∧ b_ping b = Ok false) →
  feed_turn w = (Ok (), w).
Proof.
  unfold feed_turn. erewrite bind_ok by reflexivity. cbv beta.
  fold (buffer w). intros [->|(b & Hb & Hp)]; [done|].
  destruct (buffer w); [done|].
  unfold _empty_last_events.
  erewrite bind_ok by reflexivity. cbv beta. rewrite Hb.
  erewrite bind_ok by (unfold lift; rewrite Hp; reflexivity). done.
Qed.

(** X6.  The feed loop settles: with the backend healthy and taking
    every buffered event, one turn of the loop empties the buffer
    without calling the loop's exception handler, and from then on a
    turn of the loop, and the last drain [close()] brings about by
    cancelling the loop, change nothing. *)
Theorem feed_turn_settles w b :
  is_healthy w b →
  Forall (accepted b (objects w)) (buffer w) →
  ∃ w1,
    feed_turn w = (Ok (), w1)
    ∧ buffer w1 = []
    ∧ exception_handler_calls w1 = exception_handler_calls w
    ∧ objects w1 = objects w
    ∧ feed_turn w1 = (Ok (), w1)
    ∧ feed_cancelled w1 = (Ok (), w1).
Proof.
  intros Hh Hall.
  set (w1 := set_last_events
               {| _list := []; _size := _size (_last_events (self w)) |} w).
  assert (feed_cancelled w1 = (Ok (), w1)) as Hcancel.
  { unfold feed_cancelled.
    rewrite (empty_last_events_run w1 b); [done|exact Hh|constructor]. }
  exists w1. split; [|split; [done|split; [done|split; [done|split]]]].
  - destruct (buffer w) as [|x rest] eqn:Hbuf.
    + rewrite feed_turn_idle by (by left).
      subst w1. by rewrite buffer_nil_world.
    + unfold feed_turn. erewrite bind_ok by reflexivity. cbv beta.
      fold (buffer w). rewrite Hbuf.
      apply (empty_last_events_run w b); [exact Hh|].
      by rewrite Hbuf.
  - apply feed_turn_idle. by left.
  - exact Hcancel.
Qed.

(** [check_params] without a filter lets everything through without
    reading the event. *)
Lemma py_filter_no_filter status events w :
  status = None ∨ status = Some (StatusList []) →
  py_filter (check_params None status) events w = (Ok events, w).
Proof.
  intros Hst. induction events as [|x events IH]; [done|].
  cbn [py_filter].
  erewrite bind_ok by (destruct Hst as [->| ->]; reflexivity).
  erewrite bind_ok by exact IH. done.
Qed.

(** X7.  With the backend unhealthy, [retrieve()] without [since] and
    [status], or with an empty list for [status], returns the [filter]
    object without reading anything, and that object yields the whole
    buffer in order and reads no event: whatever the buffered objects
    are, neither the call nor the iteration raises. *)
Theorem retrieve_without_filter_returns_buffer w status :
  unhealthy w →
  status = None ∨ status = Some (StatusList []) →
  retrieve None status w = (Ok (FromMemory None status), w)
  ∧ iterate_filter None status w = (Ok (buffer w), w).
Proof.
  intros Hun Hst.
  split; [by apply BusPersistenceFacts.retrieve_unhealthy|].
  unfold iterate_filter. erewrite bind_ok by reflexivity. cbv beta.
  by apply py_filter_no_filter.
Qed.

(** X8.  With the backend unhealthy, an event given to [store] is the
    last one the object a following [retrieve()] returns yields, after
    the buffered events that were not evicted, and it reads its
    [created_at] as the time of the call. *)
Theorem stored_event_is_retrieved_last w event d utcnow :
  unhealthy w →
  objects w !! event = Some (ODict d) →
  0 ≤ _size (_last_events (self w)) →
  ∃ w1 kept,
    store event utcnow w = (Ok VNone, w1)
    ∧ retrieve None None w1 = (Ok (FromMemory None None), w1)
    ∧ iterate_filter None None w1 = (Ok (kept ++ [event]), w1)
    ∧ kept `suffix_of` buffer w
    ∧ getitem_at event "created_at" w1 = (Ok (VTime utcnow), w1).
Proof.
  intros Hun Hl Hsize.
  assert (∃ w1, store event utcnow w = (Ok VNone, w1)
                ∧ unhealthy w1
                ∧ buffer w1
                  = drop (length (buffer w)
                          - Z.to_nat (_size (_last_events (self w))))
                         (buffer w) ++ [event]
                ∧ objects w1
                  = <[event := ODict (<["created_at" := VTime utcnow]> d)]>
                      (objects w)) as (w1 & Hstore & Hun1 & Hbuf & Hobj).
  { unfold store.
    erewrite bind_ok by (by apply BusPersistenceFacts.setitem_at_ok).
    set (w0 := set_objects _ w).
    destruct (BusPersistenceFacts.ping_unhealthy w0) as (p & Hp & Hh);
      [exact Hun|].
    erewrite bind_ok by exact Hp. rewrite Hh.
    erewrite bind_ok by (by apply BusPersistenceFacts.queue_put_ok).
    eexists. split; [reflexivity|]. split; [exact Hun|]. done. }
  exists w1, (drop (length (buffer w)
                    - Z.to_nat (_size (_last_events (self w)))) (buffer w)).
  split; [exact Hstore|].
  split; [by apply BusPersistenceFacts.retrieve_unhealthy|].
  split; [|split].
  - rewrite <- Hbuf.
    unfold iterate_filter. erewrite bind_ok by reflexivity. cbv beta.
    apply py_filter_no_filter. by left.
  - apply suffix_drop.
  - eapply BusPersistenceFacts.getitem_at_ok.
    + rewrite Hobj. by eapply BusPersistenceFacts.lookup_set_item.
    + apply lookup_insert_eq.
Qed.

(** The filter of [retrieve] stops at the first event its predicate
    raises on. *)
Lemma py_filter_raises since status pre e post exc w :
  names_are_values →
  Forall (stored_event (objects w)) pre →
  check_params since status e w = (Raise exc, w) →
  py_filter (check_params since status) (pre ++ e :: post) w
  = (Raise exc, w).
Proof.
  intros Hnv Hpre He. induction Hpre as [|x pre Hx _ IH].
  - cbn [app py_filter]. by erewrite bind_raise by exact He.
  - cbn [app py_filter].
    erewrite bind_ok by (by apply BusPersistenceFacts.check_params_stored).
    by erewrite bind_raise by exact IH.
Qed.

(** X9.  With the backend unhealthy and [status] a list of members that
    is not empty, [retrieve] itself returns the [filter] object and
    raises nothing; it is the iteration of that object that raises
    [KeyError], with the status of the first buffered event whose
    [status] is the name of no member, also when the [created_at] of
    that event is before [since]: the status is looked up before the two
    checks are combined.  Neither the call nor the iteration changes
    anything. *)
Theorem retrieve_unnamed_status_raises since m ms w pre e post d t s :
  names_are_values →
  unhealthy w →
  buffer w = pre ++ e :: post →
  Forall (stored_event (objects w)) pre →
  objects w !! e = Some (ODict d) →
  d !! "created_at" = Some (VTime t) →
  d !! "status" = Some (VStr s) →
  by_name s = None →
  retrieve since (Some (StatusList (m :: ms))) w
  = (Ok (FromMemory since (Some (StatusList (m :: ms)))), w)
  ∧ iterate_filter since (Some (StatusList (m :: ms))) w
    = (Raise (KeyError (VStr s)), w).
Proof.
  intros Hnv Hun Hbuf Hpre Hl Hc Hs Hname.
  split; [by apply BusPersistenceFacts.retrieve_unhealthy|].
  unfold iterate_filter.
  erewrite bind_ok by reflexivity. cbv beta. fold (buffer w). rewrite Hbuf.
  apply py_filter_raises; [done|done|].
  unfold check_params.
  assert (∀ k v, d !! k = Some v → getitem_at e k w = (Ok v, w)) as Hget
    by (intros; by eapply BusPersistenceFacts.getitem_at_ok).
  assert (∃ c, match since with
               | Some t0 =>
                   let* c := getitem_at e "created_at" in
                   match c with
                   | VTime t' => ret (t0 <=? t')
                   | _ => raise TypeError
                   end
               | None => ret true
               end w = (Ok c, w)) as (c & Hsince).
  { destruct since as [t0|]; [|by eexists].
    erewrite bind_ok by (by apply Hget). by eexists. }
  erewrite bind_ok by exact Hsince.
  cbv beta. cbn [status_truthy].
  rewrite bool_decide_eq_false_2 by done. cbn [negb].
  erewrite bind_raise; [reflexivity|].
  erewrite bind_ok by (by apply Hget). cbv beta.
  erewrite bind_raise; [reflexivity|].
  unfold lift, member_named. by rewrite Hname.
Qed.

(** X10.  With the backend healthy, [store], [update] and [retrieve]
    hand the call to the backend and return what it returns: [store]
    stamps the event and neither buffers it nor sets a timer, [update]
    and [retrieve] change nothing, and what the backend raises for
    [retrieve] reaches the caller as [PersistenceError]. *)
Theorem healthy_calls_pass_through w b :
  is_healthy w b →
  (∀ event d utcnow v,
     objects w !! event = Some (ODict d) →
     b_store b (<["created_at" := VTime utcnow]> d) = Ok v →
     ∃ w', store event utcnow w = (Ok v, w')
           ∧ objects w'
             = <[event := ODict (<["created_at" := VTime utcnow]> d)]>
                 (objects w)
           ∧ buffer w' = buffer w ∧ timers w' = timers w
           ∧ exception_handler_calls w' = exception_handler_calls w)
  ∧ (∀ uid status v,
       b_update b uid status = Ok v → update uid status w = (Ok v, w))
  ∧ (∀ since status v,
       b_retrieve b since status = Ok v →
       retrieve since status w = (Ok (FromBackend v), w))
  ∧ (∀ since status exc,
       b_retrieve b since status = Raise exc →
       retrieve since status w = (Raise (PersistenceError exc), w)).
Proof.
  intros Hh. split; [|split; [|split]].
  - intros event d utcnow v Hl Hst. unfold store.
    erewrite bind_ok by (by apply BusPersistenceFacts.setitem_at_ok).
    set (w1 := set_objects _ w).
    assert (is_healthy w1 b) as Hh1 by exact Hh.
    erewrite bind_ok by (by apply (BusPersistenceFacts.ping_healthy _ b)).
    cbn [healthy]. unfold through_backend, try_except.
    destruct Hh1 as [-> _]. subst w1. cbn [objects set_objects].
    erewrite BusPersistenceFacts.lookup_set_item by done. rewrite Hst.
    eexists. split; [reflexivity|]. done.
  - intros uid status v Hup. unfold update.
    erewrite bind_ok by (by apply (BusPersistenceFacts.ping_healthy _ b)).
    cbn [healthy]. unfold through_backend, try_except.
    destruct Hh as [-> _]. by rewrite Hup.
  - intros since status v Hre. unfold retrieve.
    erewrite bind_ok by (by apply (BusPersistenceFacts.ping_healthy _ b)).
    cbn [healthy]. unfold bind, through_backend, try_except.
    destruct Hh as [-> _]. by rewrite Hre.
  - intros since status exc Hre. unfold retrieve.
    erewrite bind_ok by (by apply (BusPersistenceFacts.ping_healthy _ b)).
    cbn [healthy]. unfold bind, through_backend, try_except.
    destruct Hh as [-> _]. by rewrite Hre.
Qed.

(** X11.  With the backend unhealthy, [update] reads the [id] of every
    buffered event up to the first match: a buffered event without an
    [id], met before any match, makes it raise [KeyError], and nothing
    is changed, the events after it included. *)
Theorem update_event_without_id_raises uid status w pre e post d :
  unhealthy w →
  buffer w = pre ++ e :: post →
  Forall (no_match uid (objects w)) pre →
  objects w !! e = Some (ODict d) →
  d !! "id" = None →
  update uid status w = (Raise (KeyError (VStr "id")), w).
Proof.
  intros Hun Hbuf Hpre Hl Hid.
  destruct (BusPersistenceFacts.ping_unhealthy w Hun) as (p & Hp & Hh).
  unfold update. erewrite bind_ok by exact Hp. rewrite Hh.
  erewrite bind_ok by reflexivity. cbv beta. fold (buffer w). rewrite Hbuf.
  rewrite BusPersistenceFacts.update_in_memory_skip by done.
  cbn [update_in_memory].
  by erewrite bind_raise by (by eapply BusPersistenceFacts.getitem_at_missing).
Qed.

End facts.

(** *** Runs on sample data *)

Import Samples MoreSamples.

Lemma three_events_accepted :
  Forall (accepted backend_accepting three_events) [0; 1; 2]%nat.
Proof.
  repeat constructor.
  - by exists (stored_bus_event "e1" "PENDING" 10), VNone.
  - by exists (stored_bus_event "e2" "PENDING" 20), VNone.
  - by exists (stored_bus_event "e2" "FAILED" 30), VNone.
Qed.

Lemma drain_empties_buffer_witness :
  ∃ w', _empty_last_events
          (bus_world three_events [0; 1; 2]%nat (Some backend_accepting))
        = (Ok (), w')
        ∧ buffer w' = []
        ∧ exception_handler_calls w' = []
        ∧ objects w' = three_events ∧ timers w' = []
        ∧ backend (self w') = Some backend_accepting.
Proof.
  apply (drain_empties_buffer
           (bus_world three_events [0; 1; 2]%nat (Some backend_accepting))
           backend_accepting).
  - by split.
  - exact three_events_accepted.
Defined.

Lemma drain_drops_rejected_event_witness :
  ∃ w', _empty_last_events
          (bus_world three_events [0; 1; 2]%nat (Some backend_picky))
        = (Ok (), w')
        ∧ buffer w' = [2%nat]
        ∧ exception_handler_calls w' = [ExternalError "DuplicateKeyError"]
        ∧ objects w' = three_events ∧ timers w' = [].
Proof.
  apply (drain_drops_rejected_event
           (bus_world three_events [0; 1; 2]%nat (Some backend_picky))
           backend_picky [0%nat] 1%nat [2%nat]
           (ExternalError "DuplicateKeyError")).
  - by split.
  - reflexivity.
  - constructor; [|constructor].
    by exists (stored_bus_event "e1" "PENDING" 10), VNone.
  - by exists (stored_bus_event "e2" "PENDING" 20).
Defined.

Lemma feed_turn_settles_witness :
  ∃ w1,
    feed_turn (bus_world three_events [0; 1; 2]%nat (Some backend_accepting))
    = (Ok (), w1)
    ∧ buffer w1 = []
    ∧ exception_handler_calls w1 = []
    ∧ objects w1 = three_events
    ∧ feed_turn w1 = (Ok (), w1)
    ∧ feed_cancelled w1 = (Ok (), w1).
Proof.
  apply (feed_turn_settles
           (bus_world three_events [0; 1; 2]%nat (Some backend_accepting))
           backend_accepting).
  - by split.
  - exact three_events_accepted.
Defined.

Lemma retrieve_without_filter_returns_buffer_witness :
  retrieve (E := status3_enum) None None three_buffered
  = (Ok (FromMemory None None), three_buffered)
  ∧ iterate_filter (E := status3_enum) None None three_buffered
    = (Ok [0; 1; 2]%nat, three_buffered).
Proof.
  apply (retrieve_without_filter_returns_buffer three_buffered None).
  - exact I.
  - by left.
Defined.

Lemma stored_event_is_retrieved_last_witness :
  ∃ w1 kept,
    store 0%nat 1700000000
      (bus_world [ODict (bus_event "e1" "PENDING")] [] (Some backend_down))
    = (Ok VNone, w1)
    ∧ retrieve None None w1 = (Ok (FromMemory None None), w1)
    ∧ iterate_filter None None w1 = (Ok (kept ++ [0%nat]), w1)
    ∧ kept `suffix_of` []
    ∧ getitem_at 0%nat "created_at" w1 = (Ok (VTime 1700000000), w1).
Proof.
  apply (stored_event_is_retrieved_last
           (bus_world [ODict (bus_event "e1" "PENDING")] []
                      (Some backend_down))
           0%nat (bus_event "e1" "PENDING") 1700000000).
  - reflexivity.
  - reflexivity.
  - cbn. unfold QUEUE_SIZE. lia.
Defined.

Lemma retrieve_unnamed_status_raises_witness :
  retrieve (Some 100) (Some (StatusList (E := status3_enum) [PENDING]))
    (bus_world odd_status_events [0; 1; 2]%nat None)
  = (Ok (FromMemory (Some 100)
           (Some (StatusList (E := status3_enum) [PENDING]))),
     bus_world odd_status_events [0; 1; 2]%nat None)
  ∧ iterate_filter (Some 100)
      (Some (StatusList (E := status3_enum) [PENDING]))
      (bus_world odd_status_events [0; 1; 2]%nat None)
    = (Raise (KeyError (VStr "pending")),
       bus_world odd_status_events [0; 1; 2]%nat None).
Proof.
  apply (retrieve_unnamed_status_raises (E := status3_enum) (Some 100)
           PENDING [] (bus_world odd_status_events [0; 1; 2]%nat None)
           [0; 1]%nat 2%nat [] (stored_bus_event "e3" "pending" 30) 30
           "pending").
  - exact BusPersistenceFacts.status3_names_are_values.
  - exact I.
  - reflexivity.
  - constructor; [|constructor; [|constructor]].
    + by exists (stored_bus_event "e1" "PENDING" 10), 10, PENDING.
    + by exists (stored_bus_event "e2" "PENDING" 20), 20, PENDING.
  - reflexivity.
  - reflexivity.
  - reflexivity.
  - reflexivity.
Defined.

Lemma healthy_calls_pass_through_witness :
  (∃ w', store 0%nat 1700000000
           (bus_world [ODict (bus_event "e1" "PENDING")] []
                      (Some backend_accepting))
         = (Ok VNone, w')
         ∧ objects w' = [ODict (stored_bus_event "e1" "PENDING" 1700000000)]
         ∧ buffer w' = [] ∧ timers w' = []
         ∧ exception_handler_calls w' = [])
  ∧ retrieve (Some 5) None
      (bus_world [ODict (bus_event "e1" "PENDING")] []
                 (Some backend_accepting))
    = (Ok (FromBackend VNone),
       bus_world [ODict (bus_event "e1" "PENDING")] []
                 (Some backend_accepting)).
Proof.
  destruct (healthy_calls_pass_through
              (bus_world [ODict (bus_event "e1" "PENDING")] []
                         (Some backend_accepting)) backend_accepting)
    as (Hstore & _ & Hretrieve & _); [by split|].
  split.
  - exact (Hstore 0%nat (bus_event "e1" "PENDING") 1700000000 VNone
             eq_refl eq_refl).
  - exact (Hretrieve (Some 5) None VNone eq_refl).
Defined.

Lemma update_event_without_id_raises_witness :
  update (E := status3_enum) "e2" SENT
    (bus_world no_id_events [0; 1]%nat None)
  = (Raise (KeyError (VStr "id")), bus_world no_id_events [0; 1]%nat None).
Proof.
  apply (update_event_without_id_raises (E := status3_enum) "e2" SENT
           (bus_world no_id_events [0; 1]%nat None) [0%nat] 1%nat []
           {[ "status" := VStr "PENDING"; "created_at" := VTime 20 ]}).
  - exact I.
  - reflexivity.
  - constructor; [|constructor].
    by exists (stored_bus_event "e1" "PENDING" 10), (VStr "e1").
  - reflexivity.
  - reflexivity.
Defined.

End BusLoopFacts.

(** ** MongoManager, further *)

Module MongoMoreFacts.
Import Mongo MoreSpec.

(** [replace] leaves a string without any occurrence of [old] as it is. *)
Lemma replace_from_absent old new s :
  occurs old s = false → replace_from old new 0 s = s.
Proof.
  induction s as [|c s IH]; [done|].
  cbn [occurs replace_from]. intros [H1 H2]%orb_false_iff.
  rewrite H1. by rewrite IH.
Qed.

Lemma prefix_append old n : String.prefix old (old +:+ n) = true.
Proof.
  induction old as [|c old IH]; [by destruct n|].
  change (String c old +:+ n) with (String c (old +:+ n)).
  cbn [String.prefix]. by destruct (Ascii.ascii_dec c c).
Qed.

(** [replace] passes over the characters of a match. *)
Lemma replace_from_skip old new s1 s2 :
  replace_from old new (String.length s1) (s1 +:+ s2)
  = replace_from old new 0 s2.
Proof.
  induction s1 as [|c s1 IH]; [done|].
  change (String c s1 +:+ s2) with (String c (s1 +:+ s2)).
  cbn [String.length replace_from]. exact IH.
Qed.

Lemma replace_from_prefix c old new n :
  replace_from (String c old) new 0 (String c old +:+ n)
  = new +:+ replace_from (String c old) new 0 n.
Proof.
  change (String c old +:+ n) with (String c (old +:+ n)).
  cbn [replace_from].
  change (String c (old +:+ n)) with (String c old +:+ n).
  rewrite prefix_append. f_equal.
  change (String.length (String c old) - 1)%nat
    with (String.length old - 0)%nat.
  rewrite Nat.sub_0_r. apply replace_from_skip.
Qed.

(** X12.  [list_databases] gives back the name [_db_name] was given,
    [default] for no name or the empty one, whenever that name has no
    occurrence of the prefix in it. *)
Theorem list_databases_inverts_db_name (org : option string) :
  occurs DATABASE_PREFIX (effective_name org) = false →
  list_databases [_db_name org] = [effective_name org].
Proof.
  intros H.
  change (_db_name org) with (DATABASE_PREFIX +:+ effective_name org).
  set (n := effective_name org) in *.
  unfold list_databases.
  rewrite filter_cons, decide_True by apply prefix_append.
  rewrite filter_nil. cbn [fmap list_fmap]. f_equal.
  unfold replace, DATABASE_PREFIX in *.
  rewrite replace_from_prefix.
  by rewrite replace_from_absent.
Qed.

Lemma list_databases_inverts_db_name_witness :
  list_databases [_db_name (Some "acme")] = ["acme"]
  ∧ list_databases [_db_name None] = ["default"].
Proof.
  split.
  - apply (list_databases_inverts_db_name (Some "acme")). reflexivity.
  - apply (list_databases_inverts_db_name None). reflexivity.
Defined.

End MongoMoreFacts.

Module ManagerFacts.
Import Workflow MongoManager.

(** X13.  When the ping fails on the first entry into the context of a
    database, [db_context] has already kept the storage it made: the
    entry raises what the ping raised, the storage is known from then
    on, and a later entry, with the store back, succeeds without ever
    calling [init()] on that storage, whatever [init()] would answer.
    [database], by contrast, keeps nothing when the ping fails. *)
Theorem db_context_keeps_uninitialised_storage org w e :
  mongo_ping w = Raise e →
  Mongo._db_name org ∉ _databases w →
  ∃ w1,
    db_context org w = (Raise e, w1)
    ∧ _databases w1 = _databases w ++ [Mongo._db_name org]
    ∧ (∀ f, let w2 := set_storage_init f (set_mongo_ping (Ok ()) w1) in
            db_context org w2 = (Ok (Mongo._db_name org), w2))
    ∧ database org w = (Raise e, w).
Proof.
  intros Hping Hnew. unfold db_context.
  erewrite bind_ok by reflexivity. cbv beta.
  rewrite bool_decide_eq_true_2 by done.
  erewrite bind_ok by reflexivity. cbv beta.
  erewrite bind_raise by (unfold lift; rewrite Hping; reflexivity).
  eexists. split; [reflexivity|]. split; [reflexivity|]. split.
  - intros f.
    erewrite bind_ok by reflexivity. cbv beta.
    rewrite bool_decide_eq_false_2.
    2:{ intros Hnot. apply Hnot. cbn.
        apply elem_of_app. right. apply list_elem_of_singleton. done. }
    reflexivity.
  - unfold database. erewrite bind_ok by reflexivity. cbv beta.
    by erewrite bind_raise by (unfold lift; rewrite Hping; reflexivity).
Qed.

(** X14.  [database] keeps a storage only once its [init()] has
    returned: when [init()] raises, nothing is kept, so that the next
    call makes a storage and initialises it again; when it returns, the
    storage is known from then on and later calls hand it out without
    calling [init()]. *)
Theorem database_keeps_initialised_storage org w :
  mongo_ping w = Ok () →
  Mongo._db_name org ∉ _databases w →
  (∀ e, storage_init w (Mongo._db_name org) = Raise e →
        database org w = (Raise e, w))
  ∧ (storage_init w (Mongo._db_name org) = Ok () →
     ∃ w1, database org w = (Ok (Mongo._db_name org), w1)
           ∧ _databases w1 = _databases w ++ [Mongo._db_name org]
           ∧ ∀ f, let w2 := set_storage_init f w1 in
                  database org w2 = (Ok (Mongo._db_name org), w2)).
Proof.
  intros Hping Hnew. split.
  - intros e Hinit. unfold database.
    erewrite bind_ok by reflexivity. cbv beta.
    erewrite bind_ok by (unfold lift; rewrite Hping; reflexivity). cbv beta.
    rewrite bool_decide_eq_true_2 by done.
    erewrite bind_raise; [reflexivity|].
    by erewrite bind_raise by (unfold lift; rewrite Hinit; reflexivity).
  - intros Hinit. unfold database.
    erewrite bind_ok by reflexivity. cbv beta.
    erewrite bind_ok by (unfold lift; rewrite Hping; reflexivity). cbv beta.
    rewrite bool_decide_eq_true_2 by done.
    erewrite bind_ok; [|
      erewrite bind_ok by (unfold lift; rewrite Hinit; reflexivity);
      reflexivity].
    eexists. split; [reflexivity|]. split; [reflexivity|].
    intros f. cbv zeta.
    erewrite bind_ok by reflexivity. cbv beta.
    erewrite bind_ok
      by (unfold lift; cbn [mongo_ping set_storage_init
            set_databases]; rewrite Hping; reflexivity).
    cbv beta. rewrite bool_decide_eq_false_2.
    2:{ intros Hnot. apply Hnot. cbn.
        apply elem_of_app. right. apply list_elem_of_singleton. done. }
    reflexivity.
Qed.

(** X15.  Whatever [db_context] and [database] return or raise, the
    manager holds one storage per database at most, forgets none, and
    learns of no other database than the one asked for. *)
Theorem storages_stay_distinct org w r w' :
  NoDup (_databases w) →
  db_context org w = (r, w') ∨ database org w = (r, w') →
  NoDup (_databases w')
  ∧ (∀ n, n ∈ _databases w → n ∈ _databases w')
  ∧ (∀ n, n ∈ _databases w' → n ∈ _databases w ∨ n = Mongo._db_name org).
Proof.
  intros Hnd Hrun.
  assert ((_databases w' = _databases w)
          ∨ ((Mongo._db_name org ∉ _databases w)
             ∧ (_databases w' = _databases w ++ [Mongo._db_name org])))
    as [-> | [Hnew ->]].
  { destruct Hrun as [Hrun|Hrun]; revert Hrun.
    - unfold db_context. unfold bind at 1, get.
      case_bool_decide as Hin.
      + unfold bind at 1, modify. unfold bind at 1, lift.
        destruct (mongo_ping w); [|intros [= <- <-]; right; by split].
        unfold bind at 1.
        destruct (storage_init w _); intros [= <- <-]; right; by split.
      + unfold bind at 1, ret. unfold bind at 1, lift.
        destruct (mongo_ping w); [|intros [= <- <-]; by left].
        unfold bind at 1. intros [= <- <-]. by left.
    - unfold database. unfold bind at 1, get. unfold bind at 1, lift.
      destruct (mongo_ping w); [|intros [= <- <-]; by left].
      case_bool_decide as Hin.
      + unfold bind at 1. unfold bind at 1.
        destruct (storage_init w _); [|intros [= <- <-]; by left].
        unfold modify, ret. intros [= <- <-]. right. by split.
      + unfold bind at 1, ret. intros [= <- <-]. by left. }
  - split; [done|]. split; [done|]. by left.
  - split; [|split].
    + apply NoDup_app. split; [done|]. split; [|apply NoDup_singleton].
      intros n Hn ->%list_elem_of_singleton. done.
    + intros n Hn. apply elem_of_app. by left.
    + intros n [Hn|Hn%list_elem_of_singleton]%elem_of_app;
        [by left | by right].
Qed.

(** X25.  The database [workflow_event] and [reload_from_storage] open
    for a name [list_databases] gave them is the listed database itself,
    for a database named by the prefix and then a name that is not empty
    and has no occurrence of the prefix in it: [list_databases] hands out
    that name, and [db_context], given it, enters the context of the
    database listed, with the store reachable. *)
Theorem listed_database_is_opened (m : string) w :
  m ≠ "" →
  MoreSpec.occurs Mongo.DATABASE_PREFIX m = false →
  WorkflowSpec.store_reachable (Some m) w →
  Mongo.list_databases [Mongo.DATABASE_PREFIX +:+ m] = [m]
  ∧ ∃ w', db_context (Some m) w = (Ok (Mongo.DATABASE_PREFIX +:+ m), w')
          ∧ Mongo.DATABASE_PREFIX +:+ m ∈ _databases w'
          ∧ running_workflows w' = running_workflows w
          ∧ objects w' = objects w.
Proof.
  intros Hm Hocc Hstore.
  assert (Mongo._db_name (Some m) = Mongo.DATABASE_PREFIX +:+ m) as Hname.
  { unfold Mongo._db_name. by rewrite bool_decide_eq_false_2. }
  split.
  - unfold Mongo.list_databases.
    rewrite filter_cons, decide_True by apply MongoMoreFacts.prefix_append.
    rewrite filter_nil. cbn [fmap list_fmap]. f_equal.
    unfold Mongo.replace, Mongo.DATABASE_PREFIX in *.
    rewrite MongoMoreFacts.replace_from_prefix.
    by rewrite MongoMoreFacts.replace_from_absent.
  - rewrite <- Hname. destruct Hstore as [Hping Hinit].
    unfold db_context. erewrite bind_ok by reflexivity. cbv beta.
    case_bool_decide as Hin.
    + destruct Hinit as [Hin'|Hinit]; [done|].
      erewrite bind_ok by reflexivity. cbv beta.
      erewrite bind_ok by (unfold lift; rewrite Hping; reflexivity).
      cbv beta.
      erewrite bind_ok by (unfold lift; rewrite Hinit; reflexivity).
      eexists. split; [reflexivity|]. split; [|done]. cbn.
      apply elem_of_app. right. by apply list_elem_of_singleton.
    + erewrite bind_ok by reflexivity. cbv beta.
      erewrite bind_ok by (unfold lift; rewrite Hping; reflexivity).
      cbv beta.
      erewrite bind_ok by reflexivity.
      eexists. split; [reflexivity|]. split; [|done].
      by destruct (decide (Mongo._db_name (Some m) ∈ _databases w)).
Qed.

Import WorkflowSamples.

Lemma listed_database_is_opened_witness :
  Mongo.list_databases ["org-globex"] = ["globex"]
  ∧ ∃ w', db_context (Some "globex") (two_tenants (Ok ()))
          = (Ok "org-globex", w')
          ∧ "org-globex" ∈ _databases w'
          ∧ running_workflows w' = running_workflows (two_tenants (Ok ()))
          ∧ objects w' = template_heap.
Proof.
  apply (listed_database_is_opened "globex" (two_tenants (Ok ()))).
  - discriminate.
  - reflexivity.
  - split; [reflexivity|]. by right.
Defined.

Lemma db_context_keeps_uninitialised_storage_witness :
  ∃ w1,
    db_context (Some "globex")
      (two_tenants (Raise (ExternalError "AutoReconnect")))
    = (Raise (ExternalError "AutoReconnect"), w1)
    ∧ _databases w1 = ["org-globex"]
    ∧ (∀ f, let w2 := set_storage_init f (set_mongo_ping (Ok ()) w1) in
            db_context (Some "globex") w2 = (Ok "org-globex", w2))
    ∧ database (Some "globex")
        (two_tenants (Raise (ExternalError "AutoReconnect")))
      = (Raise (ExternalError "AutoReconnect"),
         two_tenants (Raise (ExternalError "AutoReconnect"))).
Proof.
  apply (db_context_keeps_uninitialised_storage (Some "globex")
           (two_tenants (Raise (ExternalError "AutoReconnect")))
           (ExternalError "AutoReconnect")).
  - reflexivity.
  - cbn. apply not_elem_of_nil.
Defined.

Lemma database_keeps_initialised_storage_witness :
  ∃ w1, database (Some "globex") (two_tenants (Ok ()))
        = (Ok "org-globex", w1)
        ∧ _databases w1 = ["org-globex"]
        ∧ ∀ f, let w2 := set_storage_init f w1 in
               database (Some "globex") w2 = (Ok "org-globex", w2).
Proof.
  destruct (database_keeps_initialised_storage (Some "globex")
              (two_tenants (Ok ()))) as [_ Hok].
  - reflexivity.
  - cbn. apply not_elem_of_nil.
  - exact (Hok eq_refl).
Defined.

Lemma storages_stay_distinct_witness :
  let w' := (db_context (Some "globex") (two_tenants (Ok ()))).2 in
  NoDup (_databases w')
  ∧ (∀ n, n ∈ [] → n ∈ _databases w')
  ∧ (∀ n, n ∈ _databases w' → n ∈ [] ∨ n = "org-globex").
Proof.
  apply (storages_stay_distinct (Some "globex") (two_tenants (Ok ()))
           (db_context (Some "globex") (two_tenants (Ok ()))).1
           (db_context (Some "globex") (two_tenants (Ok ()))).2).
  - cbn. apply NoDup_nil_2.
  - left. apply surjective_pairing.
Defined.

End ManagerFacts.

(** ** WorkflowNyuki, further *)

Module RegistryMoreFacts.
Import Workflow WorkflowSpec MoreWorkflowSpec MoreSpec.

(** *** What the handlers keep *)

Lemma follows_refl w : follows w w.
Proof. by split. Qed.

Lemma follows_trans w1 w2 w3 : follows w1 w2 → follows w2 w3 → follows w1 w3.
Proof.
  intros (H1 & H2 & H3) (H4 & H5 & H6). split; [by auto|].
  split; [lia | congruence].
Qed.

Lemma follows_same w w' :
  running_workflows w' = running_workflows w →
  ws_clients w' = ws_clients w → follows w w'.
Proof. intros H1 H2. unfold follows. by rewrite H1, H2. Qed.

Lemma sr_bind {A B} (m : M world A) (k : A → M world B) :
  shrinks_registry m → (∀ a, shrinks_registry (k a)) →
  shrinks_registry (bind m k).
Proof.
  intros Hm Hk w r w' H. unfold bind in H.
  destruct (m w) as [[a|e] w1] eqn:Em.
  - eapply follows_trans; [exact (Hm _ _ _ Em) | exact (Hk a _ _ _ H)].
  - injection H as <- <-. exact (Hm _ _ _ Em).
Qed.

Lemma sr_ret {A} (a : A) : shrinks_registry (ret a).
Proof. intros w r w' [= <- <-]. apply follows_refl. Qed.

Lemma sr_raise {A} e : shrinks_registry (raise (A := A) e).
Proof. intros w r w' [= <- <-]. apply follows_refl. Qed.

Lemma sr_lift {A} (x : result A) : shrinks_registry (lift x).
Proof. intros w r w' [= <- <-]. apply follows_refl. Qed.

Lemma sr_get : shrinks_registry (get (S := world)).
Proof. intros w r w' [= <- <-]. apply follows_refl. Qed.

Lemma sr_on_objects {A} (m : M heap A) : shrinks_registry (on_objects m).
Proof.
  intros w r w'. unfold on_objects. destruct (m (objects w)).
  intros [= <- <-]. by apply follows_same.
Qed.

Lemma sr_modify (f : world → world) :
  (∀ w, running_workflows (f w) = running_workflows w
        ∧ ws_clients (f w) = ws_clients w) →
  shrinks_registry (modify f).
Proof.
  intros Hf w r w' [= <- <-]. destruct (Hf w). by apply follows_same.
Qed.

Ltac sr_step :=
  first [ apply sr_ret | apply sr_raise | apply sr_lift | apply sr_get
        | apply sr_on_objects | by apply sr_modify
        | apply sr_bind; [|intros ?] ].

Lemma sr_db_context name : shrinks_registry (db_context name).
Proof.
  unfold db_context. sr_step; [sr_step|]. sr_step.
  { case_bool_decide; sr_step. }
  sr_step; [sr_step|]. sr_step; [|sr_step].
  case_bool_decide; sr_step.
Qed.

Lemma odict_del_elem {K V} `{EqDecision K} (k : K) (d : list (K * V)) x :
  x ∈ odict_del k d → x ∈ d.
Proof.
  induction d as [|[k' v'] d IH]; [done|]. cbn [odict_del].
  destruct (decide (k = k')).
  - apply list_elem_of_further.
  - intros [->|H]%elem_of_cons; [apply list_elem_of_here|].
    apply list_elem_of_further. by apply IH.
Qed.

Lemma sr_del_running org exec_id : shrinks_registry (del_running org exec_id).
Proof.
  intros w r w'. unfold del_running. unfold bind at 1, get.
  destruct (odict_get org (running_workflows w)) as [ws|] eqn:Hget;
    [|intros [= <- <-]; apply follows_refl].
  destruct exec_id as [| | |s| | |];
    try (intros [= <- <-]; apply follows_refl).
  destruct (odict_get s ws) as [wf|] eqn:Hs;
    [|intros [= <- <-]; apply follows_refl].
  intros [= <- <-]. split; [|split; [|done]];
    cbn [running_workflows set_running_workflows].
  - intros Hrs org' ws' s' wf' Hin Hwf'.
    apply ODictFacts.odict_set_elem in Hin as [[= -> ->]|Hin].
    + eapply Hrs; [by apply ODictFacts.odict_get_elem|].
      by eapply odict_del_elem.
    + by eapply Hrs.
  - destruct (ODictFacts.odict_get_split _ _ _ Hget)
      as (pre & post & Hr & Hpre).
    rewrite Hr. rewrite ODictFacts.odict_set_skip by done.
    rewrite !RegistryFacts.record_count_entry.
    pose proof (ODictFacts.odict_del_length _ _ _ Hs). lia.
Qed.

Section handler.
Context {S : WorkflowExecState}.

(** Whatever [report_workflow] returns or raises, it adds no record,
    hands none to another organization and leaves the subscribers as
    they are. *)
Lemma sr_report_workflow event utcnow :
  shrinks_registry (report_workflow event utcnow).
Proof.
  unfold report_workflow. sr_step; [sr_step|]. sr_step; [sr_step|].
  sr_step; [sr_step|]. destruct a1 as [wflow|]; [|sr_step].
  sr_step; [sr_step|]. sr_step.
  { destruct (is_terminal a1); [|sr_step].
    sr_step; [apply sr_db_context|]. sr_step; [sr_step|].
    sr_step; [sr_step|]. sr_step; [sr_step|].
    sr_step; [by apply sr_modify|]. apply sr_del_running. }
  sr_step; [sr_step|]. sr_step.
  { destruct (truthy _ _); [sr_step|]. sr_step; [sr_step|sr_step]. }
  cbv zeta. apply sr_bind; [apply sr_get|intros ?]. by apply sr_modify.
Qed.

(** X16.  The four handlers keep the two invariants tenant isolation
    rests on, whatever they return or raise: every subscriber stays
    listed under the organization its request named, and every record
    stays held by its own organization.  [report_workflow] moreover
    never adds a record. *)
Theorem handlers_keep_tenants_apart w :
  tenants_apart w →
  (∀ template instance org kwargs r w',
     new_workflow template instance org kwargs w = (r, w') →
     tenants_apart w')
  ∧ (∀ event utcnow r w',
       report_workflow event utcnow w = (r, w') →
       tenants_apart w'
       ∧ (record_count (running_workflows w')
          ≤ record_count (running_workflows w))%nat)
  ∧ (∀ c r w', websocket_ready c w = (r, w') → tenants_apart w')
  ∧ (∀ c r w', websocket_close c w = (r, w') → tenants_apart w').
Proof.
  intros [Hcs Hrs]. split; [|split; [|split]].
  - intros template instance org kwargs r w'. unfold new_workflow.
    unfold bind, modify, ret. intros [= <- <-]. split; [done|].
    cbn [running_workflows set_running_workflows].
    set (wf := new_instance template instance org kwargs).
    set (r0 := match odict_get org (running_workflows w) with
               | Some _ => running_workflows w
               | None => odict_set org [] (running_workflows w)
               end).
    assert (∀ org' ws' s wf', (org', ws') ∈ r0 → (s, wf') ∈ ws'
                              → _organization wf' = org') as Hr0.
    { intros org' ws' s wf' Hin Hwf'. subst r0.
      destruct (odict_get org (running_workflows w)); [by eapply Hrs|].
      apply ODictFacts.odict_set_elem in Hin as [[= -> ->]|Hin];
        [by apply elem_of_nil in Hwf' | by eapply Hrs]. }
    intros org' ws' s wf' Hin Hwf'.
    apply ODictFacts.odict_set_elem in Hin as [[= -> ->]|Hin];
      [|by eapply Hr0].
    apply ODictFacts.odict_set_elem in Hwf' as [[= -> ->]|Hwf']; [done|].
    destruct (odict_get org r0) as [ws0|] eqn:Hget;
      [|by apply elem_of_nil in Hwf'].
    eapply Hr0; [|exact Hwf']. by apply ODictFacts.odict_get_elem.
  - intros event utcnow r w' Hrun.
    destruct (sr_report_workflow _ _ _ _ _ Hrun) as (Hkeep & Hcount & Hws).
    split; [|done]. split; [by rewrite Hws | by apply Hkeep].
  - intros c r w' Hrun.
    destruct (RegistryFacts.websocket_ready_clients _ _ _ _ Hcs Hrun)
      as (Hcs' & _ & Hreg & _).
    split; [done | by rewrite Hreg].
  - intros c r w' Hrun.
    destruct (RegistryFacts.websocket_close_clients c w Hcs)
      as (w1 & Hclose & Hcs' & Hreg).
    rewrite Hclose in Hrun. injection Hrun as <- <-.
    split; [done | by rewrite Hreg].
Qed.

(** X17.  What [report_workflow] broadcasts for an event that is not
    terminal, about a registered execution: the event's type, the time
    of the call, the event's source with the requester the record was
    made with added to it ([None] without one), the stored template
    when, and only when, the type is that of a workflow beginning, and
    as data the event's content, or a new empty dict when the content is
    missing or falsy. *)
Theorem progress_payload event utcnow w s wflow ty :
  source event !! "workflow_exec_id" = Some (VStr s) →
  registered s wflow (running_workflows w) →
  data event !! "type" = Some ty →
  is_terminal ty = false →
  ∃ w' p,
    report_workflow event utcnow w = (Ok (), w')
    ∧ sends w'
      = sends w ++ [(subscribers (_organization wflow) (ws_clients w), p)]
    ∧ p_type p = ty ∧ p_timestamp p = utcnow
    ∧ p_source p
      = <["workflow_exec_requester" :=
            default VNone (_exec wflow !! "requester")]> (source event)
    ∧ p_template p
      = (if eq_str ty begin_value then Some (_template wflow) else None)
    ∧ (let content := default VNone (data event !! "content") in
       if truthy (objects w) content
       then p_data p = content ∧ objects w' = objects w
       else p_data p = VRef (length (objects w))
            ∧ objects w' = objects w ++ [ODict ∅]).
Proof.
  intros Hsrc Hreg Hty Hterm. unfold report_workflow.
  erewrite bind_ok by (unfold lift, getitem; rewrite Hsrc; reflexivity).
  cbv beta.
  erewrite bind_ok by reflexivity. cbv beta.
  erewrite bind_ok
    by (unfold lift;
        rewrite (RegistryFacts.find_workflow_registered _ _ _ Hreg);
        reflexivity).
  cbv beta iota.
  erewrite bind_ok by (unfold lift, getitem; rewrite Hty; reflexivity).
  cbv beta. rewrite Hterm.
  erewrite bind_ok by reflexivity. cbv beta zeta.
  erewrite bind_ok by reflexivity. cbv beta.
  destruct (truthy (objects w) (default VNone (data event !! "content")))
    eqn:Htruthy.
  - erewrite bind_ok by reflexivity. cbv beta.
    erewrite bind_ok by reflexivity. cbv beta.
    eexists _, _. split; [reflexivity|]. done.
  - erewrite bind_ok by reflexivity. cbv beta.
    erewrite bind_ok by reflexivity. cbv beta.
    eexists _, _. split; [reflexivity|]. done.
Qed.

End handler.

(** *** Closing a websocket *)

Lemma odict_get_fmap_values {K V W} `{EqDecision K} (f : V → W) (k : K)
    (d : list (K * V)) :
  odict_get k ((λ kv, (kv.1, f kv.2)) <$> d) = f <$> odict_get k d.
Proof.
  induction d as [|[k' v'] d IH]; [done|].
  cbn [fmap list_fmap odict_get fst snd].
  destruct (decide (k = k')); [done|]. exact IH.
Qed.

Lemma list_remove_other c c' l :
  c' ≠ c → c' ∈ list_remove c l ↔ c' ∈ l.
Proof.
  intros Hne. split; [apply RegistryFacts.list_remove_elem|].
  induction l as [|c0 l IH]; [done|]. cbn [list_remove].
  destruct (decide (c = c0)) as [->|Hc0].
  - by intros [?|?]%elem_of_cons.
  - intros [->|H]%elem_of_cons; [apply list_elem_of_here|].
    apply list_elem_of_further. by apply IH.
Qed.

Lemma list_remove_nodup c l : NoDup l → c ∉ list_remove c l.
Proof.
  induction 1 as [|c0 l Hc0 Hnd IH]; [apply not_elem_of_nil|].
  cbn [list_remove]. destruct (decide (c = c0)) as [->|Hne]; [done|].
  by apply not_elem_of_cons.
Qed.

Lemma list_remove_absent c l : c ∉ l → list_remove c l = l.
Proof.
  induction l as [|c0 l IH]; [done|].
  intros [Hne Hl]%not_elem_of_cons. cbn [list_remove].
  rewrite decide_False by done. by rewrite IH.
Qed.

Lemma list_remove_snoc c l : c ∉ l → list_remove c (l ++ [c]) = l.
Proof.
  induction l as [|c0 l IH]; intros Hl.
  - cbn. by rewrite decide_True.
  - apply not_elem_of_cons in Hl as [Hne Hl]. cbn [app list_remove].
    rewrite decide_False by done. by rewrite IH.
Qed.

Lemma subscribers_close c org cs :
  subscribers org ((λ kv, (kv.1, list_remove c kv.2)) <$> cs)
  = list_remove c (subscribers org cs).
Proof.
  unfold subscribers. rewrite odict_get_fmap_values.
  by destruct (odict_get org cs).
Qed.

(** X18.  [websocket_close] takes the client, once, out of the list of
    every organization and does nothing else: no organization is
    forgotten, even with no subscriber left, every other client stays
    where it was, a client listed once is listed no more, and the
    registry, the broadcasts and the objects are as before. *)
Theorem websocket_close_removes_client c w :
  ∃ w',
    websocket_close c w = (Ok (), w')
    ∧ odict_keys (ws_clients w') = odict_keys (ws_clients w)
    ∧ (∀ org, subscribers org (ws_clients w')
              = list_remove c (subscribers org (ws_clients w)))
    ∧ (∀ org c', c' ≠ c →
         c' ∈ subscribers org (ws_clients w')
         ↔ c' ∈ subscribers org (ws_clients w))
    ∧ (∀ org, NoDup (subscribers org (ws_clients w)) →
              c ∉ subscribers org (ws_clients w'))
    ∧ running_workflows w' = running_workflows w
    ∧ sends w' = sends w ∧ objects w' = objects w.
Proof.
  eexists. split; [reflexivity|].
  cbn [ws_clients set_ws_clients running_workflows sends objects].
  split; [|split; [|split; [|split; [|done]]]].
  - unfold odict_keys. rewrite <- list_fmap_compose.
    by apply list_fmap_ext.
  - intros org. apply subscribers_close.
  - intros org c' Hne. rewrite subscribers_close.
    by apply list_remove_other.
  - intros org Hnd. rewrite subscribers_close. by apply list_remove_nodup.
Qed.

(** The subscribers after the first step of [websocket_ready]. *)
Lemma subscribers_ready c org cs :
  let cs0 := match odict_get (header_organization c) cs with
             | Some _ => cs
             | None => odict_set (header_organization c) [] cs
             end in
  subscribers org
    (odict_set (header_organization c)
       (default [] (odict_get (header_organization c) cs0) ++ [c]) cs0)
  = if decide (org = header_organization c)
    then subscribers org cs ++ [c]
    else subscribers org cs.
Proof.
  intros cs0. unfold subscribers.
  assert (∀ o, default [] (odict_get o cs0) = default [] (odict_get o cs))
    as Hcs0.
  { intros o. subst cs0.
    destruct (odict_get (header_organization c) cs) eqn:Hget; [done|].
    destruct (decide (o = header_organization c)) as [->|Hne].
    - by rewrite ODictFacts.odict_get_set_eq, Hget.
    - by rewrite ODictFacts.odict_get_set_ne. }
  destruct (decide (org = header_organization c)) as [->|Hne].
  - rewrite ODictFacts.odict_get_set_eq. cbn. by rewrite Hcs0.
  - rewrite ODictFacts.odict_get_set_ne by done. apply Hcs0.
Qed.

(** X19.  A websocket that opens and closes leaves every organization
    with the subscribers it had: whatever [websocket_ready] returned or
    raised for a client not listed yet, [websocket_close] for that
    client then puts the list of every organization back as it was, and
    the registry is as before. *)
Theorem websocket_ready_then_close c w r w1 :
  (∀ org, c ∉ subscribers org (ws_clients w)) →
  websocket_ready c w = (r, w1) →
  ∃ w2,
    websocket_close c w1 = (Ok (), w2)
    ∧ c ∈ subscribers (header_organization c) (ws_clients w1)
    ∧ (∀ org, subscribers org (ws_clients w2)
              = subscribers org (ws_clients w))
    ∧ running_workflows w2 = running_workflows w.
Proof.
  intros Hnew Hready.
  assert (ws_clients w1
          = odict_set (header_organization c)
              (default []
                 (odict_get (header_organization c)
                    match odict_get (header_organization c) (ws_clients w)
                    with
                    | Some _ => ws_clients w
                    | None => odict_set (header_organization c) []
                                (ws_clients w)
                    end) ++ [c])
              match odict_get (header_organization c) (ws_clients w) with
              | Some _ => ws_clients w
              | None => odict_set (header_organization c) [] (ws_clients w)
              end
          ∧ running_workflows w1 = running_workflows w) as [Hcs Hreg].
  { revert Hready. unfold websocket_ready.
    unfold bind at 1, modify. unfold bind at 1, get. intros Hrep.
    destruct (RegistryFacts.kc_reports _ _ _ _ Hrep) as [_ ->].
    by destruct (RegistryFacts.kr_reports _ _ _ _ Hrep) as (-> & _ & _). }
  eexists. split; [reflexivity|].
  cbn [ws_clients set_ws_clients running_workflows].
  split; [|split; [|done]].
  - rewrite Hcs, subscribers_ready, decide_True by done.
    apply elem_of_app. right. by apply list_elem_of_singleton.
  - intros org. rewrite subscribers_close, Hcs, subscribers_ready.
    destruct (decide (org = header_organization c)).
    + by apply list_remove_snoc.
    + by apply list_remove_absent.
Qed.

(** *** sanitize_workflow_exec *)

Lemma sanitize_atom depth v (h : heap) :
  is_ref v = false →
  sanitize_workflow_exec (Datatypes.S depth) v h = (Ok (sanitized_atom v), h).
Proof. by destruct v. Qed.

(** The loop over the fields of a dict without dict or list among its
    values: every field is written back, sanitized. *)
Lemma sanitize_fields depth l (L : list (string * val)) :
  Forall (λ kv, is_ref kv.2 = false) L →
  ∀ (dcur : gmap string val) (hcur : heap),
    hcur !! l = Some (ODict dcur) →
    foldr (λ kv rest,
             let* v := sanitize_workflow_exec (Datatypes.S depth) kv.2 in
             setitem_of (VRef l) kv.1 v ;;; rest)
          (ret ()) L hcur
    = (Ok (),
       <[l := ODict (foldl (λ m kv, <[kv.1 := sanitized_atom kv.2]> m)
                           dcur L)]> hcur).
Proof.
  induction 1 as [|[k v] L Hv _ IH]; intros dcur hcur Hl.
  - cbn [foldr foldl]. unfold ret. f_equal. symmetry.
    by apply list_insert_id.
  - cbn [foldr foldl fst snd].
    erewrite bind_ok by (by apply sanitize_atom). cbv beta.
    erewrite bind_ok
      by (unfold setitem_of; erewrite bind_ok by (by apply ReportFacts.dict_of_run);
          reflexivity).
    cbv beta.
    rewrite (IH (<[k := sanitized_atom v]> dcur)).
    + f_equal. apply list_insert_insert_eq.
    + by eapply BusPersistenceFacts.lookup_set_item.
Qed.

Lemma fold_sanitized_lookup (L : list (string * val)) :
  NoDup L.*1 →
  ∀ (m : gmap string val) k,
    foldl (λ m kv, <[kv.1 := sanitized_atom kv.2]> m) m L !! k
    = match odict_get k L with
      | Some v => Some (sanitized_atom v)
      | None => m !! k
      end.
Proof.
  induction L as [|[k0 v0] L IH]; intros Hnd m k; [done|].
  apply NoDup_cons in Hnd as [Hk0 Hnd]. cbn [foldl odict_get fst snd].
  rewrite IH by done.
  destruct (decide (k = k0)) as [->|Hne].
  - destruct (odict_get k0 L) as [v|] eqn:Hget.
    + exfalso. apply Hk0. apply ODictFacts.odict_get_elem in Hget.
      apply list_elem_of_fmap. by exists (k0, v).
    + apply lookup_insert_eq.
  - destruct (odict_get k L); [done|]. by apply lookup_insert_ne.
Qed.

Lemma odict_get_map_to_list (d : gmap string val) k :
  odict_get k (map_to_list d) = d !! k.
Proof.
  destruct (d !! k) as [v|] eqn:Hk.
  - apply elem_of_map_to_list in Hk.
    pose proof (NoDup_fst_map_to_list d) as Hnd.
    induction (map_to_list d) as [|[k0 v0] L IH]; [by apply elem_of_nil in Hk|].
    apply NoDup_cons in Hnd as [Hk0 Hnd]. cbn [odict_get].
    apply elem_of_cons in Hk as [[= <- <-]|Hk].
    + by rewrite decide_True.
    + rewrite decide_False; [by apply IH|].
      intros ->. apply Hk0. apply list_elem_of_fmap. by exists (k0, v).
  - destruct (odict_get k (map_to_list d)) as [v|] eqn:Hget; [|done].
    apply ODictFacts.odict_get_elem, elem_of_map_to_list in Hget.
    congruence.
Qed.

(** X20.  On a dict whose values are neither dicts nor lists,
    [sanitize_workflow_exec] returns the dict it was given, having
    written, in place, the marker string with the name of the class over
    every value that is an instance of another class; every other field
    and every other object is as before. *)
Theorem sanitize_replaces_opaque_fields depth l (d : gmap string val)
    (h : heap) :
  h !! l = Some (ODict d) →
  map_Forall (λ _ v, is_ref v = false) d →
  sanitize_workflow_exec (Datatypes.S (Datatypes.S depth)) (VRef l) h
  = (Ok (VRef l), <[l := ODict (sanitized_atom <$> d)]> h).
Proof.
  intros Hl Hd. cbn [sanitize_workflow_exec]. rewrite Hl.
  erewrite bind_ok.
  2:{ apply sanitize_fields; [|exact Hl].
      apply Forall_forall. intros [k v] Hkv%elem_of_map_to_list.
      exact (Hd k v Hkv). }
  cbv beta. unfold ret. do 3 f_equal.
  apply map_eq. intros k.
  rewrite fold_sanitized_lookup by apply NoDup_fst_map_to_list.
  rewrite odict_get_map_to_list, lookup_fmap.
  by destruct (d !! k).
Qed.

(** The loop over the items of a list without dict or list among them. *)
Lemma sanitize_items depth (items : list val) (h : heap) :
  Forall (λ v, is_ref v = false) items →
  foldr (λ item rest,
           sanitize_workflow_exec (Datatypes.S depth) item ;;; rest)
        (ret ()) items h
  = (Ok (), h).
Proof.
  induction 1 as [|v items Hv _ IH]; [done|]. cbn [foldr].
  erewrite bind_ok by (by apply sanitize_atom). exact IH.
Qed.

(** X21.  On a list whose items are neither dicts nor lists,
    [sanitize_workflow_exec] changes nothing: what it makes of an item
    is bound to the loop variable and never written to the list, so that
    an item that is an instance of another class is still in the list
    that is returned. *)
Theorem sanitize_leaves_list_items depth l (items : list val) (h : heap) :
  h !! l = Some (OList items) →
  Forall (λ v, is_ref v = false) items →
  sanitize_workflow_exec (Datatypes.S (Datatypes.S depth)) (VRef l) h
  = (Ok (VRef l), h)
  ∧ list_of (VRef l) h = (Ok items, h).
Proof.
  intros Hl Hitems. split; [|by apply ReportFacts.list_of_run].
  cbn [sanitize_workflow_exec]. rewrite Hl.
  by erewrite bind_ok by (by apply sanitize_items).
Qed.

(** *** Lists that hold themselves *)

Lemma keeps_lists_refl h : keeps_lists h h.
Proof. split; [done|]. split; [done|]. intros l d ?. by exists d. Qed.

Lemma keeps_lists_trans h1 h2 h3 :
  keeps_lists h1 h2 → keeps_lists h2 h3 → keeps_lists h1 h3.
Proof.
  intros (Ha & Hb & Hc) (Hd & He & Hf). split; [congruence|].
  split; [by auto|].
  intros l d Hl. destruct (Hc l d Hl) as [d' Hl']. by eapply Hf.
Qed.

Lemma closed_holds h l o v :
  closed h → h !! l = Some o → holds o v → val_bound (length h) v.
Proof. intros Hc Hl Hv. destruct v; try done. by eapply Hc. Qed.

(** Writing a value of the heap under a key of a dict. *)
Lemma setitem_shape (h : heap) l d k v :
  closed h → h !! l = Some (ODict d) → val_bound (length h) v →
  let h' := <[l := ODict (<[k := v]> d)]> h in
  setitem_of (VRef l) k v h = (Ok (), h')
  ∧ keeps_lists h h' ∧ closed h'.
Proof.
  intros Hc Hl Hv h'. unfold heap, loc in *. split; [|split].
  - unfold setitem_of. by erewrite bind_ok by (by apply ReportFacts.dict_of_run).
  - subst h'. split; [apply length_insert|]. split.
    + intros l0 items Hl0. unfold heap in *.
      rewrite list_lookup_insert_ne; [done|congruence].
    + intros l0 d0 Hl0. unfold heap in *.
      destruct (decide (l0 = l)) as [->|Hne].
      * eexists. by eapply BusPersistenceFacts.lookup_set_item.
      * exists d0. by rewrite list_lookup_insert_ne.
  - subst h'. intros l0 o l' Hl0 Hh. unfold heap in *.
    replace (length (<[l := ODict (<[k := v]> d)]> h)) with (length h)
      by (symmetry; apply length_insert).
    destruct (decide (l0 = l)) as [->|Hne].
    + erewrite BusPersistenceFacts.lookup_set_item in Hl0 by done.
      injection Hl0 as <-. destruct Hh as [k' Hk'].
      destruct (decide (k' = k)) as [->|Hk].
      * rewrite lookup_insert_eq in Hk'. injection Hk' as ->. exact Hv.
      * rewrite lookup_insert_ne in Hk' by done.
        eapply Hc; [exact Hl|]. by exists k'.
    + rewrite list_lookup_insert_ne in Hl0 by done. by eapply Hc.
Qed.

(** What [sanitize_workflow_exec] does to the heap on any value, at any
    depth: it makes no object and changes no list, it leaves the heap
    closed, and the only exception it raises is [RecursionError]. *)
Lemma sanitize_shape depth :
  ∀ v (h : heap) r h',
    closed h → val_bound (length h) v →
    sanitize_workflow_exec depth v h = (r, h') →
    keeps_lists h h' ∧ closed h'
    ∧ (r = Raise RecursionError
       ∨ ∃ v', r = Ok v' ∧ val_bound (length h) v').
Proof.
  induction depth as [|depth IH]; intros v h r h' Hc Hv.
  { intros [= <- <-]. split; [apply keeps_lists_refl|]. split; [done|].
    by left. }
  destruct v as [| | | | |ty|l]; cbn [sanitize_workflow_exec];
    try (intros [= <- <-]; split; [apply keeps_lists_refl|];
         split; [done|]; right; by eexists).
  cbn in Hv. destruct (h !! l) as [o|] eqn:Hl;
    [|apply lookup_ge_None in Hl; lia].
  destruct o as [d|items].
  - (* a dict *)
    assert (∀ (L : list (string * val)) (hc : heap) r1 h1,
              Forall (λ kv, val_bound (length h) kv.2) L →
              closed hc → keeps_lists h hc →
              foldr (λ kv rest,
                       let* v := sanitize_workflow_exec depth kv.2 in
                       setitem_of (VRef l) kv.1 v ;;; rest)
                    (ret ()) L hc = (r1, h1) →
              keeps_lists h h1 ∧ closed h1
              ∧ (r1 = Raise RecursionError ∨ r1 = Ok ())) as Hloop.
    { induction L as [|[k v] L IHL]; intros hc r1 h1 HL Hcc Hk; cbn [foldr].
      { intros [= <- <-]. split; [done|]. split; [done|]. by right. }
      apply Forall_cons in HL as [Hkv HL]. cbn [fst snd] in *.
      unfold bind at 1.
      destruct (sanitize_workflow_exec depth v hc) as [r2 h2] eqn:Es.
      apply IH in Es as (Hk2 & Hc2 & Hr2);
        [|done|by rewrite (proj1 Hk)].
      assert (keeps_lists h h2) as Hk' by (by eapply keeps_lists_trans).
      destruct Hr2 as [->|(v' & -> & Hv')].
      { intros [= <- <-]. split; [done|]. split; [done|]. by left. }
      destruct (proj2 (proj2 Hk') l d Hl) as [d2 Hl2].
      destruct (setitem_shape h2 l d2 k v' Hc2 Hl2) as (Hset & Hk3 & Hc3).
      { by rewrite (proj1 Hk2). }
      unfold bind at 1. rewrite Hset.
      apply IHL; [done|done|]. by eapply keeps_lists_trans. }
    unfold bind at 1.
    match goal with
    | |- context [foldr ?f ?a ?L h] =>
        destruct (foldr f a L h) as [r1 h1] eqn:Ef
    end.
    apply Hloop in Ef as (Hk1 & Hc1 & Hr1);
      [|idtac|done|apply keeps_lists_refl].
    + destruct Hr1 as [-> | ->]; intros [= <- <-];
        (split; [done|]; split; [done|]); [by left|right; by eexists].
    + apply Forall_forall. intros [k v] Hkv%elem_of_map_to_list.
      eapply closed_holds; [exact Hc|exact Hl|]. by exists k.
  - (* a list *)
    assert (∀ (L : list val) (hc : heap) r1 h1,
              Forall (val_bound (length h)) L →
              closed hc → keeps_lists h hc →
              foldr (λ item rest,
                       sanitize_workflow_exec depth item ;;; rest)
                    (ret ()) L hc = (r1, h1) →
              keeps_lists h h1 ∧ closed h1
              ∧ (r1 = Raise RecursionError ∨ r1 = Ok ())) as Hloop.
    { induction L as [|v L IHL]; intros hc r1 h1 HL Hcc Hk; cbn [foldr].
      { intros [= <- <-]. split; [done|]. split; [done|]. by right. }
      apply Forall_cons in HL as [Hkv HL].
      unfold bind at 1.
      destruct (sanitize_workflow_exec depth v hc) as [r2 h2] eqn:Es.
      apply IH in Es as (Hk2 & Hc2 & Hr2);
        [|done|by rewrite (proj1 Hk)].
      assert (keeps_lists h h2) as Hk' by (by eapply keeps_lists_trans).
      destruct Hr2 as [->|(v' & -> & Hv')].
      { intros [= <- <-]. split; [done|]. split; [done|]. by left. }
      by apply IHL. }
    unfold bind at 1.
    match goal with
    | |- context [foldr ?f ?a ?L h] =>
        destruct (foldr f a L h) as [r1 h1] eqn:Ef
    end.
    apply Hloop in Ef as (Hk1 & Hc1 & Hr1);
      [|idtac|done|apply keeps_lists_refl].
    + destruct Hr1 as [-> | ->]; intros [= <- <-];
        (split; [done|]; split; [done|]); [by left|right; by eexists].
    + apply Forall_forall. intros v Hin.
      by eapply closed_holds.
Qed.

(** The loop over the items of a list, one of which is the list. *)
Lemma sanitize_loop_reaches depth l items :
  (∀ h : heap, closed h → h !! l = Some (OList items) →
     ∃ h', sanitize_workflow_exec depth (VRef l) h
           = (Raise RecursionError, h')
           ∧ keeps_lists h h') →
  ∀ pre post (h : heap),
    closed h → h !! l = Some (OList items) →
    Forall (val_bound (length h)) pre →
    ∃ h', foldr (λ item rest, sanitize_workflow_exec depth item ;;; rest)
                (ret ()) (pre ++ VRef l :: post) h
          = (Raise RecursionError, h')
          ∧ keeps_lists h h'.
Proof.
  intros Hself. induction pre as [|v pre IHp]; intros post h Hc Hl Hpre.
  - cbn [app foldr]. destruct (Hself h Hc Hl) as (h' & Hrun & Hk).
    exists h'. split; [|done]. by erewrite bind_raise by exact Hrun.
  - apply Forall_cons in Hpre as [Hv Hpre]. cbn [app foldr].
    destruct (sanitize_workflow_exec depth v h) as [r1 h1] eqn:Es.
    pose proof (sanitize_shape depth v h r1 h1 Hc Hv Es)
      as (Hk1 & Hc1 & Hr1).
    destruct Hr1 as [->|(v' & -> & _)].
    + exists h1. split; [|done]. by erewrite bind_raise by exact Es.
    + destruct (IHp post h1) as (h' & Hrun & Hk); [done|by apply Hk1| |].
      { by rewrite (proj1 Hk1). }
      exists h'. split; [|by eapply keeps_lists_trans].
      by erewrite bind_ok by exact Es.
Qed.

(** X22.  On a list that holds itself, at whatever place, in a heap
    where every reference is to an object, [sanitize_workflow_exec]
    raises [RecursionError] whatever depth of calls is left.  Until then
    it makes no object and changes no list; the dicts reached through
    the items before the list itself may have been sanitized in place.
    When none of the items before the list itself is a dict or a list,
    nothing at all is changed. *)
Theorem sanitize_cyclic_list_raises depth l (items : list val) (h : heap) :
  closed h →
  h !! l = Some (OList items) →
  VRef l ∈ items →
  ∃ h',
    sanitize_workflow_exec depth (VRef l) h = (Raise RecursionError, h')
    ∧ keeps_lists h h'
    ∧ (∀ pre post, items = pre ++ VRef l :: post →
         Forall (λ v, is_ref v = false) pre → h' = h).
Proof.
  intros Hc Hl Hin.
  assert (∀ n (h : heap),
            closed h → h !! l = Some (OList items) →
            ∃ h', sanitize_workflow_exec n (VRef l) h
                  = (Raise RecursionError, h')
                  ∧ keeps_lists h h') as Hany.
  { clear h Hc Hl. induction n as [|n IH]; intros h Hc Hl.
    { exists h. split; [done|apply keeps_lists_refl]. }
    apply list_elem_of_split in Hin as (pre & post & Hitems).
    destruct (sanitize_loop_reaches n l items IH pre post h Hc Hl)
      as (h' & Hrun & Hk).
    { apply Forall_forall. intros v Hv.
      eapply closed_holds; [exact Hc|exact Hl|]. cbn. rewrite Hitems.
      apply elem_of_app. by left. }
    exists h'. split; [|done].
    cbn [sanitize_workflow_exec]. rewrite Hl. rewrite Hitems at 1.
    by erewrite bind_raise by exact Hrun. }
  destruct (Hany depth h Hc Hl) as (h' & Hrun & Hk).
  exists h'. split; [done|]. split; [done|].
  intros pre post Hitems Hpre.
  assert (∀ n,
            sanitize_workflow_exec n (VRef l) h
            = (Raise RecursionError, h)) as Hsame.
  { clear h' Hrun Hk. induction n as [|n IH]; [done|].
    cbn [sanitize_workflow_exec]. rewrite Hl, Hitems.
    rewrite foldr_app.
    erewrite bind_raise; [reflexivity|].
    clear Hitems. induction Hpre as [|v pre Hv _ IHpre].
    - cbn [foldr]. by erewrite bind_raise by exact IH.
    - cbn [foldr]. destruct n as [|n'].
      + done.
      + erewrite bind_ok by (by apply sanitize_atom).
        exact IHpre. }
  rewrite Hsame in Hrun. by injection Hrun.
Qed.

(** *** Runs on sample data *)

Import WorkflowSamples MoreWorkflowSamples.

Lemma new_workflow_registers_witness :
  ∃ w',
    new_workflow (VRef 3%nat) (execution "x3") (Some "acme") ∅
      (two_tenants (Ok ()))
    = (Ok (new_instance (VRef 3%nat) (execution "x3") (Some "acme") ∅), w')
    ∧ record_count (running_workflows w') = 3%nat
    ∧ registered "x3"
        (new_instance (VRef 3%nat) (execution "x3") (Some "acme") ∅)
        (running_workflows w')
    ∧ records_by_organization (running_workflows w')
    ∧ ws_clients w' = ws_clients (two_tenants (Ok ()))
    ∧ inserts w' = [] ∧ sends w' = [] ∧ objects w' = template_heap.
Proof.
  apply (RegistryFacts.new_workflow_registers (VRef 3%nat) (execution "x3")
           (Some "acme") ∅ (two_tenants (Ok ()))).
  - repeat constructor.
  - apply RegistryFacts.two_tenants_records.
Defined.

Lemma handlers_keep_tenants_apart_witness :
  (∀ r w',
     new_workflow (VRef 3%nat) (execution "x3") (Some "acme") ∅
       (two_tenants (Ok ())) = (r, w') →
     tenants_apart w')
  ∧ (∀ r w',
       report_workflow (S := exec_states)
         (engine_event "workflow-end" "x2") 1700000000
         (two_tenants (Ok ())) = (r, w') →
       tenants_apart w'
       ∧ (record_count (running_workflows w') ≤ 2)%nat).
Proof.
  destruct (handlers_keep_tenants_apart (S := exec_states)
              (two_tenants (Ok ())))
    as (Hnew & Hreport & _ & _).
  - split; [apply RegistryFacts.two_tenants_clients
           | apply RegistryFacts.two_tenants_records].
  - split.
    + intros r w' Hrun.
      exact (Hnew (VRef 3%nat) (execution "x3") (Some "acme") ∅ r w' Hrun).
    + intros r w' Hrun.
      exact (Hreport (engine_event "workflow-end" "x2") 1700000000 r w'
               Hrun).
Defined.

Lemma progress_payload_witness :
  ∃ w' p,
    report_workflow (S := exec_states)
      (content_event "workflow-begin" "x2" (VStr "")) 1700000000
      (two_tenants (Ok ())) = (Ok (), w')
    ∧ sends w' = [([bob], p)]
    ∧ p_type p = VStr "workflow-begin" ∧ p_timestamp p = 1700000000
    ∧ p_source p
      = {[ "workflow_exec_requester" := VStr "bob";
           "workflow_exec_id" := VStr "x2" ]}
    ∧ p_template p = Some (VRef 3%nat)
    ∧ p_data p = VRef 4%nat
    ∧ objects w' = template_heap ++ [ODict ∅].
Proof.
  destruct (progress_payload (S := exec_states)
              (content_event "workflow-begin" "x2" (VStr "")) 1700000000
              (two_tenants (Ok ())) "x2" (wflow "x2" (Some "globex"))
              (VStr "workflow-begin") eq_refl
              (RegistryFacts.x2_registered _) eq_refl eq_refl)
    as (w' & p & Hrun & Hsends & Hty & Htime & Hsrc & Htpl & Hdata & Hobj).
  exists w', p.
  split; [exact Hrun|]. split; [exact Hsends|]. split; [exact Hty|].
  split; [exact Htime|]. split; [exact Hsrc|]. split; [exact Htpl|].
  split; [exact Hdata | exact Hobj].
Defined.

Lemma websocket_close_removes_client_witness :
  ∃ w',
    websocket_close alice (two_tenants (Ok ())) = (Ok (), w')
    ∧ odict_keys (ws_clients w') = [Some "acme"; Some "globex"]
    ∧ subscribers (Some "acme") (ws_clients w') = []
    ∧ (alice ∉ subscribers (Some "acme") (ws_clients w'))
    ∧ bob ∈ subscribers (Some "globex") (ws_clients w').
Proof.
  destruct (websocket_close_removes_client alice (two_tenants (Ok ())))
    as (w' & Hrun & Hkeys & Hsub & Hother & Hnd & _).
  exists w'. split; [exact Hrun|]. split; [exact Hkeys|].
  split; [exact (Hsub (Some "acme"))|].
  split; [apply Hnd; apply NoDup_singleton|].
  apply (Hother (Some "globex") bob); [discriminate|].
  apply list_elem_of_here.
Defined.

Lemma websocket_ready_then_close_witness :
  let carol := {| client_id := 3%nat;
                  header_organization := Some "initech" |} in
  let w1 := (websocket_ready carol (two_tenants (Ok ()))).2 in
  ∃ w2,
    websocket_close carol w1 = (Ok (), w2)
    ∧ carol ∈ subscribers (Some "initech") (ws_clients w1)
    ∧ (∀ org, subscribers org (ws_clients w2)
              = subscribers org (ws_clients (two_tenants (Ok ()))))
    ∧ running_workflows w2 = running_workflows (two_tenants (Ok ())).
Proof.
  apply (websocket_ready_then_close
           {| client_id := 3%nat; header_organization := Some "initech" |}
           (two_tenants (Ok ()))
           (websocket_ready
              {| client_id := 3%nat; header_organization := Some "initech" |}
              (two_tenants (Ok ()))).1
           (websocket_ready
              {| client_id := 3%nat; header_organization := Some "initech" |}
              (two_tenants (Ok ()))).2); [|apply surjective_pairing].
  intros org Hin.
  apply RegistryFacts.subscribers_elem in Hin as (l & Hl & Hc). cbn in Hl.
  apply elem_of_cons in Hl as [[= -> ->]|Hl];
    [|apply list_elem_of_singleton in Hl as [= -> ->]];
    by apply list_elem_of_singleton in Hc.
Defined.

Lemma sanitize_replaces_opaque_fields_witness :
  sanitize_workflow_exec 2 (VRef 0%nat) [ODict with_opaque]
  = (Ok (VRef 0%nat),
     [ODict (sanitized_atom <$> with_opaque)])
  ∧ (sanitized_atom <$> with_opaque) !! "task"
    = Some (VStr "Internal server data: <class 'tukio.task.TaskHolder'>").
Proof.
  split; [|reflexivity].
  apply (sanitize_replaces_opaque_fields 0 0%nat with_opaque
           [ODict with_opaque]).
  - reflexivity.
  - unfold with_opaque.
    apply map_Forall_insert_2; [reflexivity|].
    apply map_Forall_insert_2; [reflexivity|].
    by apply map_Forall_singleton.
Defined.

Lemma sanitize_leaves_list_items_witness :
  sanitize_workflow_exec 2 (VRef 0%nat)
    [OList [VInt 1; VOpaque "tukio.task.TaskHolder"]]
  = (Ok (VRef 0%nat), [OList [VInt 1; VOpaque "tukio.task.TaskHolder"]])
  ∧ list_of (VRef 0%nat) [OList [VInt 1; VOpaque "tukio.task.TaskHolder"]]
    = (Ok [VInt 1; VOpaque "tukio.task.TaskHolder"],
       [OList [VInt 1; VOpaque "tukio.task.TaskHolder"]]).
Proof.
  apply (sanitize_leaves_list_items 0 0%nat
           [VInt 1; VOpaque "tukio.task.TaskHolder"]
           [OList [VInt 1; VOpaque "tukio.task.TaskHolder"]]).
  - reflexivity.
  - by repeat constructor.
Defined.

Lemma self_listed_closed : closed self_listed.
Proof.
  intros l o l' Hl Hh. cbn [length self_listed].
  destruct l as [|[|l]]; cbn in Hl; [| |done]; injection Hl as <-.
  - destruct Hh as [k Hk]. unfold with_opaque in Hk.
    apply lookup_insert_Some in Hk as [[_ [=]]|[_ Hk]].
    apply lookup_insert_Some in Hk as [[_ [=]]|[_ Hk]].
    by apply lookup_singleton_Some in Hk as [_ [=]].
  - cbn in Hh. apply elem_of_cons in Hh as [[= ->]|Hh]; [cbn; lia|].
    apply elem_of_cons in Hh as [[=]|Hh].
    apply list_elem_of_singleton in Hh as [= ->]. cbn. lia.
Qed.

Lemma sanitize_cyclic_list_raises_witness :
  ∃ h',
    sanitize_workflow_exec 900 (VRef 1%nat) self_listed
    = (Raise RecursionError, h')
    ∧ keeps_lists self_listed h'
    ∧ (∀ pre post,
         [VRef 0%nat; VInt 1; VRef 1%nat] = pre ++ VRef 1%nat :: post →
         Forall (λ v, is_ref v = false) pre → h' = self_listed).
Proof.
  apply (sanitize_cyclic_list_raises 900 1%nat
           [VRef 0%nat; VInt 1; VRef 1%nat] self_listed).
  - exact self_listed_closed.
  - reflexivity.
  - apply elem_of_cons. right. apply elem_of_cons. right.
    apply list_elem_of_here.
Defined.

End RegistryMoreFacts.

(** ** WorkflowInstance.report, further *)

Module ReportMoreFacts.
Import Workflow WorkflowSpec.

(** An id no entry of [view] has is not a key of the dict [tasks]. *)
Lemma view_rel_absent (h : heap) tasks view i :
  view_rel h tasks view → i ∉ view.*1 → odict_get (VStr i) tasks = None.
Proof.
  induction 1 as [|[k r] [j s] tasks view (Hk & _) _ IH]; [done|].
  cbn in Hk. subst k. cbn [fmap list_fmap fst].
  intros [Hne Hin]%not_elem_of_cons. cbn [odict_get].
  rewrite decide_False by congruence. by apply IH.
Qed.

(** The merge loop stops at the first dynamic state of a task the
    template does not have. *)
Lemma merge_tasks_unknown (dd : list (loc * gmap string val)) le de i post :
  ∀ tasks view (h : heap),
    view_rel h tasks view →
    Forall (λ p, h !! p.1 = Some (ODict p.2)
                 ∧ ∃ i, p.2 !! "id" = Some (VStr i) ∧ i ∈ view.*1) dd →
    h !! le = Some (ODict de) →
    de !! "id" = Some (VStr i) →
    i ∉ view.*1 →
    ∃ ext,
      merge_tasks tasks (((λ p, VRef p.1) <$> dd) ++ VRef le :: post) h
      = (Raise (KeyError (VStr i)), h ++ ext).
Proof.
  induction dd as [|[l d] dd IH]; intros tasks view h Hrel Hdd Hle Hid Hnot.
  - exists []. rewrite app_nil_r. cbn [fmap list_fmap app merge_tasks].
    erewrite bind_ok by (by eapply ReportFacts.getitem_of_run). cbv beta.
    erewrite bind_ok by reflexivity. cbv beta.
    by rewrite (view_rel_absent _ _ _ _ Hrel Hnot).
  - apply Forall_cons in Hdd as [(Hl & j & Hjd & Hin) Hdd]. cbn in Hl, Hjd.
    destruct (ReportFacts.merge_step _ _ _ _ Hrel Hin)
      as (lo & s & Hget & Hlo & Hset).
    assert (view_rel (h ++ [ODict (dict_merge s d)])
              (odict_set (VStr j) (VRef (length h)) tasks)
              (view_merge_dynamic view d)) as Hrel'.
    { unfold view_merge_dynamic. rewrite Hjd. apply Hset.
      apply ReportFacts.heap_lookup_snoc. }
    destruct (IH _ _ _ Hrel') as (ext & Hrun).
    { eapply Forall_impl; [exact Hdd|].
      intros [l' d'] (Hl' & i' & Hid' & Hin'). split.
      - by apply lookup_app_l_Some.
      - exists i'. split; [done|].
        by rewrite ReportFacts.view_merge_dynamic_keys. }
    { by apply lookup_app_l_Some. }
    { done. }
    { by rewrite ReportFacts.view_merge_dynamic_keys. }
    exists ([ODict (dict_merge s d)] ++ ext).
    cbn [fmap list_fmap app merge_tasks fst snd].
    erewrite bind_ok by (by eapply ReportFacts.getitem_of_run). cbv beta.
    erewrite bind_ok by reflexivity. cbv beta.
    rewrite Hget.
    erewrite bind_ok by (by apply ReportFacts.dict_of_run). cbv beta.
    erewrite bind_ok by (by apply ReportFacts.dict_of_run). cbv beta.
    erewrite bind_ok by apply ReportFacts.alloc_run. cbv beta.
    rewrite Hrun. by rewrite <- app_assoc.
Qed.

(** X23.  For a stored template whose task list holds one dict per task,
    each under its own id, [report()] raises [KeyError] with the id of
    the first dynamic state the execution reports for a task the
    template does not have; every object that existed, the stored
    template and its tasks among them, is as it was. *)
Theorem report_unknown_task_raises self (h : heap) tl td tll
    (tt : list template_task) pre d post i :
  _template self = VRef tl →
  h !! tl = Some (ODict td) →
  td !! "tasks" = Some (VRef tll) →
  h !! tll = Some (OList ((λ t, VRef (task_loc t)) <$> tt)) →
  Forall (λ t, h !! task_loc t = Some (ODict (task_dict t))
               ∧ task_dict t !! "id" = Some (VStr (task_id t))) tt →
  NoDup (task_id <$> tt) →
  tasks_report (_instance self) = pre ++ d :: post →
  Forall (λ d, ∃ i, d !! "id" = Some (VStr i) ∧ i ∈ task_id <$> tt) pre →
  d !! "id" = Some (VStr i) →
  i ∉ task_id <$> tt →
  ∃ h',
    report self h = (Raise (KeyError (VStr i)), h')
    ∧ ∀ l o, h !! l = Some o → h' !! l = Some o.
Proof.
  intros Ht Htl Htasks Hlist Htt Hnd Hds Hpre Hid Hnot.
  set (ds := tasks_report (_instance self)) in *.
  set (ex := exec_report (_instance self)).
  set (n := length h).
  set (refs := OList (VRef <$> seq (n + 2) (length ds))).
  set (top := ODict {[ "exec" := VRef (n + 1)%nat;
                       "tasks" := VRef (n + length ds + 2)%nat ]}).
  set (view0 := (λ t, (task_id t, task_dict t)) <$> tt).
  assert (view0.*1 = task_id <$> tt) as Hkeys.
  { subst view0. rewrite <- list_fmap_compose. done. }
  set (h5 := h ++ ODict td :: ODict ex :: (ODict <$> ds) ++ [refs; top]).
  assert (Workflow_report (_instance self) (h ++ [ODict td])
          = (Ok (VRef (n + length ds + 3)%nat), h5)) as Hinst.
  { rewrite ReportFacts.Workflow_report_spec. fold ds ex.
    rewrite length_app. cbn [length]. fold n. f_equal.
    - do 2 f_equal. lia.
    - subst h5 refs top. rewrite <- app_assoc. cbn [app].
      replace (S (n + 1)) with (n + 2)%nat by lia.
      by replace (n + 1 + length ds + 1)%nat
        with (n + length ds + 2)%nat by lia. }
  set (ex' := ODict (dict_merge ex (_exec self))).
  set (h6 := h ++ ODict td :: ex' :: (ODict <$> ds) ++ [refs; top]).
  assert (<[(n + 1)%nat := ex']> h5 = h6) as Hupd.
  { subst h5 h6 n. replace (length h + 1)%nat with (S (length h)) by lia.
    apply ReportFacts.block_insert. }
  destruct (ReportFacts.block_lookup h (ODict td) (ODict ex) (ODict <$> ds)
              refs top)
    as (H5a & H5b & _ & _ & H5e & H5h).
  destruct (ReportFacts.block_lookup h (ODict td) ex' (ODict <$> ds)
              refs top)
    as (H6a & H6b & H6D & H6c & H6e & H6h).
  rewrite length_fmap in H5e, H6c, H6e. fold n h5 in H5a, H5b, H5e, H5h.
  fold n h6 in H6a, H6b, H6D, H6c, H6e, H6h.
  assert (tasks_by_id [] ((λ t, VRef (task_loc t)) <$> tt) h5
          = (Ok ((λ t, (VStr (task_id t), VRef (task_loc t))) <$> tt), h5))
    as Hby.
  { rewrite ReportFacts.tasks_by_id_spec; [done| |done|].
    - eapply Forall_impl; [exact Htt|]. intros t [Hl Hid']. split; [|done].
      by apply H5h.
    - by apply Forall_forall. }
  assert (view_rel h6 ((λ t, (VStr (task_id t), VRef (task_loc t))) <$> tt)
                   view0) as Hrel0.
  { subst view0. unfold view_rel. apply Forall2_fmap.
    apply Forall_Forall2_diag. eapply Forall_impl; [exact Htt|].
    intros t [Hl Hid']. cbn. split; [done|]. exists (task_loc t).
    split; [done|]. by apply H6h. }
  (* where the dynamic states are *)
  assert (VRef <$> seq (n + 2) (length ds)
          = ((λ p : loc * gmap string val, VRef p.1)
               <$> zip (seq (n + 2) (length pre)) pre)
            ++ VRef (n + 2 + length pre)%nat
               :: (VRef <$> seq (n + 2 + length pre + 1) (length post)))
    as Hrefs.
  { rewrite Hds, length_app. cbn [length].
    rewrite seq_app, fmap_app. f_equal.
    - rewrite <- (fst_zip (seq (n + 2) (length pre)) pre) at 1
        by (by rewrite length_seq).
      by rewrite <- list_fmap_compose.
    - cbn [seq fmap list_fmap]. f_equal.
      by replace (S (n + 2 + length pre))
        with (n + 2 + length pre + 1)%nat by lia. }
  destruct (merge_tasks_unknown (zip (seq (n + 2) (length pre)) pre)
              (n + 2 + length pre)%nat d i
              (VRef <$> seq (n + 2 + length pre + 1) (length post))
              _ view0 h6 Hrel0) as (ext & Hmerge).
  { apply ReportFacts.dynamic_states_at; [|by rewrite Hkeys].
    intros j o Hj. apply H6D. rewrite Hds, fmap_app.
    by apply lookup_app_l_Some. }
  { apply H6D. rewrite Hds, fmap_app.
    rewrite lookup_app_r by (by rewrite length_fmap).
    by rewrite length_fmap, Nat.sub_diag. }
  { done. }
  { by rewrite Hkeys. }
  rewrite <- Hrefs in Hmerge. clear Hrefs.
  exists (h6 ++ ext). split.
  - unfold report. rewrite Ht.
    erewrite bind_ok by (by apply ReportFacts.copy_of_run). cbv beta.
    erewrite bind_ok by exact Hinst. cbv beta. fold n.
    erewrite bind_ok by (by eapply ReportFacts.getitem_of_run). cbv beta.
    erewrite bind_ok by (apply ReportFacts.list_of_run; by apply H5h).
    cbv beta.
    erewrite bind_ok by exact Hby. cbv beta.
    erewrite bind_ok
      by (eapply ReportFacts.getitem_of_run; [exact H5e|reflexivity]).
    cbv beta.
    erewrite bind_ok
      by (apply ReportFacts.update_of_run;
          replace (n + 1)%nat with (S n) by lia; exact H5b).
    cbv beta.
    match goal with
    | |- ?f ?hh = _ => change hh with (<[(n + 1)%nat := ex']> h5)
    end.
    rewrite Hupd.
    erewrite bind_ok
      by (eapply ReportFacts.getitem_of_run; [exact H6e|reflexivity]).
    cbv beta.
    erewrite bind_ok by (apply ReportFacts.list_of_run; exact H6c).
    cbv beta.
    by erewrite bind_raise by exact Hmerge.
  - intros l o Hl. apply lookup_app_l_Some. by apply H6h.
Qed.

Import WorkflowSamples ReportSamples.

Lemma report_unknown_task_raises_witness :
  ∃ h',
    report (stray "x7" (Some "acme")) template_heap
    = (Raise (KeyError (VStr "t9")), h')
    ∧ ∀ l o, template_heap !! l = Some o → h' !! l = Some o.
Proof.
  apply (report_unknown_task_raises (stray "x7" (Some "acme"))
           template_heap 3%nat template_dict 2%nat sample_tasks
           [dynamic_t1] dynamic_t9 [] "t9").
  - reflexivity.
  - reflexivity.
  - reflexivity.
  - reflexivity.
  - repeat constructor.
  - apply NoDup_cons. split; [|apply NoDup_singleton].
    intros H. by apply list_elem_of_singleton in H.
  - reflexivity.
  - constructor; [|constructor]. exists "t1". split; [reflexivity|].
    apply list_elem_of_here.
  - reflexivity.
  - intros [H|H]%elem_of_cons; [done|].
    by apply list_elem_of_singleton in H.
Defined.

End ReportMoreFacts.

(** ** WorkflowNyuki: an execution that cannot be finalized *)

Module FinalizeFacts.
Import Workflow WorkflowSpec.

Section handler.
Context {S : WorkflowExecState}.

(** X24.  A terminal event about a registered execution whose merged
    report cannot be built, or cannot be sanitized, makes
    [report_workflow] raise what [report()] or [sanitize_workflow_exec]
    raised, with the tenant store reachable: the record stays in the
    registry, nothing is handed to the store and nothing is broadcast. *)
Theorem terminal_event_report_fails event utcnow w s wflow ty e h1 :
  source event !! "workflow_exec_id" = Some (VStr s) →
  registered s wflow (running_workflows w) →
  data event !! "type" = Some ty →
  is_terminal ty = true →
  store_reachable (_organization wflow) w →
  report wflow (objects w) = (Raise e, h1)
  ∨ (∃ r h0, report wflow (objects w) = (Ok r, h0)
             ∧ sanitize_workflow_exec (recursion_budget w) r h0
               = (Raise e, h1)) →
  ∃ w',
    report_workflow event utcnow w = (Raise e, w')
    ∧ running_workflows w' = running_workflows w
    ∧ inserts w' = inserts w ∧ sends w' = sends w
    ∧ objects w' = h1.
Proof.
  intros Hsrc Hreg Hty Hterm Hstore Hfail. unfold report_workflow.
  erewrite bind_ok by (unfold lift, getitem; rewrite Hsrc; reflexivity).
  cbv beta.
  erewrite bind_ok by reflexivity. cbv beta.
  erewrite bind_ok
    by (unfold lift;
        rewrite (RegistryFacts.find_workflow_registered _ _ _ Hreg);
        reflexivity).
  cbv beta iota.
  erewrite bind_ok by (unfold lift, getitem; rewrite Hty; reflexivity).
  cbv beta. rewrite Hterm.
  destruct (RegistryFacts.db_context_ok _ _ Hstore) as (D & Hdb).
  destruct Hfail as [Hrep|(r & h0 & Hrep & Hsan)].
  - erewrite bind_raise.
    2:{ erewrite bind_ok by exact Hdb. cbv beta.
        erewrite bind_raise
          by (unfold on_objects; cbn [objects set_databases];
              rewrite Hrep; reflexivity).
        reflexivity. }
    eexists. split; [reflexivity|]. done.
  - erewrite bind_raise.
    2:{ erewrite bind_ok by exact Hdb. cbv beta.
        erewrite bind_ok
          by (unfold on_objects; cbn [objects set_databases];
              rewrite Hrep; reflexivity).
        cbv beta.
        erewrite bind_ok by reflexivity. cbv beta.
        erewrite bind_raise
          by (unfold on_objects;
              cbn [objects set_objects set_databases recursion_budget];
              rewrite Hsan; reflexivity).
        reflexivity. }
    eexists. split; [reflexivity|]. done.
Qed.

End handler.

Import WorkflowSamples ReportSamples.

Lemma terminal_event_report_fails_witness :
  ∃ w',
    report_workflow (S := exec_states)
      (engine_event "workflow-end" "x7") 1700000000 stray_world
    = (Raise (KeyError (VStr "t9")), w')
    ∧ running_workflows w' = running_workflows stray_world
    ∧ inserts w' = [] ∧ sends w' = []
    ∧ objects w'
      = (report (stray "x7" (Some "acme")) template_heap).2.
Proof.
  apply (terminal_event_report_fails (S := exec_states)
           (engine_event "workflow-end" "x7") 1700000000 stray_world
           "x7" (stray "x7" (Some "acme")) (VStr "workflow-end")
           (KeyError (VStr "t9"))).
  - reflexivity.
  - exists [], [("x7", stray "x7" (Some "acme"))], [].
    split; [reflexivity|]. split; [constructor | reflexivity].
  - reflexivity.
  - reflexivity.
  - split; [reflexivity|]. by right.
  - left. vm_compute. reflexivity.
Defined.

End FinalizeFacts.
